(** * Retry executor and completion pollers of the course-content dashboard

A shallow embedding of [fetchWithRetry] and [apiCall] (the API helper
module), of the dashboard poller [waitForGeneration]
(pages/BackendTest.tsx) and of the generator poller
[waitForGenerationCompletion] (components/content/PersonalizedGenerator.tsx),
followed by the properties of the specification that concern them.

The asynchronous code is sequential (every promise is awaited at once), so
it is modelled by explicit state passing over a [World]: the number of
requests issued so far, a millisecond clock, and the log of observable
effects.  The network is an oracle that gives, for the n-th request, what
the platform [fetch] does with it and how long it takes. *)

From Stdlib Require Import ZArith List String Ascii Bool Lia.
From Stdlib Require Import DecimalString.
Import ListNotations.
Open Scope string_scope.
Open Scope Z_scope.

(** ** JavaScript values *)

Module Js.

(** A value produced by [JSON.parse]; numbers are the integer-valued ones. *)
#[local] Unset Elimination Schemes.
Inductive json : Type :=
| JNull
| JBool (b : bool)
| JNum (n : Z)
| JStr (s : string)
| JArr (items : list json)
| JObj (fields : list (string * json)).
#[local] Set Elimination Schemes.

(** An instance of [Error] (or of a subclass, [DOMException] included). *)
Record JsError : Type := mkError { name : string; message : string }.

(** What a [throw] (or a rejected promise) carries.  A thrown value that is
    not an [Error] is kept as the text [String(v)] gives for it. *)
Inductive thrown : Type :=
| ThrownError (e : JsError)
| ThrownUndefined
| ThrownOther (shown : string).

(** [new Error(msg)] *)
Definition newError (msg : string) : JsError :=
  {| name := "Error"; message := msg |}.

(** [String(v)] on a thrown value *)
Definition String_of (t : thrown) : string :=
  match t with
  | ThrownError e =>
      if String.eqb (message e) "" then name e
      else name e ++ ": " ++ message e
  | ThrownUndefined => "undefined"
  | ThrownOther s => s
  end.

(** How a number is rendered inside a template literal. *)
Definition show (z : Z) : string := NilZero.string_of_int (Z.to_int z).

(** A JavaScript number, as far as the program compares it with an integer
    counter and prints it: an integer, a value that is not an integer (given
    by the integer below it and by the text JavaScript prints for it), an
    infinity, or NaN.  A number holds an integer exactly up to 2^53 in
    absolute value, and a counter incremented by one counts exactly up to
    there. *)
Inductive number : Type :=
| Integral (z : Z)
| Fractional (below : Z) (shown : string)
| Infinity
| NegInfinity
| NaN.

Coercion Integral : Z >-> number.
Bind Scope Z_scope with number.

(** [a <= m] for an integer [a] *)
Definition number_le (a : Z) (m : number) : bool :=
  match m with
  | Integral z => a <=? z
  | Fractional below _ => a <=? below
  | Infinity => true
  | NegInfinity | NaN => false
  end.

(** [a === m] for an integer [a] *)
Definition number_eq (a : Z) (m : number) : bool :=
  match m with
  | Integral z => a =? z
  | _ => false
  end.

(** How a number is rendered inside a template literal. *)
Definition show_number (m : number) : string :=
  match m with
  | Integral z => show z
  | Fractional _ shown => shown
  | Infinity => "Infinity"
  | NegInfinity => "-Infinity"
  | NaN => "NaN"
  end.

(** A number that is not an integer: [a === m] holds of no integer [a]. *)
Definition fractional (m : number) : bool :=
  match m with
  | Fractional _ _ => true
  | _ => false
  end.

(** The integers [a >= 1] with [a <= m] are those up to [bound m]; there is
    no such bound for [Infinity]. *)
Definition bound (m : number) : option Z :=
  match m with
  | Integral z => Some z
  | Fractional below _ => Some below
  | Infinity => None
  | NegInfinity | NaN => Some 0
  end.

(** JavaScript truthiness; [None] stands for [undefined]. *)
Definition truthy (v : option json) : bool :=
  match v with
  | None => false
  | Some JNull => false
  | Some (JBool b) => b
  | Some (JNum n) => negb (n =? 0)
  | Some (JStr s) => negb (String.eqb s "")
  | Some (JArr _) => true
  | Some (JObj _) => true
  end.

(** Own property of a parsed object; of a repeated key [JSON.parse] keeps
    the last occurrence. *)
Fixpoint lookup (key : string) (fields : list (string * json)) : option json :=
  match fields with
  | [] => None
  | (k, v) :: rest =>
      match lookup key rest with
      | Some later => Some later
      | None => if String.eqb k key then Some v else None
      end
  end.

(** [a || b] on values *)
Definition or_else (a b : option json) : option json :=
  if truthy a then a else b.

End Js.
Import Js.

(** ** Completions and the effect monad *)

(** How a piece of code ends: normally, by a throw, or [Stuck] when a loop
    of the model ran out of fuel: the code is still running.  That is shown
    below not to happen, but for the retry loop run with [maxRetries =
    Infinity], which has no bound of its own. *)
Inductive completion (A : Type) : Type :=
| Normal (a : A)
| Throws (t : thrown)
| Stuck.
Arguments Normal {A} a.
Arguments Throws {A} t.
Arguments Stuck {A}.

(** What an awaited promise settles to. *)
Inductive promise (A : Type) : Type :=
| Resolves (a : A)
| Rejects (t : thrown).
Arguments Resolves {A} a.
Arguments Rejects {A} t.

(** A platform [Response]: status line, what [json()] and [text()] settle to
    when they are the first to read the body, and whether there is a body at
    all ([response.body] is null for the answer to a HEAD request or a 204). *)
Record Response : Type := mkResponse {
  status : Z;
  statusText : string;
  json_body : promise json;
  text_body : promise string;
  has_body : bool
}.

(** The rejection of a second read of a body (the wording is that of Node's
    [fetch]; Chrome says 'body stream already read'). *)
Definition body_used : JsError :=
  {| name := "TypeError";
     message := "Body is unusable: Body has already been read" |}.

(** [response.text()] after [response.json()] was called on the same
    response.  [json()] reads the body to its end before it parses, also when
    the parse then fails, and a body can be read only once: the second read
    rejects.  A response without a body has nothing to consume, and its text
    is empty. *)
Definition text_after_json (r : Response) : promise string :=
  if has_body r then Rejects (ThrownError body_used) else Resolves "".

(** [response.ok]: the status is in the range 200-299. *)
Definition ok (r : Response) : bool :=
  (200 <=? status r) && (status r <=? 299).

(** What [fetch] settles to: a response, or a rejection. *)
Inductive fetch_outcome : Type :=
| FetchResponse (r : Response)
| FetchThrows (t : thrown).

(** Observable effects, oldest first in the log. *)
Inductive event : Type :=
| EvFetch (url : string) (o : fetch_outcome)
| EvSleep (ms : Z)
| EvWarn (label : string) (arg : string).

Record World : Type := mkWorld {
  calls : nat;
  clock : Z;
  log : list event
}.

Definition Eff (A : Type) : Type := World -> completion A * World.

Definition ret {A} (a : A) : Eff A := fun w => (Normal a, w).

Definition throw {A} (t : thrown) : Eff A := fun w => (Throws t, w).

Definition bind {A B} (m : Eff A) (k : A -> Eff B) : Eff B :=
  fun w =>
    match m w with
    | (Normal a, w') => k a w'
    | (Throws t, w') => (Throws t, w')
    | (Stuck, w') => (Stuck, w')
    end.

(** [try { m } catch (e) { handler e }] *)
Definition try_catch {A} (m : Eff A) (handler : thrown -> Eff A) : Eff A :=
  fun w =>
    match m w with
    | (Throws t, w') => handler t w'
    | other => other
    end.

(** [await p] *)
Definition await {A} (p : promise A) : Eff A :=
  fun w => (match p with Resolves a => Normal a | Rejects t => Throws t end, w).

Notation "x <- m ;; k" := (bind m (fun x => k))
  (at level 61, m at next level, right associativity).
Notation "m ;;; k" := (bind m (fun _ => k))
  (at level 61, right associativity).

Definition emit (e : event) : Eff unit :=
  fun w => (Normal tt, {| calls := calls w; clock := clock w; log := log w ++ [e] |}).

(** The longest delay a timer holds: 2^31 - 1 ms. *)
Definition TIMEOUT_MAX : Z := 2147483647.

(** The delay [setTimeout(f, ms)] keeps.  The timer holds it in a signed
    32-bit integer: a delay that does not fit, and one below 1, is set to
    1 ms, as Node's timers do (a browser keeps the low 32 bits, which fires
    at once as well for a delay between 2^31 and 2^32).  [ms] is the integer
    part of the number passed; NaN and the infinities are out of range like
    0. *)
Definition timer_delay (ms : Z) : Z :=
  if (1 <=? ms) && (ms <=? TIMEOUT_MAX) then ms else 1.

(** [await new Promise(resolve => setTimeout(resolve, ms))] *)
Definition sleep (ms : Z) : Eff unit :=
  fun w => (Normal tt,
            {| calls := calls w; clock := clock w + timer_delay ms;
               log := log w ++ [EvSleep ms] |}).

(** [console.warn(label, arg)] *)
Definition console_warn (label arg : string) : Eff unit := emit (EvWarn label arg).

(** [Date.now()] *)
Definition Date_now : Eff Z := fun w => (Normal (clock w), w).

(** The rejection of an aborted [fetch]. *)
Definition AbortError : JsError :=
  {| name := "AbortError"; message := "signal is aborted without reason" |}.

Definition RequestInit : Type := list (string * string).

Section Program.

(** The network: outcome and latency (ms) of the n-th request issued. *)
Variable net : nat -> fetch_outcome * N.

(** Base address of the backend, resolved from the environment at start. *)
Variable API_BASE : string.

Definition POLLING_INTERVAL : Z := 2000.

Definition settled (o : fetch_outcome) : completion Response :=
  match o with
  | FetchResponse r => Normal r
  | FetchThrows t => Throws t
  end.

(** [await fetch(url, options)] *)
Definition fetch (url : string) (options : RequestInit) : Eff Response :=
  fun w =>
    let '(o, latency) := net (calls w) in
    (settled o,
     {| calls := S (calls w); clock := clock w + Z.of_N latency;
        log := log w ++ [EvFetch url o] |}).

(** [fetch] raced against [setTimeout(() => controller.abort(), timeout)]:
    a request that has not settled when the timer fires is aborted.  Gives
    what the caller observes and the time it took. *)
Definition raced (timeout : Z) (n : nat) : fetch_outcome * Z :=
  let '(o, latency) := net n in
  if timer_delay timeout <=? Z.of_N latency
  then (FetchThrows (ThrownError AbortError), timer_delay timeout)
  else (o, Z.of_N latency).

Definition fetch_with_abort (url : string) (options : RequestInit)
           (timeout : Z) : Eff Response :=
  fun w =>
    let '(o, elapsed) := raced timeout (calls w) in
    (settled o,
     {| calls := S (calls w); clock := clock w + elapsed;
        log := log w ++ [EvFetch url o] |}).

(** [Math.min(1000 * Math.pow(2, attempt - 1), 5000)] *)
Definition backoff (attempt : Z) : Z :=
  Z.min (1000 * 2 ^ (attempt - 1)) 5000.

(** The [try] block of one attempt of [fetchWithRetry]. *)
Definition attempt_request (url : string) (options : RequestInit)
           (timeout : Z) : Eff Response :=
  response <- fetch_with_abort url options timeout ;;
  if ok response then ret response
  else if (400 <=? status response) && (status response <? 500) then ret response
  else throw (ThrownError (newError
         ("Server error: " ++ show (status response) ++ " " ++ statusText response))).

(** [error instanceof Error ? error : new Error(String(error))] *)
Definition as_error (t : thrown) : JsError :=
  match t with
  | ThrownError e => e
  | other => newError (String_of other)
  end.

(** [throw lastError!] where [lastError] may never have been assigned. *)
Definition throw_last {A} (lastError : option JsError) : Eff A :=
  match lastError with
  | Some e => throw (ThrownError e)
  | None => throw ThrownUndefined
  end.

(** The [catch] block of one attempt: it either throws out of
    [fetchWithRetry] or waits and lets the loop go on ([next]). *)
Definition on_failure (maxRetries : number) (attempt : Z) (error : thrown)
           (next : JsError -> Eff Response) : Eff Response :=
  let lastError := as_error error in
  if String.eqb (name lastError) "AbortError" then
    throw (ThrownError (newError "Request timeout"))
  else if number_eq attempt maxRetries then
    throw (ThrownError lastError)
  else
    sleep (backoff attempt) ;;;
    console_warn
      ("API request failed (attempt " ++ show attempt ++ "/"
         ++ show_number maxRetries ++ "):")
      (message lastError) ;;;
    next lastError.

(** The [for] loop of [fetchWithRetry], entered at [attempt].  [fuel]
    bounds the iterations still to run. *)
Fixpoint retry_loop (fuel : nat) (url : string) (options : RequestInit)
         (maxRetries : number) (timeout : Z) (attempt : Z)
         (lastError : option JsError)
  : Eff Response :=
  if number_le attempt maxRetries then
    match fuel with
    | O => fun w => (Stuck, w)
    | S fuel' =>
        try_catch (attempt_request url options timeout)
          (fun error =>
             on_failure maxRetries attempt error
               (fun lastError =>
                  retry_loop fuel' url options maxRetries timeout
                             (attempt + 1) (Some lastError)))
    end
  else throw_last lastError.

(** The iterations the loop can make when entered at 1.  With [Infinity]
    the loop has no bound: it ends only when an attempt is accepted or times
    out, so no fuel fits every network. *)
Definition iterations (maxRetries : number) : nat :=
  match bound maxRetries with
  | Some n => Z.to_nat n
  | None => 0
  end.

(** [fetchWithRetry(url, options, maxRetries, timeout)].  For [maxRetries =
    Infinity] the call is not followed ([Stuck], the world as it was): what
    it does is read from [retry_loop], for any number of iterations. *)
Definition fetchWithRetry (url : string) (options : RequestInit)
           (maxRetries : number) (timeout : Z) : Eff Response :=
  retry_loop (iterations maxRetries) url options maxRetries timeout 1 None.

(** ** [apiCall] *)

Record ApiResponse : Type := mkApiResponse {
  data : option json;
  error : option json;
  success : bool
}.

(** [error instanceof Error ? error.message : 'Unknown error occurred'] *)
Definition caught_message (error : thrown) : string :=
  match error with
  | ThrownError e => message e
  | _ => "Unknown error occurred"
  end.

(** [v.key] for the keys the program reads ([detail], [message],
    [completed]): reading a property of [null] throws a [TypeError], any
    other parsed value has the property only as an object's own field. *)
Definition get_prop (v : json) (key : string) : Eff (option json) :=
  match v with
  | JNull =>
      throw (ThrownError
               {| name := "TypeError";
                  message := "Cannot read properties of null (reading '"
                               ++ key ++ "')" |})
  | JObj fields => ret (lookup key fields)
  | _ => ret None
  end.

(** [a || b || fallback] where the last operand is a string. *)
Definition first_truthy (a b : option json) (fallback : string) : json :=
  match or_else a (or_else b (Some (JStr fallback))) with
  | Some v => v
  | None => JStr fallback
  end.

(** [`HTTP ${response.status}: ${response.statusText}`] *)
Definition status_line (response : Response) : string :=
  "HTTP " ++ show (status response) ++ ": " ++ statusText response.

(** The non-2xx branch of [apiCall]: the message of the failure result. *)
Definition error_message (response : Response) : Eff json :=
  let errorMessage := status_line response in
  try_catch
    (errorData <- await (json_body response) ;;
     detail <- get_prop errorData "detail" ;;
     message <- get_prop errorData "message" ;;
     ret (first_truthy detail message errorMessage))
    (fun _ =>
       errorText <- await (text_after_json response) ;;
       if negb (String.eqb errorText "") then ret (JStr errorText)
       else ret (JStr errorMessage)).

Definition apiCall (url : string) (options : RequestInit) (maxRetries : number)
  : Eff ApiResponse :=
  try_catch
    (response <- fetchWithRetry url options maxRetries 30000 ;;
     if negb (ok response) then
       errorMessage <- error_message response ;;
       ret {| data := None; error := Some errorMessage; success := false |}
     else
       data <- await (json_body response) ;;
       ret {| data := Some data; error := None; success := true |})
    (fun error =>
       let errorMessage := caught_message error in
       ret {| data := None; error := Some (JStr errorMessage); success := false |}).

(** ** The two pollers *)

(** [v?.key] *)
Definition optional_prop (v : option json) (key : string) : option json :=
  match v with
  | Some (JObj fields) => lookup key fields
  | _ => None
  end.

(** The [for] loop of [waitForGeneration] with [remaining] iterations to
    go; [Some v] when the loop body executed [return v]. *)
Fixpoint poll_loop (remaining : nat) : Eff (option bool) :=
  match remaining with
  | O => ret None
  | S remaining' =>
      response <- apiCall (API_BASE ++ "/generation/status") [] 3 ;;
      if success response && truthy (optional_prop (data response) "completed")
      then ret (Some true)
      else sleep POLLING_INTERVAL ;;; poll_loop remaining'
  end.

(** [waitForGeneration] with the iteration budget made a parameter. *)
Definition waitForGenerationN (budget : nat) : Eff bool :=
  returned <- try_catch (poll_loop budget)
                (fun error =>
                   console_warn "Generation status check failed:" (String_of error) ;;;
                   ret None) ;;
  match returned with
  | Some v => ret v
  | None => ret true (* fail-open *)
  end.

(** pages/BackendTest.tsx: the budget is the literal 60. *)
Definition waitForGeneration : Eff bool := waitForGenerationN 60.

(** One status check of [waitForGenerationCompletion]: the [try] block and
    its [catch]; [Some v] when it executed [return v]. *)
Definition status_check : Eff (option bool) :=
  try_catch
    (statusResp <- fetch (API_BASE ++ "/generation/status") [] ;;
     if ok statusResp then
       statusData <- await (json_body statusResp) ;;
       completed <- get_prop statusData "completed" ;;
       if truthy completed then ret (Some true) else ret None
     else ret None)
    (fun e => console_warn "Status check failed:" (String_of e) ;;; ret None).

Definition pollInterval : Z := 3000.

(** The [while] loop of [waitForGenerationCompletion] and the [throw] that
    follows it. *)
Fixpoint wait_loop (fuel : nat) (startTime maxWaitTime : Z) : Eff bool :=
  now <- Date_now ;;
  if now - startTime <? maxWaitTime then
    match fuel with
    | O => fun w => (Stuck, w)
    | S fuel' =>
        returned <- status_check ;;
        match returned with
        | Some v => ret v
        | None => sleep pollInterval ;;; wait_loop fuel' startTime maxWaitTime
        end
    end
  else throw (ThrownError (newError "Generation process timed out")).

Definition waitForGenerationCompletion (maxWaitTime : Z) : Eff bool :=
  startTime <- Date_now ;;
  wait_loop (Z.to_nat (maxWaitTime / pollInterval + 1)) startTime maxWaitTime.

(** ** Reading the pollers round by round *)

(** One iteration of [waitForGeneration] that does not see completion:
    the world after the status check and the wait of [POLLING_INTERVAL]. *)
Definition poll_round (w : World) : World :=
  snd (sleep POLLING_INTERVAL
         (snd (apiCall (API_BASE ++ "/generation/status") [] 3 w))).

(** The world after [n] such iterations in a row. *)
Fixpoint rounds (n : nat) (w : World) : World :=
  match n with
  | O => w
  | S n' => rounds n' (poll_round w)
  end.

(** The world after the status request of [waitForGenerationCompletion]. *)
Definition after_fetch (w : World) : World :=
  let '(o, latency) := net (calls w) in
  {| calls := S (calls w); clock := clock w + Z.of_N latency;
     log := log w ++ [EvFetch (API_BASE ++ "/generation/status") o] |}.

End Program.

(** ** Classifying attempts, results and status checks *)

(** The error built for a response that is neither 2xx nor 4xx. *)
Definition server_error (r : Response) : JsError :=
  newError ("Server error: " ++ show (status r) ++ " " ++ statusText r).

Definition client_error (r : Response) : bool :=
  (400 <=? status r) && (status r <? 500).

(** The error an attempt leaves in [lastError], if it fails. *)
Definition failure_of (o : fetch_outcome) : option JsError :=
  match o with
  | FetchResponse r =>
      if ok r || client_error r then None else Some (server_error r)
  | FetchThrows t => Some (as_error t)
  end.

Definition is_abort (e : JsError) : bool := String.eqb (name e) "AbortError".

Definition fetches (trace : list event) : list fetch_outcome :=
  flat_map (fun e => match e with EvFetch _ o => [o] | _ => [] end) trace.

(** An attempt that yields a 5xx response. *)
Definition server_fault (o : fetch_outcome) : bool :=
  match o with
  | FetchResponse r => (500 <=? status r) && (status r <=? 599)
  | FetchThrows _ => false
  end.

(** An attempt that ends on the abort path of the per-attempt timer. *)
Definition timed_out (o : fetch_outcome) : bool :=
  match failure_of o with
  | Some e => is_abort e
  | None => false
  end.

Definition failure (e : json) : ApiResponse :=
  {| data := None; error := Some e; success := false |}.

(** The message chosen in the non-2xx branch, as a function. *)
Definition chosen_message (response : Response) : json :=
  match json_body response with
  | Resolves (JObj fields) =>
      first_truthy (lookup "detail" fields) (lookup "message" fields)
                   (status_line response)
  | Resolves JNull | Rejects _ =>
      match text_after_json response with
      | Resolves t =>
          if String.eqb t "" then JStr (status_line response) else JStr t
      | Rejects t => JStr (caught_message t)
      end
  | Resolves _ => JStr (status_line response)
  end.

(** What [apiCall] returns, by what [fetchWithRetry] ends with. *)
Definition api_result (ended : completion Response) : ApiResponse :=
  match ended with
  | Normal response =>
      if ok response then
        match json_body response with
        | Resolves v => {| data := Some v; error := None; success := true |}
        | Rejects t => failure (JStr (caught_message t))
        end
      else failure (chosen_message response)
  | Throws t => failure (JStr (caught_message t))
  | Stuck => failure (JStr "")
  end.

(** [v.key] as a value, [None] for [undefined]. *)
Definition field (v : json) (key : string) : option json :=
  optional_prop (Some v) key.

(** A status request whose answer reports completion: a 2xx response whose
    JSON body has a truthy [completed]. *)
Definition reports_completion (o : fetch_outcome) : bool :=
  match o with
  | FetchResponse r =>
      ok r && match json_body r with
              | Resolves v => truthy (field v "completed")
              | Rejects _ => false
              end
  | FetchThrows _ => false
  end.

(** A backend that never reports completion. *)
Definition never_completes (net : nat -> fetch_outcome * N) : Prop :=
  forall n, reports_completion (fst (net n)) = false.

(** What one status check of [waitForGenerationCompletion] amounts to. *)
Inductive verdict : Type :=
| Completed
| Pending
| Failed (t : thrown).

Definition verdict_of (o : fetch_outcome) : verdict :=
  match o with
  | FetchThrows t => Failed t
  | FetchResponse r =>
      if ok r then
        match json_body r with
        | Rejects t => Failed t
        | Resolves JNull =>
            Failed (ThrownError
                      {| name := "TypeError";
                         message := "Cannot read properties of null (reading 'completed')" |})
        | Resolves v => if truthy (field v "completed") then Completed else Pending
        end
      else Pending
  end.

Definition timed_out_error : thrown :=
  ThrownError (newError "Generation process timed out").

(** The fallback chain in the words of the specification: the [detail] field
    of a JSON error body if present, else its [message] field, else the body
    as plain text if it is not empty, else the status line. *)
Definition spec_error_chain (response : Response) : json :=
  let fields :=
    match json_body response with
    | Resolves (JObj fields) => fields
    | _ => []
    end in
  match lookup "detail" fields with
  | Some detail => detail
  | None =>
      match lookup "message" fields with
      | Some message => message
      | None =>
          match text_body response with
          | Resolves (String c rest) => JStr (String c rest)
          | _ => JStr (status_line response)
          end
      end
  end.

(** ** The retry loop as a relation on traces *)

Section Runs.

Variables (url : string) (maxRetries : number).

Definition warning (attempt : Z) (e : JsError) : event :=
  EvWarn ("API request failed (attempt " ++ show attempt ++ "/"
            ++ show_number maxRetries ++ "):") (message e).

(** [run attempt lastError trace result]: entered at [attempt], the loop
    leaves [trace] in the log and ends with [result]. *)
Inductive run : Z -> option JsError -> list event -> completion Response -> Prop :=
| run_exhausted attempt lastError :
    number_le attempt maxRetries = false ->
    run attempt lastError []
        (match lastError with
         | Some e => Throws (ThrownError e)
         | None => Throws ThrownUndefined
         end)
| run_return attempt lastError r :
    number_le attempt maxRetries = true ->
    failure_of (FetchResponse r) = None ->
    run attempt lastError [EvFetch url (FetchResponse r)] (Normal r)
| run_timeout attempt lastError o e :
    number_le attempt maxRetries = true ->
    failure_of o = Some e -> is_abort e = true ->
    run attempt lastError [EvFetch url o]
        (Throws (ThrownError (newError "Request timeout")))
| run_give_up attempt lastError o e :
    number_le attempt maxRetries = true ->
    number_eq attempt maxRetries = true ->
    failure_of o = Some e -> is_abort e = false ->
    run attempt lastError [EvFetch url o] (Throws (ThrownError e))
| run_retry attempt lastError o e trace result :
    number_le attempt maxRetries = true ->
    number_eq attempt maxRetries = false ->
    failure_of o = Some e -> is_abort e = false ->
    run (attempt + 1) (Some e) trace result ->
    run attempt lastError
        (EvFetch url o :: EvSleep (backoff attempt) :: warning attempt e :: trace)
        result.

End Runs.

(** ** Fixtures *)

Definition w0 : World := {| calls := 0; clock := 0; log := [] |}.

(** A network that answers every request at once with the same outcome. *)
Definition always (o : fetch_outcome) : nat -> fetch_outcome * N :=
  fun _ => (o, 0%N).

(** A network that plays a script and then keeps giving [rest]. *)
Definition script (steps : list (fetch_outcome * N)) (rest : fetch_outcome * N)
  : nat -> fetch_outcome * N :=
  fun n => nth n steps rest.

Definition SyntaxError : thrown :=
  ThrownError {| name := "SyntaxError"; message := "Unexpected token < in JSON" |}.

Definition NetworkError : thrown :=
  ThrownError {| name := "TypeError"; message := "Failed to fetch" |}.

Definition html_response (code : Z) (reason : string) : Response :=
  {| status := code; statusText := reason;
     json_body := Rejects SyntaxError; text_body := Resolves "<html></html>";
     has_body := true |}.

Definition json_response (code : Z) (reason : string) (v : json) (raw : string)
  : Response :=
  {| status := code; statusText := reason;
     json_body := Resolves v; text_body := Resolves raw; has_body := true |}.

Definition run_503 : completion Response * World :=
  fetchWithRetry (always (FetchResponse (html_response 503 "Service Unavailable")))
                 "/files" [] 3 30000 w0.


(** A 503 answered at once, then a request still pending when the 30 s timer
    fires. *)
Definition slow_network : nat -> fetch_outcome * N :=
  script [(FetchResponse (html_response 503 "Service Unavailable"), 0%N);
          (FetchResponse (json_response 200 "OK" (JObj []) "{}"), 45000%N)]
         (FetchResponse (json_response 200 "OK" (JObj []) "{}"), 0%N).

Definition run_slow : completion Response * World :=
  fetchWithRetry slow_network "/files" [] 5 30000 w0.

Definition not_found : Response :=
  json_response 404 "Not Found" (JObj [("detail", JStr "No such course")])
                "{detail: No such course}".

Definition run_404 : completion Response * World :=
  fetchWithRetry (always (FetchResponse not_found)) "/files" [] 3 30000 w0.

(** A 200 whose body is not JSON. *)
Definition garbled : Response := html_response 200 "OK".

(** The validation error of the backend: a 422 whose [detail] is a list. *)
Definition validation_error : Response :=
  json_response 422 "Unprocessable Entity"
    (JObj [("detail", JArr [JObj [("msg", JStr "field required")]])])
    "{detail: [{msg: field required}]}".

(** A 404 whose body is the empty JSON object. *)
Definition bare_404 : Response := json_response 404 "Not Found" (JObj []) "{}".

(** A backend that answers every status request with [completed: false]. *)
Definition pending_backend : nat -> fetch_outcome * N :=
  always (FetchResponse
            (json_response 200 "OK" (JObj [("completed", JBool false)])
                           "{completed: false}")).

(** A backend that cannot be reached for the first three requests and then
    answers [completed: false]. *)
Definition flaky_backend : nat -> fetch_outcome * N :=
  script [(FetchThrows NetworkError, 0%N); (FetchThrows NetworkError, 0%N);
          (FetchThrows NetworkError, 0%N)]
         (FetchResponse
            (json_response 200 "OK" (JObj [("completed", JBool false)])
                           "{completed: false}"), 0%N).

(** ** More on runs: retryable attempts, waits and warnings *)

(** An attempt after which the loop may go on: it failed, and not on the
    abort path. *)
Definition retryable (o : fetch_outcome) : bool :=
  match failure_of o with
  | Some e => negb (is_abort e)
  | None => false
  end.

(** The waits of a trace, in order. *)
Definition waits (trace : list event) : list Z :=
  flat_map (fun e => match e with EvSleep ms => [ms] | _ => [] end) trace.

(** The [console.warn] lines of a trace, in order. *)
Definition warnings (trace : list event) : list (string * string) :=
  flat_map (fun e => match e with EvWarn label arg => [(label, arg)] | _ => [] end)
           trace.

(** The world after one attempt that observed [o] after [elapsed] ms. *)
Definition after_attempt (url : string) (o : fetch_outcome) (elapsed : Z)
           (w : World) : World :=
  {| calls := S (calls w); clock := clock w + elapsed;
     log := log w ++ [EvFetch url o] |}.

(** The world after the wait and the warning that follow a failed attempt. *)
Definition after_backoff (maxRetries : number) (attempt : Z) (e : JsError)
           (w : World) : World :=
  {| calls := calls w; clock := clock w + timer_delay (backoff attempt);
     log := (log w ++ [EvSleep (backoff attempt)])
              ++ [warning maxRetries attempt e] |}.

(** A 200 with a JSON body. *)
Definition course_list : Response :=
  json_response 200 "OK" (JObj [("courses", JArr [])]) "{courses: []}".

(** A 503, then an unreachable network, then the answer. *)
Definition recovering_network : nat -> fetch_outcome * N :=
  script [(FetchResponse (html_response 503 "Service Unavailable"), 20%N);
          (FetchThrows NetworkError, 5%N)]
         (FetchResponse course_list, 120%N).

(** A 500 whose JSON body carries a [detail]. *)
Definition crash_report : Response :=
  json_response 500 "Internal Server Error"
                (JObj [("detail", JStr "database is locked")])
                "{detail: database is locked}".

(** A backend whose every answer takes a minute. *)
Definition stalled_network : nat -> fetch_outcome * N :=
  fun _ => (FetchResponse course_list, 60000%N).

(** ** [getApiUrl] and the configured base address *)

(** [s.replace(/\/$/, '')]: a slash that ends the string is dropped. *)
Fixpoint strip_trailing_slash (s : string) : string :=
  match s with
  | EmptyString => EmptyString
  | String c EmptyString => if Ascii.eqb c "/" then EmptyString else s
  | String c rest => String c (strip_trailing_slash rest)
  end.

(** [s.replace(/^\//, '')]: a slash that starts the string is dropped. *)
Definition strip_leading_slash (s : string) : string :=
  match s with
  | String c rest => if Ascii.eqb c "/" then rest else s
  | EmptyString => EmptyString
  end.

(** [a || b] on strings that may be [undefined]: the empty string is falsy. *)
Definition string_or (a : option string) (b : string) : string :=
  match a with
  | Some (String c rest) => String c rest
  | _ => b
  end.

(** [getApiUrl(endpoint, baseUrl)]; [window_API_BASE] is the global
    [window.API_BASE] it reads. *)
Definition getApiUrl (window_API_BASE : option string) (endpoint : string)
           (baseUrl : option string) : string :=
  let base := string_or baseUrl (string_or window_API_BASE "http://localhost:8000") in
  strip_trailing_slash base ++ "/" ++ strip_leading_slash endpoint.

Fixpoint ends_with_slash (s : string) : bool :=
  match s with
  | EmptyString => false
  | String c EmptyString => Ascii.eqb c "/"
  | String _ rest => ends_with_slash rest
  end.

Definition starts_with_slash (s : string) : bool :=
  match s with
  | String c _ => Ascii.eqb c "/"
  | EmptyString => false
  end.

(** [import.meta.env], as far as the configuration reads it. *)
Record ImportMetaEnv : Type := mkImportMetaEnv {
  VITE_API_BASE_URL : option string;
  VITE_API_BASE : option string;
  PROD : bool
}.

(** The host the bundle runs on: [import.meta.env] ([None] when [import.meta]
    or its [env] is undefined) and [process.env.VITE_API_BASE] ([None] when
    [process], its [env] or the variable is undefined). *)
Record Host : Type := mkHost {
  import_meta_env : option ImportMetaEnv;
  process_env_VITE_API_BASE : option string
}.

(** [import.meta.env?.NAME] *)
Definition meta_var (host : Host) (read : ImportMetaEnv -> option string)
  : option string :=
  match import_meta_env host with
  | Some env => read env
  | None => None
  end.

(** The immediately-invoked function that computes [API_BASE]. *)
Definition resolve_API_BASE (host : Host) : string :=
  match meta_var host VITE_API_BASE_URL with
  | Some (String c rest) => String c rest
  | _ =>
      match meta_var host VITE_API_BASE with
      | Some (String c rest) => String c rest
      | _ =>
          match process_env_VITE_API_BASE host with
          | Some (String c rest) => String c rest
          | _ =>
              if match import_meta_env host with
                 | Some env => PROD env
                 | None => false
                 end
              then "https://instructorscopilot-main.onrender.com"
              else "http://localhost:8000"
          end
      end
  end.

Definition API_TIMEOUT : Z := 300000.

(** ** Component code: effects on the world and on what the page shows *)

(** A value handed to [console.log] or [console.error]. *)
Inductive logged : Type :=
| LogJson (v : json)
| LogThrown (t : thrown)
| LogText (s : string)
| LogUndefined.

(** What a component puts out besides its state. *)
Inductive output : Type :=
| Toast (title description : string) (destructive : bool)
| ConsoleLog (label : string) (args : list logged)
| ConsoleError (label : string) (args : list logged)
| ResetInput.

(** The state [S] of a component (its [useState] cells) and its outputs,
    oldest first. *)
Record Ui (S : Type) : Type := mkUi {
  view : S;
  outputs : list output
}.
Arguments mkUi {S} view outputs.
Arguments view {S} u.
Arguments outputs {S} u.

(** Component code: it completes like any code, and what it wrote to the
    state and to the outputs before a throw stays written. *)
Definition Act (S A : Type) : Type := Ui S -> World -> completion A * Ui S * World.

Definition act_ret {S A} (a : A) : Act S A := fun u w => (Normal a, u, w).

Definition act_bind {S A B} (m : Act S A) (k : A -> Act S B) : Act S B :=
  fun u w =>
    match m u w with
    | (Normal a, u', w') => k a u' w'
    | (Throws t, u', w') => (Throws t, u', w')
    | (Stuck, u', w') => (Stuck, u', w')
    end.

(** [try { m } catch (e) { handler e }] *)
Definition act_try {S A} (m : Act S A) (handler : thrown -> Act S A) : Act S A :=
  fun u w =>
    match m u w with
    | (Throws t, u', w') => handler t u' w'
    | other => other
    end.

(** [try { m } finally { cleanup }] *)
Definition act_finally {S A} (m : Act S A) (cleanup : Act S unit) : Act S A :=
  fun u w =>
    match m u w with
    | (ended, u', w') =>
        match cleanup u' w' with
        | (Normal _, u'', w'') => (ended, u'', w'')
        | (Throws t, u'', w'') => (Throws t, u'', w'')
        | (Stuck, u'', w'') => (Stuck, u'', w'')
        end
    end.

(** Code that touches only the world. *)
Definition lift {S A} (e : Eff A) : Act S A :=
  fun u w => let '(ended, w') := e w in (ended, u, w').

(** A state setter, [setX(...)]. *)
Definition set {S} (f : S -> S) : Act S unit :=
  fun u w => (Normal tt, {| view := f (view u); outputs := outputs u |}, w).

Definition put {S} (o : output) : Act S unit :=
  fun u w => (Normal tt, {| view := view u; outputs := outputs u ++ [o] |}, w).

Notation "x <~ m ;; k" := (act_bind m (fun x => k))
  (at level 61, m at next level, right associativity).
Notation "m ;;~ k" := (act_bind m (fun _ => k))
  (at level 61, right associativity).

(** [a || fallback] where the fallback is a value. *)
Definition value_or (a : option json) (fallback : json) : json :=
  match or_else a (Some fallback) with
  | Some v => v
  | None => fallback
  end.

(** *** MyCourses *)

Record MyCoursesView : Type := mkMyCoursesView {
  mc_courses : json;
  mc_loading : bool;
  mc_error : option json
}.

(** The state the page mounts with. *)
Definition MyCourses_initial : MyCoursesView :=
  {| mc_courses := JArr []; mc_loading := true; mc_error := None |}.

(** Which of its three screens the page renders. *)
Inductive MyCoursesScreen : Type :=
| LoadingScreen
| ErrorScreen (e : json)
| CoursesScreen (courses : json).

Definition MyCourses_render (v : MyCoursesView) : MyCoursesScreen :=
  if mc_loading v then LoadingScreen
  else if truthy (mc_error v)
       then match mc_error v with
            | Some e => ErrorScreen e
            | None => CoursesScreen (mc_courses v)
            end
       else CoursesScreen (mc_courses v).

(** *** Dashboard *)

Inductive TabKey : Type := CourseMaterial | Quizzes | Ppts | Flashcards.

Definition tab_name (tab : TabKey) : string :=
  match tab with
  | CourseMaterial => "course-material"
  | Quizzes => "quizzes"
  | Ppts => "ppts"
  | Flashcards => "flashcards"
  end.

Definition TabKey_eqb (a b : TabKey) : bool :=
  match a, b with
  | CourseMaterial, CourseMaterial | Quizzes, Quizzes
  | Ppts, Ppts | Flashcards, Flashcards => true
  | _, _ => false
  end.

Record DashboardView : Type := mkDashboardView {
  db_files : TabKey -> json;
  db_loading : bool;
  db_error : option json;
  db_waiting : bool
}.

Definition Dashboard_initial : DashboardView :=
  {| db_files := fun _ => JArr []; db_loading := false; db_error := None;
     db_waiting := true |}.

(** [{...prev, [active]: filesData}] *)
Definition with_tab (prev : TabKey -> json) (active : TabKey) (filesData : json)
  : TabKey -> json :=
  fun tab => if TabKey_eqb tab active then filesData else prev tab.

(** *** SystemHealth *)

Record HealthStatus : Type := mkHealthStatus {
  api_connected : bool;
  files_available : bool;
  generation_completed : json;
  backup_available : bool;
  last_checked : string;
  health_error : option json
}.

Record SystemHealthView : Type := mkSystemHealthView {
  health : option HealthStatus;
  checking : bool
}.

(** [v?.length] for a parsed value: the size of an array or of a string, the
    own field of an object. *)
Definition optional_length (v : option json) : option json :=
  match v with
  | Some (JArr items) => Some (JNum (Z.of_nat (List.length items)))
  | Some (JStr s) => Some (JNum (Z.of_nat (String.length s)))
  | Some (JObj fields) => lookup "length" fields
  | _ => None
  end.

(** [hasIssues] and [hasWarnings] of the rendering. *)
Definition hasIssues (h : HealthStatus) : bool :=
  negb (api_connected h) || truthy (health_error h).

Definition hasWarnings (h : HealthStatus) : bool :=
  api_connected h && negb (files_available h) && negb (backup_available h).

Section Components.

Variable net : nat -> fetch_outcome * N.
Variable API_BASE : string.

(** Whether the cleanup of the effect has run by the time the world is [w]. *)
Variable cancelled : World -> bool.

(** The platform's [v > 0] for a value [v] that is not a number. *)
Variable coerced_positive : json -> bool.

(** The platform's [new Date(ms).toLocaleTimeString()]. *)
Variable toLocaleTimeString : Z -> string.

Definition fetchCourses : Act MyCoursesView unit :=
  act_finally
    (act_try
       (set (fun v => {| mc_courses := mc_courses v; mc_loading := true;
                         mc_error := mc_error v |}) ;;~
        response <~ lift (apiCall net (API_BASE ++ "/my-courses") [] 3) ;;
        if success response then
          set (fun v =>
                 {| mc_courses :=
                      value_or (optional_prop (data response) "courses") (JArr []);
                    mc_loading := mc_loading v; mc_error := mc_error v |})
        else
          set (fun v =>
                 {| mc_courses := mc_courses v; mc_loading := mc_loading v;
                    mc_error :=
                      Some (value_or (error response)
                                     (JStr "Failed to load courses")) |}))
       (fun error =>
          set (fun v => {| mc_courses := mc_courses v; mc_loading := mc_loading v;
                           mc_error := Some (JStr "Failed to load courses") |}) ;;~
          put (ConsoleError "Error fetching courses:" [LogThrown error])))
    (set (fun v => {| mc_courses := mc_courses v; mc_loading := false;
                      mc_error := mc_error v |})).

Definition read_cancelled {S} : Act S bool :=
  fun u w => (Normal (cancelled w), u, w).

Definition load_failed (active : TabKey) : string :=
  "Failed to load " ++ tab_name active ++ " files".

Definition setLoading (b : bool) (v : DashboardView) : DashboardView :=
  {| db_files := db_files v; db_loading := b; db_error := db_error v;
     db_waiting := db_waiting v |}.

Definition setError (e : option json) (v : DashboardView) : DashboardView :=
  {| db_files := db_files v; db_loading := db_loading v; db_error := e;
     db_waiting := db_waiting v |}.

Definition setWaiting (b : bool) (v : DashboardView) : DashboardView :=
  {| db_files := db_files v; db_loading := db_loading v; db_error := db_error v;
     db_waiting := b |}.

Definition setFiles (f : (TabKey -> json) -> TabKey -> json) (v : DashboardView)
  : DashboardView :=
  {| db_files := f (db_files v); db_loading := db_loading v;
     db_error := db_error v; db_waiting := db_waiting v |}.

(** [fetchFiles] of the Dashboard effect, run for the tab [active]. *)
Definition fetchFiles (active : TabKey) : Act DashboardView unit :=
  set (setWaiting true) ;;~
  lift (waitForGeneration net API_BASE) ;;~
  stop <~ read_cancelled ;;
  if stop then act_ret tt
  else
    set (setWaiting false) ;;~
    set (setLoading true) ;;~
    set (setError None) ;;~
    act_finally
      (act_try
         (response <~ lift (apiCall net (API_BASE ++ "/files/" ++ tab_name active) [] 3) ;;
          stop <~ read_cancelled ;;
          if negb stop then
            if success response then
              let filesData :=
                value_or (optional_prop (data response) "files") (JArr []) in
              set (setFiles (fun prev => with_tab prev active filesData))
            else
              set (setError (Some (value_or (error response)
                                            (JStr (load_failed active)))))
          else act_ret tt)
         (fun error =>
            let errorMessage :=
              match error with
              | ThrownError e => message e
              | _ => load_failed active
              end in
            stop <~ read_cancelled ;;
            (if negb stop then set (setError (Some (JStr errorMessage)))
             else act_ret tt) ;;~
            put (ConsoleError "File fetch error:" [LogThrown error])))
      (stop <~ read_cancelled ;;
       if negb stop then set (setLoading false) else act_ret tt).

(** [(x?.length || 0) > 0] *)
Definition positive_length (x : option json) : bool :=
  match value_or (optional_length x) (JNum 0) with
  | JNum n => 0 <? n
  | other => coerced_positive other
  end.

Definition setHealth (h : HealthStatus) (v : SystemHealthView) : SystemHealthView :=
  {| health := Some h; checking := checking v |}.

Definition setChecking (b : bool) (v : SystemHealthView) : SystemHealthView :=
  {| health := health v; checking := b |}.

Definition now_text : Act SystemHealthView string :=
  fun u w => (Normal (toLocaleTimeString (clock w)), u, w).

Definition disconnected (stamp : string) (e : json) : HealthStatus :=
  {| api_connected := false; files_available := false;
     generation_completed := JBool false; backup_available := false;
     last_checked := stamp; health_error := Some e |}.

Definition checkHealth : Act SystemHealthView unit :=
  set (setChecking true) ;;~
  act_finally
    (act_try
       (debugResponse <~ lift (apiCall net (API_BASE ++ "/debug/info") [] 3) ;;
        statusResponse <~ lift (apiCall net (API_BASE ++ "/generation/status") [] 3) ;;
        if success debugResponse && success statusResponse then
          uploads <~ lift (match data debugResponse with
                           | Some debugData => get_prop debugData "upload_dir_contents"
                           | None => throw (ThrownError
                                {| name := "TypeError";
                                   message := "Cannot read properties of undefined (reading 'upload_dir_contents')" |})
                           end) ;;
          completed <~ lift (match data statusResponse with
                             | Some statusData => get_prop statusData "completed"
                             | None => throw (ThrownError
                                {| name := "TypeError";
                                   message := "Cannot read properties of undefined (reading 'completed')" |})
                             end) ;;
          backups <~ lift (match data debugResponse with
                           | Some debugData => get_prop debugData "backup_dir_contents"
                           | None => ret None
                           end) ;;
          stamp <~ now_text ;;
          set (setHealth
                 {| api_connected := true;
                    files_available := positive_length uploads;
                    generation_completed := value_or completed (JBool false);
                    backup_available := positive_length backups;
                    last_checked := stamp;
                    health_error := None |})
        else
          stamp <~ now_text ;;
          set (setHealth
                 (disconnected stamp
                    (first_truthy (error debugResponse) (error statusResponse)
                                  "API connection failed"))))
       (fun error =>
          stamp <~ now_text ;;
          set (setHealth
                 (disconnected stamp
                    (JStr (match error with
                           | ThrownError e => message e
                           | _ => "Unknown error"
                           end))))))
    (set (setChecking false)).

End Components.

(** A 200 that lists one file. *)
Definition file_list : Response :=
  json_response 200 "OK"
    (JObj [("files", JArr [JObj [("name", JStr "week1.pdf")]])])
    "{files: [{name: week1.pdf}]}".

(** The course list cannot be reached three times, then it is served. *)
Definition late_network : nat -> fetch_outcome * N :=
  script [(FetchThrows NetworkError, 0%N); (FetchThrows NetworkError, 0%N);
          (FetchThrows NetworkError, 0%N)]
         (FetchResponse course_list, 0%N).

(** Generation is reported complete and the files are listed. *)
Definition ready_backend : nat -> fetch_outcome * N :=
  script [(FetchResponse (json_response 200 "OK" (JObj [("completed", JBool true)])
                                        "{completed: true}"), 10%N)]
         (FetchResponse file_list, 10%N).

Definition never_cancelled : World -> bool := fun _ => false.

Definition always_cancelled : World -> bool := fun _ => true.

(** *** PersonalizedGenerator *)

Record User : Type := mkUser {
  full_name : option string;
  email : option string;
  user_id : string
}.

Record UploadedFile : Type := mkUploadedFile { file_name : string }.

Record ContentRequest : Type := mkContentRequest {
  topic : string;
  contentType : string;
  difficulty : option Z;
  duration : Z;
  teachingStyle : option string;
  curriculumFileSelected : bool;
  curriculumFileName : option string
}.

Record GeneratorView : Type := mkGeneratorView {
  contentRequest : ContentRequest;
  generatedContent : json;
  isGenerating : bool;
  uploadedFile : option UploadedFile
}.

Definition Generator_initial : GeneratorView :=
  {| contentRequest :=
       {| topic := ""; contentType := "lesson"; difficulty := None; duration := 0;
          teachingStyle := None; curriculumFileSelected := false;
          curriculumFileName := None |};
     generatedContent := JStr "";
     isGenerating := false;
     uploadedFile := None |}.

Definition getDifficultyLabel (difficulty : option Z) : string :=
  match difficulty with
  | Some 1 => "Foundational"
  | Some 2 => "Intermediate"
  | Some 3 => "Advanced"
  | _ => "Unknown"
  end.

Definition getTeachingStyleLabel (style : option string) : string :=
  match style with
  | Some s =>
      if String.eqb s "exploratory" then "Exploratory & Guided"
      else if String.eqb s "project" then "Project-Based / Hands-On"
      else if String.eqb s "conceptual" then "Conceptual & Conversational"
      else "Unknown"
  | None => "Unknown"
  end.

(** [s.endsWith(suffix)] *)
Fixpoint ends_with (s suffix : string) : bool :=
  String.eqb s suffix ||
  match s with
  | EmptyString => false
  | String _ rest => ends_with rest suffix
  end.

(** The line feed of a template literal and the double quote. *)
Definition LF : string := String (Ascii.ascii_of_nat 10) EmptyString.

Definition QUOTE : string := String (Ascii.ascii_of_nat 34) EmptyString.

(** The two setters of [handleFileChange] that drop or keep the selection. *)
Definition select_file (name : option string) (v : GeneratorView) : GeneratorView :=
  {| contentRequest :=
       {| topic := topic (contentRequest v);
          contentType := contentType (contentRequest v);
          difficulty := difficulty (contentRequest v);
          duration := duration (contentRequest v);
          teachingStyle := teachingStyle (contentRequest v);
          curriculumFileSelected := match name with Some _ => true | None => false end;
          curriculumFileName := name |};
     generatedContent := generatedContent v;
     isGenerating := isGenerating v;
     uploadedFile := uploadedFile v |}.

Definition setUploadedFile (f : option UploadedFile) (v : GeneratorView)
  : GeneratorView :=
  {| contentRequest := contentRequest v; generatedContent := generatedContent v;
     isGenerating := isGenerating v; uploadedFile := f |}.

Definition setIsGenerating (b : bool) (v : GeneratorView) : GeneratorView :=
  {| contentRequest := contentRequest v; generatedContent := generatedContent v;
     isGenerating := b; uploadedFile := uploadedFile v |}.

Definition setGeneratedContent (content : json) (v : GeneratorView) : GeneratorView :=
  {| contentRequest := contentRequest v; generatedContent := content;
     isGenerating := isGenerating v; uploadedFile := uploadedFile v |}.

Section Generator.

Variable net : nat -> fetch_outcome * N.
Variable API_BASE : string.

(** Platform functions: [String.prototype.trim], [toLowerCase],
    [JSON.parse], and the conversion to a string of a value that is not
    one. *)
Variable trim : string -> string.
Variable toLowerCase : string -> string.
Variable JSON_parse : string -> promise json.
Variable ToString : json -> string.

(** [`${v}`] and [new Error(v).message] *)
Definition text_of (v : json) : string :=
  match v with
  | JStr s => s
  | other => ToString other
  end.

(** The derived state [canGenerate]. *)
Definition canGenerate (request : ContentRequest) : bool :=
  negb (String.eqb (trim (topic request)) "")
  && match difficulty request with Some _ => true | None => false end
  && match teachingStyle request with Some _ => true | None => false end
  && curriculumFileSelected request
  && (0 <? duration request).

(** [handleFileChange]; [file] is [e.target.files?.[0]]. *)
Definition handleFileChange (file : option UploadedFile) (allowedTypes : list string)
           (label : string) : Act GeneratorView unit :=
  put (ConsoleLog ("handleFileChange called for: " ++ label) []) ;;~
  put (ConsoleLog "Selected file:"
                  [match file with
                   | Some f => LogText (file_name f)
                   | None => LogUndefined
                   end]) ;;~
  match file with
  | None =>
      set (select_file None) ;;~
      set (setUploadedFile None)
  | Some f =>
      if negb (existsb (fun type => ends_with (toLowerCase (file_name f)) type)
                       allowedTypes)
      then
        put (ConsoleLog "File validation failed for:" [LogText (file_name f)]) ;;~
        put (Toast "Invalid file type"
                   ("Please upload a valid file (" ++ String.concat ", " allowedTypes
                      ++ ")")
                   true) ;;~
        put ResetInput ;;~
        set (select_file None) ;;~
        set (setUploadedFile None)
      else
        put (ConsoleLog "File validation passed for:" [LogText (file_name f)]) ;;~
        set (setUploadedFile (Some f)) ;;~
        set (select_file (Some (file_name f))) ;;~
        put (Toast "File Selected" (file_name f ++ " is ready to upload") false)
  end.

(** [fetch] with the [signal] of a controller whose timer fires at
    [deadline]: a request still pending then is aborted. *)
Definition fetch_with_signal (url : string) (options : RequestInit) (deadline : Z)
  : Eff Response :=
  fun w =>
    let '(o, latency) := net (calls w) in
    let fired := deadline <=? clock w + Z.of_N latency in
    let o' := if fired then FetchThrows (ThrownError AbortError) else o in
    let elapsed := if fired then Z.max 0 (deadline - clock w) else Z.of_N latency in
    (settled o',
     {| calls := S (calls w); clock := clock w + elapsed;
        log := log w ++ [EvFetch url o'] |}).

(** The message of the [Error] thrown for an answer that is not ok: the
    [detail] of its body when the text parses as JSON, else the text, else
    [fallback]. *)
Definition rejection_message (response : Response) (fallback : string) : Eff string :=
  errorText <- await (text_body response) ;;
  try_catch
    (errorData <- await (JSON_parse errorText) ;;
     detail <- get_prop errorData "detail" ;;
     ret (text_of (value_or detail (JStr fallback))))
    (fun _ => ret (if String.eqb errorText "" then fallback else errorText)).

Definition upload_fields (user : User) (file : UploadedFile) (request : ContentRequest)
  : list (string * string) :=
  [("file", file_name file);
   ("user_name", string_or (full_name user) (string_or (email user) "Unknown User"));
   ("user_id", string_or (email user) (user_id user));
   ("course_topic", topic request);
   ("no_of_weeks", show (duration request));
   ("difficulty_level", getDifficultyLabel (difficulty request));
   ("teaching_style", getTeachingStyleLabel (teachingStyle request))].

Definition summary_with_files (request : ContentRequest) (total : json) : string :=
  "# " ++ topic request ++ " - Course Generation Complete" ++ LF ++ LF
    ++ "✅ Content generated successfully!" ++ LF ++ LF
    ++ "Files created: " ++ text_of total ++ LF ++ LF
    ++ "Check the Dashboard and My Courses to view and download your materials.".

Definition summary_plain (request : ContentRequest) : string :=
  "# " ++ topic request ++ " - Course Generation Complete" ++ LF ++ LF
    ++ "✅ Content generated successfully!" ++ LF ++ LF
    ++ "Check the Dashboard and My Courses to view and download your materials.".

(** Step 4, best effort: the course entry. *)
Definition create_course : Act GeneratorView unit :=
  act_try
    (courseResponse <~ lift (fetch net (API_BASE ++ "/courses/create")
                                   [("method", "POST");
                                    ("Content-Type", "application/json")]) ;;
     if ok courseResponse then
       courseResult <~ lift (await (json_body courseResponse)) ;;
       put (ConsoleLog "Course created successfully:" [LogJson courseResult])
     else act_ret tt)
    (fun e => lift (console_warn "Failed to create course entry:" (String_of e))).

(** Step 5: the preview text, or a summary. *)
Definition show_preview (request : ContentRequest) (generateResult : json)
  : Act GeneratorView unit :=
  act_try
    (previewResp <~ lift (fetch net (API_BASE ++ "/course-material/preview") []) ;;
     if ok previewResp then
       previewData <~ lift (await (json_body previewResp)) ;;
       preview <~ lift (get_prop previewData "preview") ;;
       set (setGeneratedContent
              (value_or preview
                 (JStr "Content generated successfully! Check the dashboard for files.")))
     else
       total <~ lift (get_prop generateResult "total_files") ;;
       set (setGeneratedContent
              (JStr (summary_with_files request (value_or total (JStr "Multiple"))))))
    (fun _ => set (setGeneratedContent (JStr (summary_plain request)))).

Definition generation_flow (user : User) (file : UploadedFile)
           (request : ContentRequest) : Act GeneratorView unit :=
  started <~ lift Date_now ;;
  let deadline := started + API_TIMEOUT in
  put (ConsoleLog "Uploading curriculum with data:"
         [LogJson (JObj [("user_name",
                          JStr (string_or (full_name user)
                                          (string_or (email user) "Unknown User")));
                         ("user_id", JStr (string_or (email user) (user_id user)));
                         ("course_topic", JStr (topic request));
                         ("no_of_weeks", JNum (duration request));
                         ("difficulty_level",
                          JStr (getDifficultyLabel (difficulty request)));
                         ("teaching_style",
                          JStr (getTeachingStyleLabel (teachingStyle request)));
                         ("api_base", JStr API_BASE)])]) ;;~
  uploadResponse <~ lift (fetch_with_signal (API_BASE ++ "/upload-curriculum/")
                            (("method", "POST") :: upload_fields user file request)
                            deadline) ;;
  (if negb (ok uploadResponse) then
     errorMessage <~ lift (rejection_message uploadResponse "File upload failed.") ;;
     lift (throw (ThrownError (newError errorMessage)))
   else act_ret tt) ;;~
  uploadResult <~ lift (await (json_body uploadResponse)) ;;
  put (ConsoleLog "Upload successful:" [LogJson uploadResult]) ;;~
  put (Toast "Upload Successful" "Starting content generation..." false) ;;~
  generateResponse <~ lift (fetch_with_signal (API_BASE ++ "/generate-content/")
                              [("method", "POST");
                               ("Content-Type", "application/json")]
                              deadline) ;;
  (if negb (ok generateResponse) then
     errorMessage <~ lift (rejection_message generateResponse
                                             "Content generation failed.") ;;
     lift (throw (ThrownError (newError errorMessage)))
   else act_ret tt) ;;~
  generateResult <~ lift (await (json_body generateResponse)) ;;
  put (ConsoleLog "Generation successful:" [LogJson generateResult]) ;;~
  lift (waitForGenerationCompletion net API_BASE 300000) ;;~
  create_course ;;~
  show_preview request generateResult ;;~
  total <~ lift (get_prop generateResult "total_files") ;;
  put (Toast "Content Generated Successfully!"
             ("Generated " ++ text_of (value_or total (JStr "multiple"))
                ++ " course files. Course saved to " ++ QUOTE ++ "My Courses"
                ++ QUOTE ++ ".")
             false).

(** The [catch] block of [generatePersonalizedContent]. *)
Definition report_failure (error : thrown) : Act GeneratorView unit :=
  put (ConsoleError "Generation error:" [LogThrown error]) ;;~
  let errorMessage :=
    match error with
    | ThrownError e => message e
    | _ => "Failed to generate content. Please check your internet connection and try again."
    end in
  if match error with
     | ThrownError e => String.eqb (name e) "AbortError"
     | _ => false
     end
  then put (Toast "Generation Timeout"
                  "The generation process took too long. Please try again or contact support."
                  true)
  else put (Toast "Generation Failed" errorMessage true).

(** [generatePersonalizedContent], for the [user] of the session ([None]
    when signed out); the request and the file are those of the state. *)
Definition generatePersonalizedContent (user : option User)
  : Act GeneratorView unit :=
  fun u w =>
    let request := contentRequest (view u) in
    if negb (canGenerate request) then
      put (Toast "Missing Information"
                 "Please enter all mandatory details to generate course content."
                 true) u w
    else
      match user with
      | None =>
          put (Toast "Authentication Required"
                     "Please sign in to generate content." true) u w
      | Some user =>
          match uploadedFile (view u) with
          | None =>
              put (Toast "File Required"
                         "Please select a curriculum file before generating content."
                         true) u w
          | Some file =>
              (set (setIsGenerating true) ;;~
               act_finally
                 (act_try (generation_flow user file request) report_failure)
                 (set (setIsGenerating false))) u w
          end
      end.

End Generator.

(** Component code that always ends, by completing or by throwing. *)
Definition settles {S A} (m : Act S A) : Prop :=
  forall u w, fst (fst (m u w)) <> Stuck.

(** Component code that always completes normally. *)
Definition completes {S A} (m : Act S A) : Prop :=
  forall u w, exists a, fst (fst (m u w)) = Normal a.

(** A signed-in user and a selected file, for the examples. *)
Definition teacher : User :=
  {| full_name := Some "Ada Lovelace"; email := Some "ada@example.org";
     user_id := "u-1" |}.

Definition syllabus : UploadedFile := {| file_name := "Syllabus.PDF" |}.

Definition ready_request : ContentRequest :=
  {| topic := "Logic"; contentType := "lesson"; difficulty := Some 2; duration := 6;
     teachingStyle := Some "project"; curriculumFileSelected := true;
     curriculumFileName := Some "Syllabus.PDF" |}.

Definition ready_view : GeneratorView :=
  {| contentRequest := ready_request; generatedContent := JStr "";
     isGenerating := false; uploadedFile := Some syllabus |}.

(** Stand-ins for the platform functions in the examples: the identity for
    [trim], a parser that rejects everything, a fixed text for values that
    are not strings, and a lower-casing of the letters P, D and F. *)
Definition no_trim : string -> string := fun s => s.

Definition reject_all : string -> promise json :=
  fun _ => Rejects (ThrownError {| name := "SyntaxError"; message := "Unexpected token" |}).

Definition opaque_text : json -> string := fun _ => "[object Object]".

Fixpoint lower_pdf (s : string) : string :=
  match s with
  | EmptyString => EmptyString
  | String c rest =>
      String (if Ascii.eqb c "P" then "p"%char
              else if Ascii.eqb c "D" then "d"%char
              else if Ascii.eqb c "F" then "f"%char
              else c)
             (lower_pdf rest)
  end.

(** The upload and the generation are accepted, and generation is never
    reported complete. *)
Definition accepting_backend : nat -> fetch_outcome * N :=
  fun _ => (FetchResponse (json_response 200 "OK" (JObj [("total_files", JNum 12)])
                                         "{total_files: 12}"), 250%N).

(** The upload is refused with a reason. *)
Definition refusing_backend : nat -> fetch_outcome * N :=
  always (FetchResponse
            {| status := 400; statusText := "Bad Request";
               json_body := Resolves (JObj [("detail", JStr "Only PDF files are allowed")]);
               text_body := Resolves "Only PDF files are allowed";
               has_body := true |}).

(** Every answer takes six minutes. *)
Definition glacial_backend : nat -> fetch_outcome * N :=
  fun _ => (FetchResponse course_list, 360000%N).

(** A 503 that takes 29.5 s to arrive, every time. *)
Definition sluggish_503 : nat -> fetch_outcome * N :=
  fun _ => (FetchResponse (html_response 503 "Service Unavailable"), 29500%N).

(** A backend that always answers 503, called with maxRetries = 2.5. *)
Definition run_503_fractional : completion Response * World :=
  fetchWithRetry (always (FetchResponse (html_response 503 "Service Unavailable")))
                 "/files" [] (Fractional 2 "2.5") 30000 w0.

(** ** The retry loop follows the relation *)

Section Executor.

Variable net : nat -> fetch_outcome * N.
Variables (url : string) (options : RequestInit) (maxRetries : number)
          (timeout : Z).

Let run := run url maxRetries.

Lemma number_le_bound (m : number) (n a : Z) :
  bound m = Some n -> number_le a m = true -> a <= n.
Proof.
  destruct m; simpl; intros Hb Hle; try discriminate;
    injection Hb as <-; apply Z.leb_le; exact Hle.
Qed.

Lemma number_le_next (m : number) (a : Z) :
  fractional m = false ->
  number_le a m = true -> number_eq a m = false -> number_le (a + 1) m = true.
Proof.
  destruct m; simpl; intros Hm Hle Hne; try discriminate; try reflexivity.
  apply Z.leb_le in Hle. apply Z.eqb_neq in Hne. apply Z.leb_le. lia.
Qed.

Lemma timer_delay_bounds (ms : Z) : 1 <= timer_delay ms <= TIMEOUT_MAX.
Proof.
  unfold timer_delay, TIMEOUT_MAX.
  destruct ((1 <=? ms) && (ms <=? 2147483647)) eqn:Hrange; [| lia].
  apply andb_prop in Hrange as [H1 H2].
  apply Z.leb_le in H1. apply Z.leb_le in H2. lia.
Qed.

Lemma timer_delay_exact (ms : Z) :
  1 <= ms <= TIMEOUT_MAX -> timer_delay ms = ms.
Proof.
  unfold timer_delay. intros [H1 H2].
  apply Z.leb_le in H1. apply Z.leb_le in H2. rewrite H1, H2. reflexivity.
Qed.

Lemma backoff_bounds (attempt : Z) :
  1 <= attempt -> 1000 <= backoff attempt <= 5000.
Proof.
  intros Hattempt. unfold backoff.
  assert (1 <= 2 ^ (attempt - 1)) by (apply Z.pow_le_mono_r with (b := 0); lia).
  lia.
Qed.

(** The waits of the loop are waited as they are asked for. *)
Lemma backoff_delay (attempt : Z) :
  1 <= attempt -> timer_delay (backoff attempt) = backoff attempt.
Proof.
  intros Hattempt. pose proof (backoff_bounds attempt Hattempt).
  apply timer_delay_exact. unfold TIMEOUT_MAX. lia.
Qed.

Lemma attempt_request_eq (w : World) :
  attempt_request net url options timeout w =
    let '(o, elapsed) := raced net timeout (calls w) in
    (match failure_of o with
     | Some e => Throws (match o with FetchThrows t => t | _ => ThrownError e end)
     | None => settled o
     end,
     {| calls := S (calls w); clock := clock w + elapsed;
        log := log w ++ [EvFetch url o] |}).
Proof.
  unfold attempt_request, bind, fetch_with_abort.
  destruct (raced net timeout (calls w)) as [o elapsed].
  destruct o as [r | t]; simpl; [| reflexivity].
  unfold client_error, ret, throw, server_error.
  destruct (ok r); simpl; [reflexivity |].
  destruct ((400 <=? status r) && (status r <? 500)); reflexivity.
Qed.

(** One iteration of the loop, as a case analysis on what the attempt
    observed. *)
Lemma retry_loop_unfold (fuel : nat) (attempt : Z) lastError (w : World) :
  number_le attempt maxRetries = true ->
  retry_loop net (S fuel) url options maxRetries timeout attempt lastError w =
    let '(o, elapsed) := raced net timeout (calls w) in
    let w1 := after_attempt url o elapsed w in
    match failure_of o with
    | None => (settled o, w1)
    | Some e =>
        if is_abort e then (Throws (ThrownError (newError "Request timeout")), w1)
        else if number_eq attempt maxRetries then (Throws (ThrownError e), w1)
        else retry_loop net fuel url options maxRetries timeout (attempt + 1)
                        (Some e) (after_backoff maxRetries attempt e w1)
    end.
Proof.
  intros Hle. cbn [retry_loop]. rewrite Hle.
  unfold try_catch. rewrite attempt_request_eq.
  destruct (raced net timeout (calls w)) as [o elapsed].
  fold (after_attempt url o elapsed w).
  destruct (failure_of o) as [e |] eqn:Hfail; [| destruct o; [reflexivity | discriminate]].
  assert (Herr : as_error (match o with
                           | FetchThrows t => t
                           | _ => ThrownError e end) = e).
  { destruct o as [r | t]; simpl in *; [reflexivity | congruence]. }
  unfold on_failure. rewrite Herr. fold (is_abort e).
  destruct (is_abort e); [reflexivity |].
  destruct (number_eq attempt maxRetries); reflexivity.
Qed.

(** Beyond the bound the loop is left at once, with the last error. *)
Lemma retry_loop_exit (fuel : nat) (attempt : Z) lastError (w : World) :
  number_le attempt maxRetries = false ->
  retry_loop net fuel url options maxRetries timeout attempt lastError w =
    (match lastError with
     | Some e => Throws (ThrownError e)
     | None => Throws ThrownUndefined
     end, w).
Proof.
  intros Hle. destruct fuel; cbn [retry_loop]; rewrite Hle;
    destruct lastError; reflexivity.
Qed.

(** The loop follows the relation, and with enough fuel is never stuck. *)
Lemma retry_loop_run (fuel : nat) :
  forall attempt lastError w n,
    bound maxRetries = Some n ->
    (Z.to_nat (n + 1 - attempt) <= fuel)%nat ->
    exists trace result w',
      retry_loop net fuel url options maxRetries timeout attempt lastError w
        = (result, w') /\
      log w' = (log w ++ trace)%list /\
      calls w' = (calls w + List.length (fetches trace))%nat /\
      fetches trace =
        map (fun n => fst (raced net timeout n))
            (seq (calls w) (List.length (fetches trace))) /\
      run attempt lastError trace result.
Proof.
  induction fuel as [| fuel IH]; intros attempt lastError w n Hb Hfuel;
    destruct (number_le attempt maxRetries) eqn:Hle;
    try (rewrite retry_loop_exit by exact Hle;
         eexists [], _, w; rewrite app_nil_r; simpl; rewrite Nat.add_0_r;
         repeat split; now constructor).
  - pose proof (number_le_bound _ _ _ Hb Hle). lia.
  - pose proof (number_le_bound _ _ _ Hb Hle) as Hwithin.
    rewrite retry_loop_unfold by exact Hle.
    destruct (raced net timeout (calls w)) as [o elapsed] eqn:Hobs. cbv zeta.
    assert (Hone : forall result,
               run attempt lastError [EvFetch url o] result ->
               exists trace result' w',
                 (result, after_attempt url o elapsed w) = (result', w') /\
                 log w' = (log w ++ trace)%list /\
                 calls w' = (calls w + List.length (fetches trace))%nat /\
                 fetches trace =
                   map (fun n => fst (raced net timeout n))
                       (seq (calls w) (List.length (fetches trace))) /\
                 run attempt lastError trace result').
    { intros result Hshape.
      exists [EvFetch url o], result, (after_attempt url o elapsed w).
      simpl. rewrite Hobs. simpl. repeat split; [lia | exact Hshape]. }
    destruct (failure_of o) as [e |] eqn:Hfail.
    + destruct (is_abort e) eqn:Habort.
      { apply Hone. eapply run_timeout; eauto. }
      destruct (number_eq attempt maxRetries) eqn:Hlast.
      { apply Hone. eapply run_give_up; eauto. }
      destruct (IH (attempt + 1) (Some e)
                   (after_backoff maxRetries attempt e (after_attempt url o elapsed w))
                   n Hb)
        as (trace & result & w' & Hrun & Hlog & Hcalls & Hnet & Hshape); [lia |].
      cbn [after_backoff after_attempt log calls] in Hlog, Hcalls, Hnet.
      exists (EvFetch url o :: EvSleep (backoff attempt)
                :: warning maxRetries attempt e :: trace), result, w'.
      split; [exact Hrun |].
      split; [rewrite Hlog; rewrite <- !app_assoc; reflexivity |].
      split; [simpl; lia |].
      split; [simpl; rewrite Hobs; simpl; f_equal; exact Hnet |].
      eapply run_retry; eauto.
    + destruct o as [r | t]; simpl in Hfail; [| discriminate].
      apply Hone. eapply run_return; eauto.
Qed.

Lemma fetchWithRetry_run_bounded (w : World) :
  maxRetries <> Infinity ->
  exists trace result w',
    fetchWithRetry net url options maxRetries timeout w = (result, w') /\
    log w' = (log w ++ trace)%list /\
    calls w' = (calls w + List.length (fetches trace))%nat /\
    fetches trace =
      map (fun n => fst (raced net timeout n))
          (seq (calls w) (List.length (fetches trace))) /\
    run 1 None trace result.
Proof.
  intros Hfinite. unfold fetchWithRetry, iterations.
  destruct (bound maxRetries) as [n |] eqn:Hb.
  - apply retry_loop_run with (n := n); [exact Hb |].
    replace (n + 1 - 1) with n by lia. lia.
  - destruct maxRetries; try discriminate. now elim Hfinite.
Qed.

(** What a run leaves in the log, given its two ends. *)
Lemma fetchWithRetry_trace_bounded (w w' : World) result trace :
  maxRetries <> Infinity ->
  fetchWithRetry net url options maxRetries timeout w = (result, w') ->
  log w' = (log w ++ trace)%list ->
  run 1 None trace result /\
  calls w' = (calls w + List.length (fetches trace))%nat.
Proof.
  intros Hfinite Hrun Hlog.
  destruct (fetchWithRetry_run_bounded w Hfinite)
    as (trace' & result' & w'' & Hrun' & Hlog' & Hcalls & _ & H).
  rewrite Hrun in Hrun'. inversion Hrun'; subst result' w''.
  rewrite Hlog in Hlog'. apply app_inv_head in Hlog'. now subst trace'.
Qed.

Lemma run_not_stuck attempt lastError trace result :
  run attempt lastError trace result -> result <> Stuck.
Proof.
  induction 1; try discriminate; try assumption.
  destruct lastError; discriminate.
Qed.


Lemma run_first_attempt attempt lastError trace result :
  run attempt lastError trace result ->
  number_le attempt maxRetries = true ->
  exists o rest, trace = EvFetch url o :: rest.
Proof. destruct 1; intros Hle; eauto; congruence. Qed.

Lemma server_fault_failure o :
  server_fault o = true ->
  exists r, o = FetchResponse r /\ failure_of o = Some (server_error r) /\
            is_abort (server_error r) = false.
Proof.
  destruct o as [r | t]; simpl; [| discriminate].
  intros H. apply andb_prop in H as [H1 H2].
  apply Z.leb_le in H1. apply Z.leb_le in H2.
  exists r. unfold ok, client_error.
  replace (status r <=? 299) with false by (symmetry; apply Z.leb_gt; lia).
  replace (status r <? 500) with false by (symmetry; apply Z.ltb_ge; lia).
  rewrite !andb_false_r. auto.
Qed.

Lemma run_timed_out attempt lastError trace result :
  run attempt lastError trace result ->
  forall pre o post,
    trace = (pre ++ EvFetch url o :: post)%list ->
    timed_out o = true ->
    post = [] /\ result = Throws (ThrownError (newError "Request timeout")).
Proof.
  unfold timed_out.
  induction 1 as [a le Hgt | a le r Hle Hf | a le o e Hle Hf Hab
                  | a le o e Hle Heq Hf Hab
                  | a le o e trace result Hle Hne Hf Hab Hrun IH];
    intros pre o' post Htrace Hto.
  - destruct pre; discriminate.
  - destruct pre as [| x [| y pre]]; inversion Htrace; subst. now rewrite Hf in Hto.
  - destruct pre as [| x [| y pre]]; inversion Htrace; subst. auto.
  - destruct pre as [| x [| y pre]]; inversion Htrace; subst.
    rewrite Hf in Hto. congruence.
  - destruct pre as [| x pre]; inversion Htrace; subst.
    { rewrite Hf in Hto. congruence. }
    destruct pre as [| y pre]; [discriminate |].
    destruct pre as [| z pre]; [discriminate |].
    match goal with H : _ :: _ :: _ = _ |- _ => inversion H; subst end.
    eapply IH; eauto.
Qed.

Lemma run_client_error attempt lastError trace result r post :
  run attempt lastError trace result ->
  trace = EvFetch url (FetchResponse r) :: post ->
  client_error r = true ->
  post = [] /\ result = Normal r.
Proof.
  intros Hrun Heq Hclient.
  assert (Hnone : failure_of (FetchResponse r) = None).
  { simpl. rewrite Hclient, orb_true_r. reflexivity. }
  destruct Hrun; inversion Heq; subst; auto; congruence.
Qed.




End Executor.

(** *** Integral budgets *)

Section IntegralBudget.

Variable net : nat -> fetch_outcome * N.
Variables (url : string) (options : RequestInit) (maxRetries timeout : Z).

Let run := run url maxRetries.

Lemma fetchWithRetry_run (w : World) :
  exists trace result w',
    fetchWithRetry net url options maxRetries timeout w = (result, w') /\
    log w' = (log w ++ trace)%list /\
    calls w' = (calls w + List.length (fetches trace))%nat /\
    fetches trace =
      map (fun n => fst (raced net timeout n))
          (seq (calls w) (List.length (fetches trace))) /\
    run 1 None trace result.
Proof. apply fetchWithRetry_run_bounded. discriminate. Qed.

Lemma fetchWithRetry_trace (w w' : World) result trace :
  fetchWithRetry net url options maxRetries timeout w = (result, w') ->
  log w' = (log w ++ trace)%list ->
  run 1 None trace result /\
  calls w' = (calls w + List.length (fetches trace))%nat.
Proof. apply fetchWithRetry_trace_bounded. discriminate. Qed.

#[local] Arguments server_fault : simpl never.

Lemma run_all_server_faults attempt lastError trace result :
  run attempt lastError trace result ->
  attempt <= maxRetries ->
  forallb server_fault (fetches trace) = true ->
  List.length (fetches trace) = Z.to_nat (maxRetries + 1 - attempt) /\
  exists earlier r,
    fetches trace = (earlier ++ [FetchResponse r])%list /\
    result = Throws (ThrownError (server_error r)).
Proof.
  induction 1 as [a le Hgt | a le r Hle Hf | a le o e Hle Hf Hab
                  | a le o e Hle Heq Hf Hab
                  | a le o e trace result Hle Hne Hf Hab Hrun IH];
    intros Hattempt Hall; simpl in Hall.
  - apply Z.leb_gt in Hgt. lia.
  - rewrite andb_true_r in Hall.
    apply server_fault_failure in Hall as (r' & _ & Hf' & _). congruence.
  - rewrite andb_true_r in Hall.
    apply server_fault_failure in Hall as (r' & _ & Hf' & Hab'). congruence.
  - rewrite andb_true_r in Hall. apply Z.eqb_eq in Heq. subst a.
    apply server_fault_failure in Hall as (r' & -> & Hf' & _).
    split; [simpl; lia |].
    exists [], r'. split; [reflexivity | congruence].
  - apply andb_prop in Hall as [_ Hall]. apply Z.eqb_neq in Hne.
    destruct IH as (Hlen & earlier & r & Hfetches & Hres); [lia | exact Hall |].
    split; [simpl; rewrite Hlen; lia |].
    exists (o :: earlier), r. simpl. rewrite Hfetches. auto.
Qed.

End IntegralBudget.

(** ** [apiCall] as a function of how [fetchWithRetry] ends *)

Section ApiCallProperties.

Variable net : nat -> fetch_outcome * N.
Variables (url : string) (options : RequestInit) (maxRetries : Z).

Lemma fetchWithRetry_not_stuck timeout (w : World) :
  fst (fetchWithRetry net url options maxRetries timeout w) <> Stuck.
Proof.
  destruct (fetchWithRetry_run net url options maxRetries timeout w)
    as (trace & result & w' & Hrun & _ & _ & _ & Hshape).
  rewrite Hrun. simpl. eapply run_not_stuck; eauto.
Qed.

Lemma error_message_eq (response : Response) (w : World) :
  match text_after_json response, json_body response with
  | Rejects t, (Rejects _ | Resolves JNull) =>
      error_message response w = (Throws t, w)
  | _, _ => error_message response w = (Normal (chosen_message response), w)
  end.
Proof.
  unfold error_message, chosen_message, try_catch, bind, await, get_prop, ret, throw.
  destruct (json_body response) as [[| b | n | s | items | fields] | t];
    destruct (text_after_json response) as [txt | t']; simpl; try reflexivity;
    destruct (String.eqb txt ""); reflexivity.
Qed.

Lemma apiCall_eq (w : World) :
  apiCall net url options maxRetries w =
    (Normal (api_result (fst (fetchWithRetry net url options maxRetries 30000 w))),
     snd (fetchWithRetry net url options maxRetries 30000 w)).
Proof.
  pose proof (fetchWithRetry_not_stuck 30000 w) as Hstuck.
  unfold apiCall, try_catch, bind.
  destruct (fetchWithRetry net url options maxRetries 30000 w)
    as [[response | t |] w1]; simpl in *; [| reflexivity | now elim Hstuck].
  destruct (ok response); simpl.
  - unfold await, ret. destruct (json_body response); reflexivity.
  - pose proof (error_message_eq response w1) as Hmsg.
    unfold chosen_message, failure in *.
    destruct (text_after_json response) as [txt | t'];
      destruct (json_body response) as [[| b | n | s | items | fields] | t];
      rewrite Hmsg; reflexivity.
Qed.

Lemma api_result_exclusive ended :
  let r := api_result ended in
  (success r = true -> data r <> None /\ error r = None) /\
  (success r = false -> error r <> None /\ data r = None).
Proof.
  destruct ended as [response | t |]; simpl;
    [destruct (ok response); [destruct (json_body response) |] | |];
    simpl; (split; intros H; [try discriminate H | try discriminate H]);
    split; congruence.
Qed.

End ApiCallProperties.

(** The invariant of the result type that holds on every path: a result is
    tagged by [success], with the data on one side and the error on the
    other. *)
Lemma apiCall_exclusive_tags net url options (maxRetries : Z) w :
  exists r w',
    apiCall net url options maxRetries w = (Normal r, w') /\
    (success r = true -> data r <> None /\ error r = None) /\
    (success r = false -> error r <> None /\ data r = None).
Proof.
  eexists _, _. split; [apply apiCall_eq |]. apply api_result_exclusive.
Qed.

(** ** The pollers, one round at a time *)

Section Pollers.

Variable net : nat -> fetch_outcome * N.
Variable API_BASE : string.

Let status_url : string := API_BASE ++ "/generation/status".

Lemma run_returns_fetched url maxRetries attempt lastError trace r :
  run url maxRetries attempt lastError trace (Normal r) ->
  In (FetchResponse r) (fetches trace).
Proof.
  remember (Normal r) as result eqn:Hres.
  induction 1; try discriminate.
  - destruct lastError; discriminate.
  - inversion Hres; subst. now left.
  - destruct o; simpl; auto.
Qed.

Lemma returned_by_network url options (maxRetries : Z) timeout w r w' :
  fetchWithRetry net url options maxRetries timeout w = (Normal r, w') ->
  exists n, fst (net n) = FetchResponse r.
Proof.
  intros Hrun.
  destruct (fetchWithRetry_run net url options maxRetries timeout w)
    as (trace & result & w'' & Hrun' & _ & _ & Hnet & Hshape).
  rewrite Hrun in Hrun'. inversion Hrun'; subst result w''.
  apply run_returns_fetched in Hshape. rewrite Hnet in Hshape.
  apply in_map_iff in Hshape as (n & Hn & _). exists n.
  unfold raced in Hn. destruct (net n) as [o latency].
  destruct (timer_delay timeout <=? Z.of_N latency); simpl in *;
    [discriminate | exact Hn].
Qed.

Lemma apiCall_pending url options (maxRetries : Z) w :
  never_completes net ->
  let r := api_result (fst (fetchWithRetry net url options maxRetries 30000 w)) in
  success r && truthy (optional_prop (data r) "completed") = false.
Proof.
  intros Hnever.
  destruct (fetchWithRetry net url options maxRetries 30000 w)
    as [[response | t |] w1] eqn:Hrun; simpl; try reflexivity.
  destruct (returned_by_network _ _ _ _ _ _ _ Hrun) as (n & Hn).
  specialize (Hnever n). rewrite Hn in Hnever. simpl in Hnever.
  destruct (ok response); [| reflexivity].
  destruct (json_body response); simpl in *; [exact Hnever | reflexivity].
Qed.

Lemma poll_loop_step (remaining : nat) (w : World) :
  let r := api_result (fst (fetchWithRetry net status_url [] 3 30000 w)) in
  poll_loop net API_BASE (S remaining) w =
    if success r && truthy (optional_prop (data r) "completed")
    then (Normal (Some true), snd (apiCall net status_url [] 3 w))
    else poll_loop net API_BASE remaining (poll_round net API_BASE w).
Proof.
  cbn [poll_loop]. unfold bind at 1. unfold poll_round. fold status_url.
  rewrite (apiCall_eq net status_url [] 3 w). cbn [snd fst].
  destruct (success _ && truthy _); reflexivity.
Qed.

Lemma poll_loop_pending :
  never_completes net ->
  forall remaining w,
    poll_loop net API_BASE remaining w = (Normal None, rounds net API_BASE remaining w).
Proof.
  intros Hnever. induction remaining as [| remaining IH]; intros w.
  - reflexivity.
  - rewrite poll_loop_step.
    rewrite (apiCall_pending status_url [] 3 w Hnever). apply IH.
Qed.

Lemma status_check_eq (w : World) :
  status_check net API_BASE w =
    match verdict_of (fst (net (calls w))) with
    | Completed => (Normal (Some true), after_fetch net API_BASE w)
    | Pending => (Normal None, after_fetch net API_BASE w)
    | Failed t =>
        (Normal None,
         snd (console_warn "Status check failed:" (String_of t) (after_fetch net API_BASE w)))
    end.
Proof.
  unfold status_check, try_catch, bind, fetch, after_fetch. fold status_url.
  destruct (net (calls w)) as [o latency]. simpl.
  destruct o as [r | t]; simpl; [| reflexivity].
  destruct (ok r); [| reflexivity].
  unfold await, get_prop, field, optional_prop.
  destruct (json_body r) as [[| b | n | s | items | fields] | t]; simpl;
    try reflexivity;
    match goal with
    | |- context [if ?c then _ else _] => destruct c; reflexivity
    end.
Qed.

Lemma verdict_pending o :
  reports_completion o = false -> verdict_of o <> Completed.
Proof.
  destruct o as [r | t]; simpl; [| discriminate].
  destruct (ok r); [| discriminate]. simpl.
  destruct (json_body r) as [v | t]; [| discriminate].
  intros ->. destruct v; discriminate.
Qed.

(** The [while] loop ends, by [return true] or by the final [throw], when
    the fuel covers the time left; it ends by the [throw] when the backend
    never reports completion. *)
Lemma wait_loop_ends (fuel : nat) :
  forall startTime maxWaitTime w,
    maxWaitTime - (clock w - startTime) <= pollInterval * Z.of_nat fuel ->
    exists result w',
      wait_loop net API_BASE fuel startTime maxWaitTime w = (result, w') /\
      (result = Normal true \/ result = Throws timed_out_error) /\
      (never_completes net -> result = Throws timed_out_error).
Proof.
  unfold pollInterval.
  induction fuel as [| fuel IH]; intros startTime maxWaitTime w Hfuel.
  - simpl. unfold bind, Date_now.
    replace (clock w - startTime <? maxWaitTime) with false
      by (symmetry; apply Z.ltb_ge; lia).
    eexists _, _. split; [reflexivity |]. auto.
  - cbn [wait_loop]. unfold bind at 1. unfold Date_now at 1.
    destruct (clock w - startTime <? maxWaitTime) eqn:Htest.
    2:{ eexists _, _. split; [reflexivity |]. auto. }
    unfold bind at 1. rewrite status_check_eq.
    pose proof (verdict_pending (fst (net (calls w)))) as Hpending.
    assert (Hclock : clock w <= clock (after_fetch net API_BASE w)).
    { unfold after_fetch. destruct (net (calls w)); simpl. lia. }
    rewrite Nat2Z.inj_succ in Hfuel. apply Z.ltb_lt in Htest.
    destruct (verdict_of (fst (net (calls w)))) as [| | t].
    + eexists _, _. split; [reflexivity |]. split; [auto |].
      intros Hnever. now elim Hpending; [apply Hnever |].
    + unfold bind, sleep. cbn [fst snd].
      match goal with
      | |- context [wait_loop _ _ _ _ _ ?w2] =>
          destruct (IH startTime maxWaitTime w2) as (result & w' & Hrun & Hres)
      end; [cbn [clock]; unfold pollInterval in *;
            change (timer_delay 3000) with 3000; lia |].
      eexists _, _. split; [exact Hrun | exact Hres].
    + unfold bind, sleep, console_warn, emit. cbn [fst snd].
      match goal with
      | |- context [wait_loop _ _ _ _ _ ?w2] =>
          destruct (IH startTime maxWaitTime w2) as (result & w' & Hrun & Hres)
      end; [cbn [clock]; unfold pollInterval in *;
            change (timer_delay 3000) with 3000; lia |].
      eexists _, _. split; [exact Hrun | exact Hres].
Qed.


Lemma waitForGenerationCompletion_ends maxWaitTime w :
  exists result w',
    waitForGenerationCompletion net API_BASE maxWaitTime w = (result, w') /\
    (result = Normal true \/ result = Throws timed_out_error) /\
    (never_completes net -> result = Throws timed_out_error).
Proof.
  unfold waitForGenerationCompletion, bind, Date_now.
  apply wait_loop_ends. unfold pollInterval.
  pose proof (Z.mod_pos_bound maxWaitTime 3000 ltac:(lia)) as Hmod.
  pose proof (Z.div_mod maxWaitTime 3000 ltac:(lia)) as Hdiv.
  cbn [clock]. generalize dependent (maxWaitTime / 3000). intros q Hdiv. lia.
Qed.

End Pollers.

Section PollerLogs.

Variable net : nat -> fetch_outcome * N.
Variable API_BASE : string.

Let status_url : string := API_BASE ++ "/generation/status".

(** A status check of the dashboard poller leaves in the log what its
    [fetchWithRetry] leaves, and that starts with a request. *)
Lemma apiCall_log url options (w : World) :
  exists o rest,
    log (snd (apiCall net url options 3 w)) = (log w ++ EvFetch url o :: rest)%list.
Proof.
  rewrite apiCall_eq. cbn [snd].
  destruct (fetchWithRetry_run net url options 3 30000 w)
    as (trace & result & w' & Hrun & Hlog & _ & _ & Hshape).
  rewrite Hrun. cbn [snd]. rewrite Hlog.
  destruct (run_first_attempt _ _ _ _ _ _ Hshape) as (o & rest & ->);
    [reflexivity |].
  eauto.
Qed.

Lemma poll_loop_log (remaining : nat) :
  forall w,
    (exists returned, fst (poll_loop net API_BASE remaining w) = Normal returned) /\
    exists trace,
      log (snd (poll_loop net API_BASE remaining w)) = (log w ++ trace)%list /\
      (remaining <> O -> exists o rest, trace = EvFetch status_url o :: rest).
Proof.
  induction remaining as [| remaining IH]; intros w.
  - simpl. split; [eauto |]. exists []. rewrite app_nil_r. split; [reflexivity |].
    intros H. now elim H.
  - rewrite poll_loop_step. fold status_url.
    destruct (apiCall_log status_url [] w) as (o & rest & Hlog).
    destruct (success _ && truthy _).
    + cbn [fst snd]. split; [eauto |].
      exists (EvFetch status_url o :: rest). split; [exact Hlog | eauto].
    + destruct (IH (poll_round net API_BASE w)) as (Hnormal & trace & Htrace & _).
      split; [exact Hnormal |].
      exists (EvFetch status_url o :: rest ++ EvSleep POLLING_INTERVAL :: trace)%list.
      split; [| eauto].
      rewrite Htrace. unfold poll_round, sleep. cbn [snd log].
      fold status_url. rewrite Hlog. rewrite <- !app_assoc. reflexivity.
Qed.

(** The [catch] of [waitForGeneration] is never entered: the poller is its
    loop, followed by [return true]. *)
Lemma waitForGenerationN_eq (budget : nat) (w : World) :
  exists returned,
    poll_loop net API_BASE budget w
      = (Normal returned, snd (poll_loop net API_BASE budget w)) /\
    waitForGenerationN net API_BASE budget w
      = (Normal (match returned with Some v => v | None => true end),
         snd (poll_loop net API_BASE budget w)).
Proof.
  destruct (poll_loop_log budget w) as ((returned & Hnormal) & _).
  exists returned.
  unfold waitForGenerationN, bind, try_catch.
  destruct (poll_loop net API_BASE budget w) as [result w'].
  simpl in Hnormal. subst result. cbn [snd].
  split; [reflexivity |]. destruct returned; reflexivity.
Qed.

Lemma wait_loop_log (fuel : nat) :
  forall startTime maxWaitTime w,
    exists trace,
      log (snd (wait_loop net API_BASE fuel startTime maxWaitTime w))
        = (log w ++ trace)%list /\
      (clock w - startTime < maxWaitTime -> fuel <> O ->
       exists o rest, trace = EvFetch status_url o :: rest).
Proof.
  induction fuel as [| fuel IH]; intros startTime maxWaitTime w.
  - simpl. unfold bind, Date_now.
    exists []. rewrite app_nil_r.
    split; [destruct (_ <? _); reflexivity |]. intros _ H. now elim H.
  - cbn [wait_loop]. unfold bind at 1. unfold Date_now at 1.
    destruct (clock w - startTime <? maxWaitTime) eqn:Htest.
    2:{ exists []. rewrite app_nil_r. split; [reflexivity |].
        apply Z.ltb_ge in Htest. lia. }
    unfold bind at 1. rewrite status_check_eq. fold status_url.
    assert (Hfetch : log (after_fetch net API_BASE w)
                     = (log w ++ [EvFetch status_url (fst (net (calls w)))])%list).
    { unfold after_fetch. destruct (net (calls w)); reflexivity. }
    destruct (verdict_of (fst (net (calls w)))) as [| | t].
    + cbn [snd]. eexists. split; [exact Hfetch | eauto].
    + unfold bind, sleep. cbn [fst snd].
      match goal with
      | |- context [wait_loop _ _ _ _ _ ?w2] =>
          destruct (IH startTime maxWaitTime w2) as (trace & Htrace & _)
      end.
      eexists. split; [| eauto].
      rewrite Htrace. cbn [log]. rewrite Hfetch, <- !app_assoc. reflexivity.
    + unfold bind, sleep, console_warn, emit. cbn [fst snd].
      match goal with
      | |- context [wait_loop _ _ _ _ _ ?w2] =>
          destruct (IH startTime maxWaitTime w2) as (trace & Htrace & _)
      end.
      eexists. split; [| eauto].
      rewrite Htrace. cbn [log]. rewrite Hfetch, <- !app_assoc. reflexivity.
Qed.

End PollerLogs.

(** ** The executor's claims *)

(** C3: for every maxRetries = N >= 1, a run of fetchWithRetry in which every
    attempt yields a 5xx response issues exactly N requests and then fails
    with the error of the last response observed. *)
Theorem fetchWithRetry_5xx_exhausts_retries :
  forall net url options N timeout w result w' trace,
    1 <= N ->
    fetchWithRetry net url options N timeout w = (result, w') ->
    log w' = (log w ++ trace)%list ->
    forallb server_fault (fetches trace) = true ->
    List.length (fetches trace) = Z.to_nat N /\
    calls w' = (calls w + Z.to_nat N)%nat /\
    exists earlier r,
      fetches trace = (earlier ++ [FetchResponse r])%list /\
      result = Throws (ThrownError (server_error r)).
Proof.
  intros net url options N timeout w result w' trace HN Hrun Hlog Hall.
  destruct (fetchWithRetry_trace _ _ _ _ _ _ _ _ _ Hrun Hlog) as [Hshape Hcalls].
  destruct (run_all_server_faults _ _ _ _ _ _ Hshape) as (Hlen & Hlast);
    [lia | exact Hall |].
  replace (N + 1 - 1) with N in Hlen by lia.
  rewrite Hcalls, Hlen. auto.
Qed.

Lemma fetchWithRetry_5xx_exhausts_retries_witness :
  List.length (fetches (log (snd run_503))) = 3%nat /\
  calls (snd run_503) = 3%nat /\
  exists earlier r,
    fetches (log (snd run_503)) = (earlier ++ [FetchResponse r])%list /\
    fst run_503 = Throws (ThrownError (server_error r)).
Proof.
  apply (fetchWithRetry_5xx_exhausts_retries
           (always (FetchResponse (html_response 503 "Service Unavailable")))
           "/files" [] 3 30000 w0 (fst run_503) (snd run_503) (log (snd run_503)));
    [lia | reflexivity | reflexivity | reflexivity].
Defined.



(** C5: an attempt of fetchWithRetry that ends on the abort path of the
    per-attempt timer ends the whole operation at once with the error
    'Request timeout': nothing follows that request in the log (no wait, no
    further attempt), whatever maxRetries is. *)
Theorem fetchWithRetry_timeout_aborts :
  forall net url options (maxRetries : Z) timeout w result w' pre o post,
    fetchWithRetry net url options maxRetries timeout w = (result, w') ->
    log w' = (log w ++ pre ++ EvFetch url o :: post)%list ->
    timed_out o = true ->
    post = [] /\
    result = Throws (ThrownError (newError "Request timeout")) /\
    calls w' = (calls w + List.length (fetches pre) + 1)%nat.
Proof.
  intros net url options maxRetries timeout w result w' pre o post
         Hrun Hlog Hto.
  destruct (fetchWithRetry_trace _ _ _ _ _ _ _ _ _ Hrun Hlog) as [Hshape Hcalls].
  destruct (run_timed_out _ _ _ _ _ _ Hshape pre o post eq_refl Hto) as [-> ->].
  repeat split. rewrite Hcalls. unfold fetches.
  rewrite flat_map_app, length_app. simpl. lia.
Qed.

Lemma fetchWithRetry_timeout_aborts_witness :
  skipn 4 (log (snd run_slow)) = [] /\
  fst run_slow = Throws (ThrownError (newError "Request timeout")) /\
  calls (snd run_slow) = (0 + List.length (fetches (firstn 3 (log (snd run_slow)))) + 1)%nat.
Proof.
  apply (fetchWithRetry_timeout_aborts
           slow_network "/files" [] 5 30000 w0 (fst run_slow) (snd run_slow)
           (firstn 3 (log (snd run_slow)))
           (FetchThrows (ThrownError AbortError))
           (skipn 4 (log (snd run_slow))));
    reflexivity.
Defined.

(** C6: whatever maxRetries is, when the first attempt of fetchWithRetry
    yields a 4xx response, that response is returned at once: it is the only
    request issued, and no wait follows it. *)
Theorem fetchWithRetry_client_error_returned :
  forall net url options (maxRetries : Z) timeout w result w' r post,
    fetchWithRetry net url options maxRetries timeout w = (result, w') ->
    log w' = (log w ++ EvFetch url (FetchResponse r) :: post)%list ->
    400 <= status r < 500 ->
    result = Normal r /\ post = [] /\ calls w' = S (calls w).
Proof.
  intros net url options maxRetries timeout w result w' r post Hrun Hlog Hst.
  destruct (fetchWithRetry_trace _ _ _ _ _ _ _ _ _ Hrun Hlog) as [Hshape Hcalls].
  assert (Hclient : client_error r = true).
  { unfold client_error. apply andb_true_intro.
    split; [apply Z.leb_le | apply Z.ltb_lt]; lia. }
  destruct (run_client_error _ _ _ _ _ _ _ _ Hshape eq_refl Hclient) as [-> ->].
  repeat split. rewrite Hcalls. simpl. lia.
Qed.

Lemma fetchWithRetry_client_error_returned_witness :
  fst run_404 = Normal not_found /\
  skipn 1 (log (snd run_404)) = [] /\
  calls (snd run_404) = 1%nat.
Proof.
  apply (fetchWithRetry_client_error_returned
           (always (FetchResponse not_found)) "/files" [] 3 30000 w0
           (fst run_404) (snd run_404) not_found (skipn 1 (log (snd run_404))));
    [reflexivity | reflexivity | simpl; lia].
Defined.

(** C10: for maxRetries below 1, fetchWithRetry issues no request and returns
    no response: the loop body never runs, the world is left as it was, and
    the call ends by throwing the never-assigned lastError, that is the value
    undefined. *)
Theorem fetchWithRetry_no_attempts :
  forall net url options (maxRetries : Z) timeout w,
    maxRetries < 1 ->
    fetchWithRetry net url options maxRetries timeout w = (Throws ThrownUndefined, w).
Proof.
  intros net url options maxRetries timeout w Hlt.
  unfold fetchWithRetry.
  rewrite retry_loop_exit by (apply Z.leb_gt; lia). reflexivity.
Qed.

Lemma fetchWithRetry_no_attempts_witness :
  fetchWithRetry (always (FetchResponse (json_response 200 "OK" (JObj []) "{}")))
                 "/files" [] 0 30000 w0
  = (Throws ThrownUndefined, w0).
Proof. apply fetchWithRetry_no_attempts. lia. Defined.

(** ** The claims on [apiCall] *)

(** C2: for every url, options and maxRetries, apiCall never raises to its
    caller: it always completes normally with a result, and every fault on
    its path, whether fetchWithRetry throws (transport failure, timeout,
    exhausted retries) or the parsing of the body throws, is reported as
    {success: false, error: <message>}. *)
Theorem apiCall_never_raises :
  forall net url options (maxRetries : Z) w,
    exists r w',
      apiCall net url options maxRetries w = (Normal r, w') /\
      (forall t,
          fst (fetchWithRetry net url options maxRetries 30000 w) = Throws t ->
          r = failure (JStr (caught_message t))) /\
      (forall response t,
          fst (fetchWithRetry net url options maxRetries 30000 w) = Normal response ->
          json_body response = Rejects t ->
          exists msg, r = failure (JStr msg) /\
                      (ok response = true -> msg = caught_message t)).
Proof.
  intros net url options maxRetries w.
  eexists _, _. split; [apply apiCall_eq |].
  split.
  - intros t Ht. rewrite Ht. reflexivity.
  - intros response t Hresp Hjson. rewrite Hresp. simpl.
    unfold chosen_message. rewrite Hjson.
    destruct (ok response).
    + eauto.
    + destruct (text_after_json response) as [txt | t'];
        [destruct (String.eqb txt "") |]; eexists; split;
        try reflexivity; discriminate.
Qed.

Lemma apiCall_never_raises_witness :
  fst (apiCall (always (FetchResponse garbled)) "/files" [] 3 w0)
  = Normal (failure (JStr "Unexpected token < in JSON")).
Proof.
  destruct (apiCall_never_raises (always (FetchResponse garbled)) "/files" [] 3 w0)
    as (r & w' & Hcall & _ & Hparse).
  rewrite Hcall. simpl.
  destruct (Hparse garbled SyntaxError eq_refl eq_refl) as (msg & -> & Hmsg).
  rewrite (Hmsg eq_refl). reflexivity.
Defined.

(** C7, at a validation error: the result is tagged as a failure and has no
    data, but what it carries as [error] is the list found in [detail], not a
    string. *)
Theorem apiCall_error_not_a_string :
  fst (apiCall (always (FetchResponse validation_error)) "/upload-curriculum/" [] 3 w0)
  = Normal {| data := None;
              error := Some (JArr [JObj [("msg", JStr "field required")]]);
              success := false |}.
Proof. reflexivity. Qed.

(** C8 as stated fails: the body parses as JSON and has neither field, so the
    status line is reported, although the body is a non-empty text. *)
Lemma apiCall_error_chain_counterexample :
  fst (apiCall (always (FetchResponse bare_404)) "/files" [] 3 w0)
    = Normal (failure (JStr "HTTP 404: Not Found")) /\
  spec_error_chain bare_404 = JStr "{}" /\
  fst (apiCall (always (FetchResponse bare_404)) "/files" [] 3 w0)
    <> Normal (failure (spec_error_chain bare_404)).
Proof. repeat split. vm_compute. discriminate. Qed.

(** C8, amended: when apiCall receives a non-2xx response whose body parses
    as JSON to a value other than null, the error it returns is the [detail]
    field if truthy, else the [message] field if truthy, else the status line
    'HTTP <status>: <statusText>'; a body that parses as JSON is not reported
    as plain text.  In every case the result is a failure, returned in the
    world in which fetchWithRetry ended. *)
Theorem apiCall_error_chain :
  forall net url options (maxRetries : Z) w response w1,
    fetchWithRetry net url options maxRetries 30000 w = (Normal response, w1) ->
    ok response = false ->
    exists e,
      apiCall net url options maxRetries w = (Normal (failure e), w1) /\
      (forall v,
          json_body response = Resolves v -> v <> JNull ->
          (truthy (field v "detail") = true -> Some e = field v "detail") /\
          (truthy (field v "detail") = false ->
           truthy (field v "message") = true -> Some e = field v "message") /\
          (truthy (field v "detail") = false ->
           truthy (field v "message") = false ->
           e = JStr (status_line response))).
Proof.
  intros net url options maxRetries w response w1 Hrun Hok.
  exists (chosen_message response).
  split.
  { rewrite apiCall_eq, Hrun. simpl. rewrite Hok. reflexivity. }
  unfold chosen_message, field, optional_prop, first_truthy, or_else.
  intros v Hv Hnull. rewrite Hv.
  destruct v as [| b | n | s | items | fields]; simpl;
    try (repeat split; intros; (discriminate || reflexivity || congruence)).
  destruct (truthy (lookup "detail" fields)) eqn:Hd.
  - repeat split; intros; try discriminate.
    revert Hd. destruct (lookup "detail" fields); simpl; intros;
      (reflexivity || discriminate).
  - destruct (truthy (lookup "message" fields)) eqn:Hm.
    + repeat split; intros; try discriminate.
      revert Hm. destruct (lookup "message" fields); simpl; intros;
        (reflexivity || discriminate).
    + repeat split; intros; discriminate.
Qed.

Lemma apiCall_error_chain_witness :
  exists e,
    apiCall (always (FetchResponse bare_404)) "/files" [] 3 w0
      = (Normal (failure e),
         snd (fetchWithRetry (always (FetchResponse bare_404)) "/files" [] 3 30000 w0)) /\
    e = JStr (status_line bare_404).
Proof.
  destruct (apiCall_error_chain (always (FetchResponse bare_404)) "/files" [] 3 w0
              bare_404
              (snd (fetchWithRetry (always (FetchResponse bare_404)) "/files" [] 3 30000 w0))
              eq_refl eq_refl) as (e & Hcall & Hjson).
  exists e. split; [exact Hcall |].
  destruct (Hjson (JObj []) eq_refl) as (_ & _ & Hline); [discriminate |].
  apply Hline; reflexivity.
Defined.

(** The [catch] of the JSON parse reads the body a second time.  For an
    answer with a body that read rejects, and apiCall reports the rejection:
    neither the text of the body nor the status line. *)
Example apiCall_second_read :
  fst (apiCall (always (FetchResponse (html_response 404 "Not Found"))) "/files" [] 3 w0)
  = Normal (failure (JStr "Body is unusable: Body has already been read")).
Proof. reflexivity. Qed.

(** ** The claims on the pollers *)




(** C9: a transport failure on one status check does not end a polling
    session.  In the dashboard poller the failed check (its fetchWithRetry
    throws) comes back from apiCall as a failure result, with nothing but the
    executor's own log entries; the session goes on as a session with one
    iteration less after the wait of POLLING_INTERVAL, and when an iteration
    is left the next thing it does after that wait is the next status
    request.  In the generator's poller the rejected request is caught and
    logged by console.warn, the loop waits pollInterval and goes on, and when
    the time budget is not spent the next thing it does is the next status
    request. *)
Theorem pollers_survive_transport_failure :
  forall net API_BASE,
    let url := API_BASE ++ "/generation/status" in
    (forall M w t,
        fst (fetchWithRetry net url [] 3 30000 w) = Throws t ->
        let w1 := snd (fetchWithRetry net url [] 3 30000 w) in
        let w2 := snd (sleep POLLING_INTERVAL w1) in
        apiCall net url [] 3 w = (Normal (failure (JStr (caught_message t))), w1) /\
        waitForGenerationN net API_BASE (S M) w = waitForGenerationN net API_BASE M w2 /\
        (M <> O ->
         exists o rest,
           log (snd (waitForGenerationN net API_BASE M w2))
           = (log w1 ++ EvSleep POLLING_INTERVAL :: EvFetch url o :: rest)%list)) /\
    (forall fuel startTime maxWaitTime w t latency,
        net (calls w) = (FetchThrows t, latency) ->
        clock w - startTime < maxWaitTime ->
        let w2 := {| calls := S (calls w);
                     clock := clock w + Z.of_N latency + pollInterval;
                     log := log w ++ [EvFetch url (FetchThrows t);
                                      EvWarn "Status check failed:" (String_of t);
                                      EvSleep pollInterval] |} in
        wait_loop net API_BASE (S fuel) startTime maxWaitTime w
        = wait_loop net API_BASE fuel startTime maxWaitTime w2 /\
        (clock w2 - startTime < maxWaitTime -> fuel <> O ->
         exists o rest,
           log (snd (wait_loop net API_BASE fuel startTime maxWaitTime w2))
           = (log w2 ++ EvFetch url o :: rest)%list)).
Proof.
  intros net API_BASE url. split.
  - intros M w t Hfail w1 w2.
    assert (Hcall : apiCall net url [] 3 w
                    = (Normal (failure (JStr (caught_message t))), w1)).
    { rewrite apiCall_eq, Hfail. reflexivity. }
    assert (Hloop : poll_loop net API_BASE (S M) w = poll_loop net API_BASE M w2).
    { rewrite poll_loop_step. fold url. rewrite Hfail. simpl.
      unfold poll_round. fold url. rewrite Hcall. reflexivity. }
    split; [exact Hcall |]. split.
    + unfold waitForGenerationN, bind, try_catch. rewrite Hloop. reflexivity.
    + intros HM.
      destruct (waitForGenerationN_eq net API_BASE M w2) as (returned & _ & ->).
      destruct (poll_loop_log net API_BASE M w2) as (_ & trace & Hlog & Hfirst).
      destruct (Hfirst HM) as (o & rest & ->).
      exists o, rest. cbn [snd]. rewrite Hlog. unfold w2, sleep. cbn [snd log].
      rewrite <- app_assoc. reflexivity.
  - intros fuel startTime maxWaitTime w t latency Hnet Hbudget w2.
    assert (Hstep : wait_loop net API_BASE (S fuel) startTime maxWaitTime w
                    = wait_loop net API_BASE fuel startTime maxWaitTime w2).
    { cbn [wait_loop]. unfold bind at 1. unfold Date_now at 1.
      replace (clock w - startTime <? maxWaitTime) with true
        by (symmetry; apply Z.ltb_lt; exact Hbudget).
      unfold bind at 1. rewrite status_check_eq. unfold after_fetch.
      rewrite Hnet. cbn [fst verdict_of].
      unfold bind, sleep, console_warn, emit. cbn [fst snd calls clock log].
      f_equal. unfold w2. fold url. f_equal.
      rewrite <- !app_assoc. reflexivity. }
    split; [exact Hstep |].
    intros Hleft Hfuel.
    destruct (wait_loop_log net API_BASE fuel startTime maxWaitTime w2)
      as (trace & Hlog & Hfirst).
    destruct (Hfirst Hleft Hfuel) as (o & rest & ->).
    exists o, rest. exact Hlog.
Qed.

Lemma pollers_survive_transport_failure_witness :
  let url := "http://localhost:8000/generation/status" in
  let w1 := snd (fetchWithRetry flaky_backend url [] 3 30000 w0) in
  let w2 := snd (sleep POLLING_INTERVAL w1) in
  (waitForGenerationN flaky_backend "http://localhost:8000" 2 w0
   = waitForGenerationN flaky_backend "http://localhost:8000" 1 w2) /\
  (wait_loop flaky_backend "http://localhost:8000" 100 0 300000 w0
   = wait_loop flaky_backend "http://localhost:8000" 99 0 300000
       {| calls := 1; clock := 3000;
          log := [EvFetch url (FetchThrows NetworkError);
                  EvWarn "Status check failed:" "TypeError: Failed to fetch";
                  EvSleep 3000] |}).
Proof.
  intros url w1 w2.
  destruct (pollers_survive_transport_failure flaky_backend "http://localhost:8000")
    as [Hdashboard Hgenerator].
  split.
  - apply (Hdashboard 1%nat w0 NetworkError). reflexivity.
  - apply (Hgenerator 99%nat 0 300000 w0 NetworkError 0%N); [reflexivity | simpl; lia].
Defined.

(** ** More properties of the retry executor *)

Section ExecutorMore.

Variable net : nat -> fetch_outcome * N.
Variables (url : string) (options : RequestInit) (maxRetries : number)
          (timeout : Z).

Let run := run url maxRetries.

Lemma raced_elapsed (n : nat) :
  0 <= snd (raced net timeout n) <= timer_delay timeout.
Proof.
  pose proof (timer_delay_bounds timeout) as Hdelay.
  unfold raced. destruct (net n) as [o latency].
  destruct (timer_delay timeout <=? Z.of_N latency) eqn:Hfired; simpl.
  - lia.
  - apply Z.leb_gt in Hfired. lia.
Qed.

Lemma number_le_below (m : number) (a b : Z) :
  number_le b m = true -> a <= b -> number_le a m = true.
Proof.
  destruct m; simpl; intros Hle Hab; try discriminate; try reflexivity;
    apply Z.leb_le in Hle; apply Z.leb_le; lia.
Qed.

Lemma number_eq_below (m : number) (a b : Z) :
  number_le b m = true -> a < b -> number_eq a m = false.
Proof.
  destruct m; simpl; intros Hle Hab; try discriminate; try reflexivity.
  apply Z.leb_le in Hle. apply Z.eqb_neq. lia.
Qed.

Lemma bound_number_le (m : number) (n a : Z) :
  bound m = Some n -> 1 <= a <= n -> number_le a m = true.
Proof.
  destruct m; simpl; intros Hb Ha; try discriminate;
    injection Hb as <-; try lia; apply Z.leb_le; lia.
Qed.

Lemma run_length_bound attempt lastError trace result n :
  bound maxRetries = Some n ->
  run attempt lastError trace result ->
  (List.length (fetches trace) <= Z.to_nat (n + 1 - attempt))%nat.
Proof.
  intros Hb.
  induction 1 as [a le Hgt | a le r Hle Hf | a le o e Hle Hf Hab
                  | a le o e Hle Heq Hf Hab
                  | a le o e trace result Hle Hne Hf Hab Hrun IH];
    simpl; try lia; pose proof (number_le_bound _ _ _ Hb Hle); lia.
Qed.

Lemma run_accepted attempt lastError trace result r post :
  run attempt lastError trace result ->
  trace = EvFetch url (FetchResponse r) :: post ->
  failure_of (FetchResponse r) = None ->
  post = [] /\ result = Normal r.
Proof.
  intros Hrun Heq Hnone.
  destruct Hrun; inversion Heq; subst; auto; congruence.
Qed.

Lemma run_returned attempt lastError trace r :
  run attempt lastError trace (Normal r) ->
  failure_of (FetchResponse r) = None /\
  exists earlier, trace = (earlier ++ [EvFetch url (FetchResponse r)])%list.
Proof.
  remember (Normal r) as result eqn:Hres.
  induction 1 as [a le Hgt | a le r' Hle Hf | a le o e Hle Hf Hab
                  | a le o e Hle Heq Hf Hab
                  | a le o e trace result Hle Hne Hf Hab Hrun IH];
    try discriminate.
  - destruct le; discriminate.
  - inversion Hres; subst. split; [exact Hf |]. now exists [].
  - destruct (IH Hres) as (Hnone & earlier & ->). split; [exact Hnone |].
    now exists (EvFetch url o :: EvSleep (backoff a) :: warning maxRetries a e :: earlier).
Qed.

Lemma run_thrown attempt lastError trace t :
  run attempt lastError trace (Throws t) ->
  number_le attempt maxRetries = true \/ lastError <> None ->
  exists e, t = ThrownError e.
Proof.
  remember (Throws t) as result eqn:Hres.
  induction 1 as [a le Hgt | a le r' Hle Hf | a le o e Hle Hf Hab
                  | a le o e Hle Heq Hf Hab
                  | a le o e trace result Hle Hne Hf Hab Hrun IH];
    intros Hreach; try discriminate.
  - destruct le as [e |].
    + inversion Hres. eauto.
    + destruct Hreach as [Hreach | Hreach]; [congruence | now elim Hreach].
  - inversion Hres. eauto.
  - inversion Hres. eauto.
  - apply IH; [exact Hres | right; discriminate].
Qed.



(** With the attempt within the budget, the loop issues at least one request;
    the clock moves forward by at most one timeout per request and one capped
    wait per request, the last one excepted when [maxRetries] is integral. *)
Lemma retry_loop_clock (fuel : nat) :
  forall attempt lastError w n,
    bound maxRetries = Some n ->
    1 <= attempt ->
    number_le attempt maxRetries = true ->
    (Z.to_nat (n + 1 - attempt) <= fuel)%nat ->
    let w' := snd (retry_loop net fuel url options maxRetries timeout
                              attempt lastError w) in
    let k := Z.of_nat (calls w') - Z.of_nat (calls w) in
    1 <= k /\
    clock w <= clock w' /\
    clock w' - clock w <= k * timer_delay timeout + 5000 * k /\
    (fractional maxRetries = false ->
     clock w' - clock w <= k * timer_delay timeout + 5000 * (k - 1)).
Proof.
  induction fuel as [| fuel IH]; intros attempt lastError w n Hb Hattempt Hle Hfuel;
    pose proof (number_le_bound _ _ _ Hb Hle) as Hwithin; [lia |].
  rewrite retry_loop_unfold by exact Hle.
  pose proof (raced_elapsed (calls w)) as Helapsed.
  pose proof (timer_delay_bounds timeout) as Hdelay.
  destruct (raced net timeout (calls w)) as [o elapsed]. cbn [snd] in Helapsed.
  cbv zeta.
  assert (Hone : forall c : completion Response,
             let w' := snd (c, after_attempt url o elapsed w) in
             let k := Z.of_nat (calls w') - Z.of_nat (calls w) in
             1 <= k /\
             clock w <= clock w' /\
             clock w' - clock w <= k * timer_delay timeout + 5000 * k /\
             (fractional maxRetries = false ->
              clock w' - clock w <= k * timer_delay timeout + 5000 * (k - 1))).
  { intros c. cbn [snd after_attempt calls clock]. repeat split; intros; lia. }
  destruct (failure_of o) as [e |]; [| apply Hone].
  destruct (is_abort e); [apply Hone |].
  destruct (number_eq attempt maxRetries) eqn:Hlast; [apply Hone |].
  pose proof (backoff_bounds attempt Hattempt) as Hback.
  pose proof (backoff_delay attempt Hattempt) as Hwait.
  destruct (number_le (attempt + 1) maxRetries) eqn:Hnext.
  - specialize (IH (attempt + 1) (Some e)
                   (after_backoff maxRetries attempt e (after_attempt url o elapsed w))
                   n Hb ltac:(lia) Hnext ltac:(lia)).
    cbv zeta in IH. cbn [after_backoff after_attempt calls clock] in IH.
    rewrite Hwait in IH.
    destruct IH as (IHk & IHclock & IHbound & IHexact).
    repeat split; try lia. intros Hm. specialize (IHexact Hm). lia.
  - rewrite retry_loop_exit by exact Hnext.
    cbn [snd after_backoff after_attempt calls clock]. rewrite Hwait.
    repeat split; try lia. intros Hm.
    rewrite (number_le_next _ _ Hm Hle Hlast) in Hnext. discriminate.
Qed.

(** A run of transient failures followed by an accepted response. *)
Lemma retry_loop_recovers (k : nat) :
  forall fuel attempt lastError w r,
    number_le (attempt + Z.of_nat k) maxRetries = true ->
    (k < fuel)%nat ->
    (forall i, (i < k)%nat ->
               retryable (fst (raced net timeout (calls w + i))) = true) ->
    fst (raced net timeout (calls w + k)) = FetchResponse r ->
    failure_of (FetchResponse r) = None ->
    exists w',
      retry_loop net fuel url options maxRetries timeout attempt lastError w
        = (Normal r, w') /\
      calls w' = (calls w + k + 1)%nat.
Proof.
  induction k as [| k IH]; intros fuel attempt lastError w r Hbudget Hfuel
                                  Hfail Hlast Hnone;
    (destruct fuel as [| fuel]; [lia |]);
    rewrite retry_loop_unfold by (apply (number_le_below _ _ _ Hbudget); lia).
  - rewrite Nat.add_0_r in Hlast.
    destruct (raced net timeout (calls w)) as [o elapsed] eqn:Hobs.
    cbn [fst] in Hlast. subst o. cbv zeta. rewrite Hnone.
    eexists. split; [reflexivity |]. cbn [after_attempt calls]. lia.
  - pose proof (Hfail 0%nat ltac:(lia)) as Hfirst. rewrite Nat.add_0_r in Hfirst.
    destruct (raced net timeout (calls w)) as [o elapsed] eqn:Hobs.
    cbn [fst] in Hfirst. unfold retryable in Hfirst. cbv zeta.
    destruct (failure_of o) as [e |]; [| discriminate].
    apply negb_true_iff in Hfirst. rewrite Hfirst.
    rewrite (number_eq_below _ _ _ Hbudget) by lia.
    destruct (IH fuel (attempt + 1) (Some e)
                 (after_backoff maxRetries attempt e (after_attempt url o elapsed w)) r)
      as (w' & Hrun & Hcalls).
    + replace (attempt + 1 + Z.of_nat k) with (attempt + Z.of_nat (S k)) by lia.
      exact Hbudget.
    + lia.
    + intros i Hi. cbn [after_backoff after_attempt calls].
      replace (S (calls w) + i)%nat with (calls w + S i)%nat by lia.
      apply Hfail. lia.
    + cbn [after_backoff after_attempt calls].
      replace (S (calls w) + k)%nat with (calls w + S k)%nat by lia. exact Hlast.
    + exact Hnone.
    + exists w'. split; [exact Hrun |].
      cbn [after_backoff after_attempt calls] in Hcalls. lia.
Qed.

(** Without a bound, and with attempts that keep failing in a retried way,
    the loop is still running after any number of iterations. *)
Lemma retry_loop_unbounded (fuel : nat) :
  forall attempt lastError w,
    maxRetries = Infinity ->
    (forall i, retryable (fst (raced net timeout (calls w + i))) = true) ->
    exists w',
      retry_loop net fuel url options maxRetries timeout attempt lastError w
        = (Stuck, w') /\
      calls w' = (calls w + fuel)%nat.
Proof.
  induction fuel as [| fuel IH]; intros attempt lastError w Hm Hfail.
  - exists w. subst maxRetries. split; [reflexivity | lia].
  - rewrite retry_loop_unfold by (subst maxRetries; reflexivity).
    pose proof (Hfail 0%nat) as Hfirst. rewrite Nat.add_0_r in Hfirst.
    destruct (raced net timeout (calls w)) as [o elapsed] eqn:Hobs.
    cbn [fst] in Hfirst. unfold retryable in Hfirst. cbv zeta.
    destruct (failure_of o) as [e |]; [| discriminate].
    apply negb_true_iff in Hfirst. rewrite Hfirst.
    replace (number_eq attempt maxRetries) with false
      by (subst maxRetries; reflexivity).
    destruct (IH (attempt + 1) (Some e)
                 (after_backoff maxRetries attempt e (after_attempt url o elapsed w))
                 Hm)
      as (w' & Hrun & Hcalls).
    + intros i. cbn [after_backoff after_attempt calls].
      replace (S (calls w) + i)%nat with (calls w + S i)%nat by lia.
      apply Hfail.
    + exists w'. split; [exact Hrun |].
      cbn [after_backoff after_attempt calls] in Hcalls. lia.
Qed.

Lemma fetchWithRetry_calls (w : World) :
  maxRetries <> Infinity ->
  (calls w <= calls (snd (fetchWithRetry net url options maxRetries timeout w))
   <= calls w + iterations maxRetries)%nat.
Proof.
  intros Hfinite.
  destruct (fetchWithRetry_run_bounded net url options maxRetries timeout w Hfinite)
    as (trace & result & w' & Hrun & _ & Hcalls & _ & Hshape).
  rewrite Hrun. cbn [snd]. unfold iterations.
  destruct (bound maxRetries) as [n |] eqn:Hb.
  - apply (run_length_bound _ _ _ _ _ Hb) in Hshape.
    replace (n + 1 - 1) with n in Hshape by lia. lia.
  - destruct maxRetries; try discriminate. now elim Hfinite.
Qed.


End ExecutorMore.

Section IntegralBudgetMore.

Variable net : nat -> fetch_outcome * N.
Variables (url : string) (options : RequestInit) (maxRetries timeout : Z).

(** One iteration of the loop with an integral budget. *)
Lemma retry_loop_step (fuel : nat) (attempt : Z) lastError (w : World) :
  attempt <= maxRetries ->
  retry_loop net (S fuel) url options maxRetries timeout attempt lastError w =
    let '(o, elapsed) := raced net timeout (calls w) in
    let w1 := after_attempt url o elapsed w in
    match failure_of o with
    | None => (settled o, w1)
    | Some e =>
        if is_abort e then (Throws (ThrownError (newError "Request timeout")), w1)
        else if attempt =? maxRetries then (Throws (ThrownError e), w1)
        else retry_loop net fuel url options maxRetries timeout (attempt + 1)
                        (Some e) (after_backoff maxRetries attempt e w1)
    end.
Proof.
  intros Hle. apply retry_loop_unfold. apply Z.leb_le. exact Hle.
Qed.

End IntegralBudgetMore.

(** ** Further properties of [fetchWithRetry] *)

(** X1: when the first attempt of fetchWithRetry yields a 2xx response, that
    response is returned at once: it is the only request issued and no wait
    follows it, whatever maxRetries is. *)
Theorem fetchWithRetry_success_returned :
  forall net url options (maxRetries : Z) timeout w result w' r post,
    fetchWithRetry net url options maxRetries timeout w = (result, w') ->
    log w' = (log w ++ EvFetch url (FetchResponse r) :: post)%list ->
    ok r = true ->
    result = Normal r /\ post = [] /\ calls w' = S (calls w).
Proof.
  intros net url options maxRetries timeout w result w' r post Hrun Hlog Hok.
  destruct (fetchWithRetry_trace _ _ _ _ _ _ _ _ _ Hrun Hlog) as [Hshape Hcalls].
  assert (Hnone : failure_of (FetchResponse r) = None).
  { simpl. rewrite Hok. reflexivity. }
  destruct (run_accepted _ _ _ _ _ _ _ _ Hshape eq_refl Hnone) as [-> ->].
  repeat split. rewrite Hcalls. simpl. lia.
Qed.

Lemma fetchWithRetry_success_returned_witness :
  fst (fetchWithRetry (always (FetchResponse course_list)) "/my-courses" [] 3 30000 w0)
    = Normal course_list /\
  skipn 1 (log (snd (fetchWithRetry (always (FetchResponse course_list))
                                    "/my-courses" [] 3 30000 w0))) = [] /\
  calls (snd (fetchWithRetry (always (FetchResponse course_list))
                             "/my-courses" [] 3 30000 w0)) = 1%nat.
Proof.
  apply (fetchWithRetry_success_returned
           (always (FetchResponse course_list)) "/my-courses" [] 3 30000 w0
           _ _ course_list _ eq_refl); reflexivity.
Defined.

(** X2: fetchWithRetry issues at most as many requests as the integer part
    of maxRetries.  With a maxRetries other than Infinity (an integer or not,
    NaN included; up to 2^53, as far as the counter of the loop counts
    exactly) the call ends, by a return or by a throw, after at most that
    many requests, none when maxRetries is below 1 or NaN.  With maxRetries =
    Infinity and a network whose every request fails in a retried way, the
    loop never ends: after any number of iterations it is still running and
    has issued one request per iteration. *)
Theorem fetchWithRetry_request_bound :
  forall net url options (maxRetries : number) timeout w,
    (forall n,
        bound maxRetries = Some n -> n <= 2 ^ 53 ->
        fst (fetchWithRetry net url options maxRetries timeout w) <> Stuck /\
        (calls w <= calls (snd (fetchWithRetry net url options maxRetries timeout w))
         <= calls w + Z.to_nat n)%nat) /\
    (maxRetries = Infinity ->
     (forall i, retryable (fst (raced net timeout (calls w + i))) = true) ->
     forall steps,
     exists w',
       retry_loop net steps url options maxRetries timeout 1 None w
         = (Stuck, w') /\
       calls w' = (calls w + steps)%nat).
Proof.
  intros net url options maxRetries timeout w. split.
  - intros n Hb _.
    assert (Hfinite : maxRetries <> Infinity) by (intros ->; discriminate).
    split.
    + destruct (fetchWithRetry_run_bounded net url options maxRetries timeout w Hfinite)
        as (trace & result & w' & Hrun & _ & _ & _ & Hshape).
      rewrite Hrun. cbn [fst]. eapply run_not_stuck; eauto.
    + pose proof (fetchWithRetry_calls net url options maxRetries timeout w Hfinite)
        as Hcalls.
      unfold iterations in Hcalls. rewrite Hb in Hcalls. exact Hcalls.
  - intros Hm Hfail fuel. apply retry_loop_unbounded; assumption.
Qed.

Lemma fetchWithRetry_request_bound_witness :
  (fst (fetchWithRetry (always (FetchResponse (html_response 503 "Service Unavailable")))
                       "/files" [] (Fractional 2 "2.5") 30000 w0) <> Stuck /\
   (calls w0
    <= calls (snd (fetchWithRetry
                     (always (FetchResponse (html_response 503 "Service Unavailable")))
                     "/files" [] (Fractional 2 "2.5") 30000 w0))
    <= calls w0 + Z.to_nat 2)%nat) /\
  exists w',
    retry_loop (always (FetchResponse (html_response 503 "Service Unavailable")))
               7 "/files" [] Infinity 30000 1 None w0
      = (Stuck, w') /\
    calls w' = (calls w0 + 7)%nat.
Proof.
  split.
  - apply (fetchWithRetry_request_bound
             (always (FetchResponse (html_response 503 "Service Unavailable")))
             "/files" [] (Fractional 2 "2.5") 30000 w0);
      [reflexivity | vm_compute; discriminate].
  - apply (fetchWithRetry_request_bound
             (always (FetchResponse (html_response 503 "Service Unavailable")))
             "/files" [] Infinity 30000 w0);
      [reflexivity | intros i; reflexivity].
Defined.

(** X3: a response that fetchWithRetry returns is a 2xx or a 4xx, never
    another status, and it is the answer to the last request issued. *)
Theorem fetchWithRetry_returns_2xx_or_4xx :
  forall net url options (maxRetries : Z) timeout w r w',
    fetchWithRetry net url options maxRetries timeout w = (Normal r, w') ->
    (200 <= status r <= 299 \/ 400 <= status r <= 499) /\
    exists earlier,
      log w' = (log w ++ earlier ++ [EvFetch url (FetchResponse r)])%list.
Proof.
  intros net url options maxRetries timeout w r w' Hrun.
  destruct (fetchWithRetry_run net url options maxRetries timeout w)
    as (trace & result & w'' & Hrun' & Hlog & _ & _ & Hshape).
  rewrite Hrun in Hrun'. inversion Hrun'; subst result w''.
  destruct (run_returned _ _ _ _ _ _ Hshape) as (Hnone & earlier & ->).
  split; [| exists earlier; exact Hlog].
  simpl in Hnone. unfold ok, client_error in Hnone.
  destruct ((200 <=? status r) && (status r <=? 299)) eqn:H2xx.
  - apply andb_prop in H2xx as [H1 H2].
    apply Z.leb_le in H1. apply Z.leb_le in H2. lia.
  - destruct ((400 <=? status r) && (status r <? 500)) eqn:H4xx; [| discriminate].
    apply andb_prop in H4xx as [H1 H2].
    apply Z.leb_le in H1. apply Z.ltb_lt in H2. lia.
Qed.

Lemma fetchWithRetry_returns_2xx_or_4xx_witness :
  (200 <= status not_found <= 299 \/ 400 <= status not_found <= 499) /\
  exists earlier,
    log (snd run_404) = (log w0 ++ earlier ++ [EvFetch "/files" (FetchResponse not_found)])%list.
Proof.
  apply (fetchWithRetry_returns_2xx_or_4xx
           (always (FetchResponse not_found)) "/files" [] 3 30000 w0
           not_found (snd run_404)).
  reflexivity.
Defined.

(** X4: retries mask transient faults.  When the next k requests end, under
    the per-attempt timer, in a way that is retried (a 5xx or a transport
    error, not a timeout), the one after them is answered in time by a 2xx
    or a 4xx, and attempt k + 1 is within maxRetries (k + 1 <= maxRetries),
    the loop returns that answer after exactly k + 1 requests: so does
    fetchWithRetry for every maxRetries other than Infinity, and so does the
    loop itself, Infinity included, once it is followed for more than k
    iterations. *)
Theorem fetchWithRetry_recovers :
  forall net url options (maxRetries : number) timeout w (k : nat) r,
    number_le (Z.of_nat k + 1) maxRetries = true ->
    (forall i, (i < k)%nat ->
               retryable (fst (raced net timeout (calls w + i))) = true) ->
    fst (raced net timeout (calls w + k)) = FetchResponse r ->
    failure_of (FetchResponse r) = None ->
    (maxRetries <> Infinity ->
     exists w',
       fetchWithRetry net url options maxRetries timeout w = (Normal r, w') /\
       calls w' = (calls w + k + 1)%nat) /\
    (forall steps,
        (k < steps)%nat ->
        exists w',
          retry_loop net steps url options maxRetries timeout 1 None w
            = (Normal r, w') /\
          calls w' = (calls w + k + 1)%nat).
Proof.
  intros net url options maxRetries timeout w k r Hk Hfail Hlast Hnone.
  assert (Hloop : forall fuel,
             (k < fuel)%nat ->
             exists w',
               retry_loop net fuel url options maxRetries timeout 1 None w
                 = (Normal r, w') /\
               calls w' = (calls w + k + 1)%nat).
  { intros fuel Hfuel. apply retry_loop_recovers; auto.
    replace (1 + Z.of_nat k) with (Z.of_nat k + 1) by lia. exact Hk. }
  split; [| exact Hloop].
  intros Hfinite. unfold fetchWithRetry, iterations.
  destruct (bound maxRetries) as [n |] eqn:Hb.
  - apply Hloop. pose proof (number_le_bound _ _ _ Hb Hk). lia.
  - destruct maxRetries; try discriminate. now elim Hfinite.
Qed.

Lemma fetchWithRetry_recovers_witness :
  (Fractional 3 "3.5" <> Infinity ->
   exists w',
     fetchWithRetry recovering_network "/my-courses" [] (Fractional 3 "3.5") 30000 w0
       = (Normal course_list, w') /\
     calls w' = (0 + 2 + 1)%nat) /\
  (forall steps,
      (2 < steps)%nat ->
      exists w',
        retry_loop recovering_network steps "/my-courses" []
                   (Fractional 3 "3.5") 30000 1 None w0
          = (Normal course_list, w') /\
        calls w' = (0 + 2 + 1)%nat).
Proof.
  apply (fetchWithRetry_recovers recovering_network "/my-courses" []
                                 (Fractional 3 "3.5") 30000 w0 2 course_list);
    [reflexivity | | reflexivity | reflexivity].
  intros [| [| i]] Hi; [reflexivity | reflexivity | lia].
Defined.

(** A timeout that does not fit the timer: the first request, answered after
    20 ms, is aborted after 1 ms. *)
Example timeout_out_of_range :
  fetchWithRetry recovering_network "/my-courses" [] 3 3000000000 w0
  = (Throws (ThrownError (newError "Request timeout")),
     {| calls := 1; clock := 1;
        log := [EvFetch "/my-courses" (FetchThrows (ThrownError AbortError))] |}).
Proof. reflexivity. Qed.

(** X5: the time fetchWithRetry takes is bounded.  With a maxRetries whose
    integer part b is at least 1 (and at most 2^53), it issues n requests,
    1 <= n <= b, and the clock advances by at most n timer delays plus
    5000 ms for each wait: at most n waits, and at most n - 1 when maxRetries
    is an integer (then no wait follows the last request).  The timer delay
    is the timeout as setTimeout keeps it. *)
Theorem fetchWithRetry_time_bound :
  forall net url options (maxRetries : number) timeout w b,
    bound maxRetries = Some b ->
    1 <= b <= 2 ^ 53 ->
    let w' := snd (fetchWithRetry net url options maxRetries timeout w) in
    let n := Z.of_nat (calls w') - Z.of_nat (calls w) in
    1 <= n <= b /\
    0 <= clock w' - clock w <= n * timer_delay timeout + 5000 * n /\
    (fractional maxRetries = false ->
     clock w' - clock w <= n * timer_delay timeout + 5000 * (n - 1)).
Proof.
  intros net url options maxRetries timeout w b Hb Hrange.
  assert (Hfinite : maxRetries <> Infinity) by (intros ->; discriminate).
  assert (Hle : number_le 1 maxRetries = true)
    by (apply (bound_number_le _ _ _ Hb); lia).
  pose proof (fetchWithRetry_calls net url options maxRetries timeout w Hfinite)
    as (_ & Hupper).
  assert (Hfuel : fetchWithRetry net url options maxRetries timeout w
                  = retry_loop net (Z.to_nat b) url options maxRetries timeout
                               1 None w).
  { unfold fetchWithRetry, iterations. rewrite Hb. reflexivity. }
  unfold iterations in Hupper. rewrite Hb, Hfuel in Hupper. rewrite Hfuel.
  destruct (retry_loop_clock net url options maxRetries timeout
              (Z.to_nat b) 1 None w b Hb ltac:(lia) Hle ltac:(lia))
    as (Hn & Hmono & Hbound & Hexact).
  cbv zeta. repeat split; try lia. exact Hexact.
Qed.

Lemma fetchWithRetry_time_bound_witness :
  let w' := snd (fetchWithRetry sluggish_503 "/my-courses" []
                                (Fractional 1 "1.5") 30000 w0) in
  let n := Z.of_nat (calls w') - Z.of_nat (calls w0) in
  1 <= n <= 1 /\
  0 <= clock w' - clock w0 <= n * timer_delay 30000 + 5000 * n /\
  (fractional (Fractional 1 "1.5") = false ->
   clock w' - clock w0 <= n * timer_delay 30000 + 5000 * (n - 1)).
Proof.
  apply (fetchWithRetry_time_bound sluggish_503 "/my-courses" []
                                   (Fractional 1 "1.5") 30000 w0 1);
    [reflexivity | vm_compute; split; discriminate].
Defined.

(** X6: with maxRetries at least 1, whatever fetchWithRetry throws is an
    Error: a value that is not an Error (thrown by fetch) is wrapped, and the
    never-assigned lastError is not reached. *)
Theorem fetchWithRetry_throws_errors :
  forall net url options (maxRetries : Z) timeout w t,
    1 <= maxRetries ->
    fst (fetchWithRetry net url options maxRetries timeout w) = Throws t ->
    exists e, t = ThrownError e.
Proof.
  intros net url options maxRetries timeout w t HN Hthrows.
  destruct (fetchWithRetry_run net url options maxRetries timeout w)
    as (trace & result & w' & Hrun & _ & _ & _ & Hshape).
  rewrite Hrun in Hthrows. simpl in Hthrows. subst result.
  eapply run_thrown; [exact Hshape | left; apply Z.leb_le; exact HN].
Qed.

Lemma fetchWithRetry_throws_errors_witness :
  exists e,
    fst (fetchWithRetry (always (FetchThrows (ThrownOther "rate limited")))
                        "/files" [] 2 30000 w0)
    = Throws (ThrownError e).
Proof.
  destruct (fetchWithRetry_throws_errors
              (always (FetchThrows (ThrownOther "rate limited"))) "/files" []
              2 30000 w0 (ThrownError (newError "rate limited"))
              ltac:(lia) eq_refl) as [e He].
  exists e. rewrite <- He. reflexivity.
Defined.

(** A backend that always answers 503, called with maxRetries = 2.5: two
    requests, and a wait and a warning after each of them. *)
Example run_with_fractional_budget :
  List.length (fetches (log (snd run_503_fractional))) = 2%nat /\
  waits (log (snd run_503_fractional)) = [1000; 2000] /\
  warnings (log (snd run_503_fractional))
  = [("API request failed (attempt 1/2.5):", "Server error: 503 Service Unavailable");
     ("API request failed (attempt 2/2.5):", "Server error: 503 Service Unavailable")] /\
  fst run_503_fractional
  = Throws (ThrownError (newError "Server error: 503 Service Unavailable")) /\
  clock (snd run_503_fractional) = 3000.
Proof. vm_compute. repeat split. Qed.



(** ** Further properties of [apiCall] *)

(** X8: when the first answer arrives before the 30 s timer fires and is a
    2xx whose body parses as JSON, apiCall returns {success: true, data:
    <the parsed body>} after that single request, for every maxRetries of at
    least 1. *)
Theorem apiCall_success :
  forall net url options (maxRetries : Z) w r v latency,
    1 <= maxRetries ->
    net (calls w) = (FetchResponse r, latency) ->
    Z.of_N latency < 30000 ->
    ok r = true ->
    json_body r = Resolves v ->
    apiCall net url options maxRetries w
    = (Normal {| data := Some v; error := None; success := true |},
       after_attempt url (FetchResponse r) (Z.of_N latency) w).
Proof.
  intros net url options maxRetries w r v latency HN Hnet Hfast Hok Hjson.
  rewrite apiCall_eq. unfold fetchWithRetry.
  change (iterations maxRetries) with (Z.to_nat maxRetries).
  destruct (Z.to_nat maxRetries) as [| fuel] eqn:Hfuel; [lia |].
  rewrite retry_loop_step by lia.
  unfold raced. change (timer_delay 30000) with 30000. rewrite Hnet.
  replace (30000 <=? Z.of_N latency) with false by (symmetry; apply Z.leb_gt; lia).
  cbv zeta. simpl failure_of. rewrite Hok. simpl.
  rewrite Hok, Hjson. reflexivity.
Qed.

Lemma apiCall_success_witness :
  apiCall recovering_network "/my-courses" [] 3
          {| calls := 2; clock := 7000; log := [] |}
  = (Normal {| data := Some (JObj [("courses", JArr [])]); error := None;
               success := true |},
     {| calls := 3; clock := 7120;
        log := [EvFetch "/my-courses" (FetchResponse course_list)] |}).
Proof.
  apply (apiCall_success recovering_network "/my-courses" [] 3
                         {| calls := 2; clock := 7000; log := [] |}
                         course_list (JObj [("courses", JArr [])]) 120%N);
    [lia | reflexivity | simpl; lia | reflexivity | reflexivity].
Defined.

(** X9: apiCall reports success only on the strength of an answer: a result
    with success = true carries as data the parsed JSON body of a 2xx
    response that the network delivered, and no error. *)
Theorem apiCall_success_sound :
  forall net url options (maxRetries : Z) w result w',
    apiCall net url options maxRetries w = (Normal result, w') ->
    success result = true ->
    exists n response v,
      fst (net n) = FetchResponse response /\
      200 <= status response <= 299 /\
      json_body response = Resolves v /\
      data result = Some v /\ error result = None.
Proof.
  intros net url options maxRetries w result w' Hcall Hsuccess.
  rewrite apiCall_eq in Hcall. injection Hcall as Hresult Hw'. subst result.
  destruct (fetchWithRetry net url options maxRetries 30000 w)
    as [[response | t |] w1] eqn:Hrun; cbn [fst api_result] in *;
    try discriminate Hsuccess.
  destruct (ok response) eqn:Hok; [| discriminate Hsuccess].
  destruct (json_body response) as [v | t] eqn:Hjson; [| discriminate Hsuccess].
  destruct (returned_by_network _ _ _ _ _ _ _ _ Hrun) as (n & Hn).
  exists n, response, v. simpl.
  unfold ok in Hok. apply andb_prop in Hok as [H1 H2].
  apply Z.leb_le in H1. apply Z.leb_le in H2.
  repeat split; (assumption || reflexivity).
Qed.

Lemma apiCall_success_sound_witness :
  exists n response v,
    fst (recovering_network n) = FetchResponse response /\
    200 <= status response <= 299 /\
    json_body response = Resolves v /\
    Some (JObj [("courses", JArr [])]) = Some v /\ @None json = None.
Proof.
  apply (apiCall_success_sound recovering_network "/my-courses" [] 3 w0
           {| data := Some (JObj [("courses", JArr [])]); error := None;
              success := true |}
           (snd (apiCall recovering_network "/my-courses" [] 3 w0)));
    reflexivity.
Defined.

(** X10: when every attempt is answered by a 5xx, apiCall (maxRetries at
    least 1) makes maxRetries requests and then reports 'Server error:
    <status> <statusText>' of a 5xx answer it received; the body of a 5xx
    answer, a [detail] field included, is never read. *)
Theorem apiCall_server_error :
  forall net url options (maxRetries : Z) w,
    1 <= maxRetries ->
    (forall n, (calls w <= n)%nat -> server_fault (fst (raced net 30000 n)) = true) ->
    exists r n w',
      apiCall net url options maxRetries w
      = (Normal (failure (JStr ("Server error: " ++ show (status r) ++ " "
                                  ++ statusText r))), w') /\
      fst (raced net 30000 n) = FetchResponse r /\
      500 <= status r <= 599 /\
      calls w' = (calls w + Z.to_nat maxRetries)%nat.
Proof.
  intros net url options maxRetries w HN Hall.
  destruct (fetchWithRetry_run net url options maxRetries 30000 w)
    as (trace & result & w' & Hrun & _ & Hcalls & Hnet & Hshape).
  assert (Hfaults : forallb server_fault (fetches trace) = true).
  { rewrite Hnet. apply forallb_forall. intros o Ho.
    apply in_map_iff in Ho as (n & <- & Hn). apply in_seq in Hn. apply Hall. lia. }
  destruct (run_all_server_faults _ _ _ _ _ _ Hshape) as (Hlen & earlier & r & Hlast & ->);
    [lia | exact Hfaults |].
  replace (maxRetries + 1 - 1) with maxRetries in Hlen by lia.
  assert (Hin : In (FetchResponse r) (fetches trace)).
  { rewrite Hlast. apply in_or_app. right. now left. }
  pose proof Hin as Hfault.
  rewrite forallb_forall in Hfaults. apply Hfaults in Hfault.
  rewrite Hnet in Hin. apply in_map_iff in Hin as (n & Hn & _).
  exists r, n, w'. rewrite apiCall_eq, Hrun. cbn [fst snd api_result].
  split; [reflexivity |]. split; [exact Hn |].
  simpl in Hfault. apply andb_prop in Hfault as [H1 H2].
  apply Z.leb_le in H1. apply Z.leb_le in H2. lia.
Qed.

Lemma apiCall_server_error_witness :
  exists r n w',
    apiCall (always (FetchResponse crash_report)) "/my-courses" [] 3 w0
    = (Normal (failure (JStr ("Server error: " ++ show (status r) ++ " "
                                ++ statusText r))), w') /\
    fst (raced (always (FetchResponse crash_report)) 30000 n) = FetchResponse r /\
    500 <= status r <= 599 /\
    calls w' = (0 + Z.to_nat 3)%nat.
Proof.
  apply (apiCall_server_error (always (FetchResponse crash_report)) "/my-courses"
                              [] 3 w0); [lia |].
  intros n _. reflexivity.
Defined.

(** X11: when the first request is still pending after 30 s, apiCall
    (maxRetries at least 1) gives up there: one request, 30 s on the clock,
    no retry, and the result is {success: false, error: 'Request timeout'}. *)
Theorem apiCall_timeout :
  forall net url options (maxRetries : Z) w,
    1 <= maxRetries ->
    30000 <= Z.of_N (snd (net (calls w))) ->
    apiCall net url options maxRetries w
    = (Normal (failure (JStr "Request timeout")),
       after_attempt url (FetchThrows (ThrownError AbortError)) 30000 w).
Proof.
  intros net url options maxRetries w HN Hslow.
  rewrite apiCall_eq. unfold fetchWithRetry.
  change (iterations maxRetries) with (Z.to_nat maxRetries).
  destruct (Z.to_nat maxRetries) as [| fuel] eqn:Hfuel; [lia |].
  rewrite retry_loop_step by lia.
  unfold raced. change (timer_delay 30000) with 30000. destruct (net (calls w)) as [o latency]. cbn [snd] in Hslow.
  replace (30000 <=? Z.of_N latency) with true by (symmetry; apply Z.leb_le; lia).
  reflexivity.
Qed.

Lemma apiCall_timeout_witness :
  apiCall stalled_network "/my-courses" [] 3 w0
  = (Normal (failure (JStr "Request timeout")),
     {| calls := 1; clock := 30000;
        log := [EvFetch "/my-courses" (FetchThrows (ThrownError AbortError))] |}).
Proof.
  apply (apiCall_timeout stalled_network "/my-courses" [] 3 w0); simpl; lia.
Defined.

(** X12: with maxRetries below 1, apiCall touches neither the network nor
    the clock and returns {success: false, error: 'Unknown error occurred'}. *)
Theorem apiCall_without_attempts :
  forall net url options (maxRetries : Z) w,
    maxRetries < 1 ->
    apiCall net url options maxRetries w
    = (Normal (failure (JStr "Unknown error occurred")), w).
Proof.
  intros net url options maxRetries w Hlt.
  rewrite apiCall_eq. unfold fetchWithRetry.
  rewrite retry_loop_exit by (apply Z.leb_gt; lia). reflexivity.
Qed.

Lemma apiCall_without_attempts_witness :
  apiCall (always (FetchResponse course_list)) "/my-courses" [] 0 w0
  = (Normal (failure (JStr "Unknown error occurred")), w0).
Proof. apply apiCall_without_attempts. lia. Defined.

(** X13: every result of apiCall has one of two shapes: {success: true,
    data: v} with no error, or {success: false, error: e} with no data. *)
Theorem apiCall_result_shape :
  forall net url options (maxRetries : Z) w,
    exists result w',
      apiCall net url options maxRetries w = (Normal result, w') /\
      ((exists v, result = {| data := Some v; error := None; success := true |}) \/
       (exists e, result = failure e)).
Proof.
  intros net url options maxRetries w.
  eexists _, _. split; [apply apiCall_eq |].
  destruct (fst (fetchWithRetry net url options maxRetries 30000 w))
    as [response | t |]; simpl; unfold failure; eauto.
  destruct (ok response); [destruct (json_body response) |]; eauto.
Qed.

(** ** [getApiUrl] and [API_BASE] *)

Lemma strip_trailing_slash_added (s : string) :
  strip_trailing_slash (s ++ "/") = s.
Proof.
  induction s as [| c s IH]; [reflexivity |].
  simpl. destruct (s ++ "/") as [| c' rest] eqn:Happ.
  - destruct s; discriminate.
  - rewrite IH. reflexivity.
Qed.

Lemma strip_trailing_slash_absent (s : string) :
  ends_with_slash s = false -> strip_trailing_slash s = s.
Proof.
  induction s as [| c s IH]; [reflexivity |].
  simpl. destruct s as [| c' rest].
  - intros ->. reflexivity.
  - intros H. rewrite (IH H). reflexivity.
Qed.

Lemma strip_leading_slash_absent (s : string) :
  starts_with_slash s = false -> strip_leading_slash s = s.
Proof. destruct s as [| c rest]; simpl; [reflexivity | intros ->; reflexivity]. Qed.

Lemma string_or_nonempty (s fallback : string) :
  s <> "" -> string_or (Some s) fallback = s.
Proof. destruct s; [intros H; now elim H | reflexivity]. Qed.

(** X14: getApiUrl joins base and endpoint with exactly one slash whether or
    not the base ends with one and the endpoint starts with one: for a
    non-empty base without trailing slash and an endpoint without leading
    slash, the four spellings give the same URL. *)
Theorem getApiUrl_join :
  forall window_API_BASE base endpoint,
    base <> "" ->
    ends_with_slash base = false ->
    starts_with_slash endpoint = false ->
    getApiUrl window_API_BASE endpoint (Some base) = base ++ "/" ++ endpoint /\
    getApiUrl window_API_BASE ("/" ++ endpoint) (Some base) = base ++ "/" ++ endpoint /\
    getApiUrl window_API_BASE endpoint (Some (base ++ "/")) = base ++ "/" ++ endpoint /\
    getApiUrl window_API_BASE ("/" ++ endpoint) (Some (base ++ "/"))
    = base ++ "/" ++ endpoint.
Proof.
  intros window_API_BASE base endpoint Hbase Hends Hstarts.
  assert (Hslash : base ++ "/" <> "") by (destruct base; discriminate).
  unfold getApiUrl.
  rewrite !(string_or_nonempty _ _ Hbase), !(string_or_nonempty _ _ Hslash).
  rewrite strip_trailing_slash_added, (strip_trailing_slash_absent _ Hends),
    (strip_leading_slash_absent _ Hstarts).
  repeat split; reflexivity.
Qed.

Lemma getApiUrl_join_witness :
  getApiUrl None "files/quizzes" (Some "http://localhost:8000")
    = "http://localhost:8000" ++ "/" ++ "files/quizzes" /\
  getApiUrl None ("/" ++ "files/quizzes") (Some "http://localhost:8000")
    = "http://localhost:8000" ++ "/" ++ "files/quizzes" /\
  getApiUrl None "files/quizzes" (Some ("http://localhost:8000" ++ "/"))
    = "http://localhost:8000" ++ "/" ++ "files/quizzes" /\
  getApiUrl None ("/" ++ "files/quizzes") (Some ("http://localhost:8000" ++ "/"))
    = "http://localhost:8000" ++ "/" ++ "files/quizzes".
Proof.
  apply (getApiUrl_join None "http://localhost:8000" "files/quizzes");
    [discriminate | reflexivity | reflexivity].
Defined.

(** X15: getApiUrl takes at most one slash from each side: whatever the base
    and the endpoint are, a slash added at the end of the base and one added
    in front of the endpoint are both dropped and nothing else is, so slashes
    that were already there (a doubled slash) stay in the URL. *)
Theorem getApiUrl_single_slash :
  forall window_API_BASE base endpoint,
    getApiUrl window_API_BASE ("/" ++ endpoint) (Some (base ++ "/"))
    = base ++ "/" ++ endpoint.
Proof.
  intros window_API_BASE base endpoint.
  assert (Hslash : base ++ "/" <> "") by (destruct base; discriminate).
  unfold getApiUrl. rewrite (string_or_nonempty _ _ Hslash).
  rewrite strip_trailing_slash_added. reflexivity.
Qed.

(** X16: the configured API_BASE is never the empty string, on any host:
    an environment variable that is set to the empty string is passed over
    like one that is not set. *)
Theorem API_BASE_not_empty :
  forall host, resolve_API_BASE host <> "".
Proof.
  intros host. unfold resolve_API_BASE.
  repeat match goal with
         | |- context [match ?v with Some _ => _ | None => _ end] => destruct v
         | |- context [match ?s with EmptyString => _ | String _ _ => _ end] =>
             destruct s
         | |- context [if ?b then _ else _] => destruct b
         end; discriminate.
Qed.

(** ** The pages that call [apiCall] *)

Section Pages.

Variable net : nat -> fetch_outcome * N.
Variable API_BASE : string.
Variable cancelled : World -> bool.

Lemma value_or_truthy (a : option json) (fallback : json) :
  truthy (Some fallback) = true -> truthy (Some (value_or a fallback)) = true.
Proof.
  intros Hfallback. unfold value_or, or_else.
  destruct (truthy a) eqn:Ha; [| exact Hfallback].
  destruct a; [exact Ha | discriminate].
Qed.

Lemma first_truthy_truthy (a b : option json) (fallback : string) :
  fallback <> "" -> truthy (Some (first_truthy a b fallback)) = true.
Proof.
  intros Hfallback. unfold first_truthy, or_else.
  destruct (truthy a) eqn:Ha; [destruct a; [exact Ha | discriminate] |].
  destruct (truthy b) eqn:Hb; [destruct b; [exact Hb | discriminate] |].
  simpl. destruct fallback; [now elim Hfallback | reflexivity].
Qed.

(** What [fetchCourses] leaves, by the result of its [apiCall]. *)
Lemma fetchCourses_eq (u : Ui MyCoursesView) (w : World) :
  let r := api_result (fst (fetchWithRetry net (API_BASE ++ "/my-courses") [] 3 30000 w)) in
  fetchCourses net API_BASE u w =
    (Normal tt,
     {| view :=
          {| mc_courses :=
               if success r
               then value_or (optional_prop (data r) "courses") (JArr [])
               else mc_courses (view u);
             mc_loading := false;
             mc_error :=
               if success r then mc_error (view u)
               else Some (value_or (error r) (JStr "Failed to load courses")) |};
        outputs := outputs u |},
     snd (fetchWithRetry net (API_BASE ++ "/my-courses") [] 3 30000 w)).
Proof.
  unfold fetchCourses, act_finally, act_try, act_bind, lift, set. cbn [view outputs].
  rewrite apiCall_eq. cbv zeta.
  destruct (success (api_result _)); reflexivity.
Qed.

(** A status check moves the clock forward. *)
Lemma apiCall_clock url (w : World) :
  clock w <= clock (snd (apiCall net url [] 3 w)).
Proof.
  rewrite apiCall_eq. cbn [snd]. unfold fetchWithRetry.
  destruct (retry_loop_clock net url [] 3 30000 (Z.to_nat 3) 1 None w 3)
    as (_ & Hmono & _); [reflexivity | lia | reflexivity | lia | exact Hmono].
Qed.

Lemma apiCall_calls url (w : World) :
  (calls w < calls (snd (apiCall net url [] 3 w)) <= calls w + 3)%nat.
Proof.
  rewrite apiCall_eq. cbn [snd].
  pose proof (fetchWithRetry_calls net url [] 3 30000 w) as Hupper.
  destruct (retry_loop_clock net url [] 3 30000 (Z.to_nat 3) 1 None w 3)
    as (Hn & _ & _); [reflexivity | lia | reflexivity | lia |].
  change (retry_loop net (Z.to_nat 3) url [] 3 30000 1 None w)
    with (fetchWithRetry net url [] 3 30000 w) in Hn.
  change (iterations 3) with 3%nat in Hupper.
  specialize (Hupper ltac:(discriminate)). lia.
Qed.

Lemma rounds_clock (n : nat) :
  forall w,
    clock w + 2000 * Z.of_nat n <= clock (rounds net API_BASE n w) /\
    (calls w + n <= calls (rounds net API_BASE n w))%nat.
Proof.
  induction n as [| n IH]; intros w; [simpl; lia |].
  cbn [rounds]. destruct (IH (poll_round net API_BASE w)) as [Hclock Hcalls].
  pose proof (apiCall_clock (API_BASE ++ "/generation/status") w) as Hstep.
  pose proof (apiCall_calls (API_BASE ++ "/generation/status") w) as Hreq.
  unfold poll_round, sleep, POLLING_INTERVAL in *. cbn [snd clock calls] in *.
  change (timer_delay 2000) with 2000 in *. lia.
Qed.

(** What [fetchFiles] does once the poller has returned, in a world [wp]. *)
Lemma fetchFiles_eq (active : TabKey) (u : Ui DashboardView) (w : World) :
  let wp := snd (waitForGeneration net API_BASE w) in
  let url := API_BASE ++ "/files/" ++ tab_name active in
  let r := api_result (fst (fetchWithRetry net url [] 3 30000 wp)) in
  let wf := snd (fetchWithRetry net url [] 3 30000 wp) in
  let v := view u in
  fetchFiles net API_BASE cancelled active u w =
    if cancelled wp then
      (Normal tt, {| view := setWaiting true v; outputs := outputs u |}, wp)
    else
      (Normal tt,
       {| view :=
            if cancelled wf then
              {| db_files := db_files v; db_loading := true; db_error := None;
                 db_waiting := false |}
            else if success r then
              {| db_files :=
                   with_tab (db_files v) active
                            (value_or (optional_prop (data r) "files") (JArr []));
                 db_loading := false; db_error := None; db_waiting := false |}
            else
              {| db_files := db_files v; db_loading := false;
                 db_error := Some (value_or (error r) (JStr (load_failed active)));
                 db_waiting := false |};
          outputs := outputs u |},
       wf).
Proof.
  cbv zeta.
  unfold fetchFiles, act_bind at 1 2. unfold set at 1, lift at 1.
  destruct (waitForGenerationN_eq net API_BASE 60 w) as (returned & _ & Hwait).
  unfold waitForGeneration. rewrite Hwait. cbn [snd view outputs].
  unfold act_bind at 1. unfold read_cancelled at 1.
  destruct (cancelled (snd (poll_loop net API_BASE 60 w))) eqn:Hstop;
    [reflexivity |].
  unfold act_finally, act_try, act_bind, lift, set, read_cancelled.
  cbn [view outputs]. rewrite apiCall_eq.
  unfold act_ret, setError, setLoading, setWaiting, setFiles.
  cbn [view outputs db_files db_loading db_error db_waiting fst snd].
  set (wf := snd (fetchWithRetry net (API_BASE ++ "/files/" ++ tab_name active)
                                 [] 3 30000 (snd (poll_loop net API_BASE 60 w)))).
  set (r := api_result (fst (fetchWithRetry net (API_BASE ++ "/files/" ++ tab_name active)
                                            [] 3 30000 (snd (poll_loop net API_BASE 60 w))))).
  cbv beta iota zeta.
  destruct (cancelled wf) eqn:Hlate; destruct (success r);
    cbn [negb]; cbv beta iota; rewrite ?Hlate; reflexivity.
Qed.

End Pages.

(** X17: MyCourses never clears an error.  When one load fails and the next
    one (the Try Again button) succeeds, the courses are stored but the error
    of the failed load is still set, so the page goes on rendering its error
    screen. *)
Theorem fetchCourses_error_sticks :
  forall net API_BASE u0 w0 r1 r2,
    let url := API_BASE ++ "/my-courses" in
    let first := fetchCourses net API_BASE u0 w0 in
    let second := fetchCourses net API_BASE (snd (fst first)) (snd first) in
    fst (apiCall net url [] 3 w0) = Normal r1 ->
    success r1 = false ->
    fst (apiCall net url [] 3 (snd first)) = Normal r2 ->
    success r2 = true ->
    fst (fst second) = Normal tt /\
    mc_courses (view (snd (fst second)))
    = value_or (optional_prop (data r2) "courses") (JArr []) /\
    MyCourses_render (view (snd (fst second)))
    = ErrorScreen (value_or (error r1) (JStr "Failed to load courses")).
Proof.
  intros net API_BASE u0 w0 r1 r2 url first second Hfirst Hfail Hsecond Hok.
  subst first second.
  pose proof (fetchCourses_eq net API_BASE u0 w0) as E1. cbv zeta in E1.
  rewrite apiCall_eq in Hfirst. cbn [fst] in Hfirst. injection Hfirst as Hr1.
  fold url in E1, Hr1. rewrite Hr1, Hfail in E1.
  rewrite E1 in Hsecond |- *. cbn [fst snd] in Hsecond |- *.
  match goal with
  | |- context [fetchCourses net API_BASE ?u1 ?w1] =>
      pose proof (fetchCourses_eq net API_BASE u1 w1) as E2
  end.
  cbv zeta in E2.
  rewrite apiCall_eq in Hsecond. cbn [fst] in Hsecond. injection Hsecond as Hr2.
  fold url in E2, Hr2. rewrite Hr2, Hok in E2. rewrite E2.
  cbn [fst snd view mc_courses mc_error].
  repeat split. unfold MyCourses_render. cbn [mc_loading mc_error].
  rewrite value_or_truthy by reflexivity. reflexivity.
Qed.

Lemma fetchCourses_error_sticks_witness :
  let first := fetchCourses late_network "" (mkUi MyCourses_initial []) w0 in
  let second := fetchCourses late_network "" (snd (fst first)) (snd first) in
  fst (fst second) = Normal tt /\
  mc_courses (view (snd (fst second)))
  = value_or (optional_prop (Some (JObj [("courses", JArr [])])) "courses") (JArr []) /\
  MyCourses_render (view (snd (fst second)))
  = ErrorScreen (value_or (Some (JStr "Failed to fetch")) (JStr "Failed to load courses")).
Proof.
  apply (fetchCourses_error_sticks
           late_network "" (mkUi MyCourses_initial []) w0
           (failure (JStr "Failed to fetch"))
           {| data := Some (JObj [("courses", JArr [])]); error := None;
              success := true |});
    vm_compute; reflexivity.
Defined.

(** X18: fetchCourses always runs to its end without throwing: its catch
    block is never entered (nothing is written to the console), loading is
    false afterwards, between one and three requests were issued, and a
    failed load leaves the courses as they were. *)
Theorem fetchCourses_settles :
  forall net API_BASE u w,
    exists u' w',
      fetchCourses net API_BASE u w = (Normal tt, u', w') /\
      mc_loading (view u') = false /\
      outputs u' = outputs u /\
      (calls w < calls w' <= calls w + 3)%nat /\
      (truthy (mc_error (view u)) = false ->
       truthy (mc_error (view u')) = true ->
       mc_courses (view u') = mc_courses (view u)).
Proof.
  intros net API_BASE u w. eexists _, _.
  split; [apply fetchCourses_eq |]. cbn [view outputs mc_loading mc_courses mc_error].
  repeat split.
  - pose proof (apiCall_calls net (API_BASE ++ "/my-courses") w) as H.
    rewrite apiCall_eq in H. cbn [snd] in H. lia.
  - pose proof (apiCall_calls net (API_BASE ++ "/my-courses") w) as H.
    rewrite apiCall_eq in H. cbn [snd] in H. lia.
  - intros Hbefore Hafter. destruct (success _); [congruence | reflexivity].
Qed.

Lemma fetchCourses_settles_witness :
  exists u' w',
    fetchCourses late_network "" (mkUi MyCourses_initial []) w0 = (Normal tt, u', w') /\
    mc_loading (view u') = false /\
    outputs u' = [] /\
    (0 < calls w' <= 0 + 3)%nat /\
    (truthy (@None json) = false ->
     truthy (mc_error (view u')) = true ->
     mc_courses (view u') = JArr []).
Proof.
  apply (fetchCourses_settles late_network "" (mkUi MyCourses_initial []) w0).
Defined.

(** X19: when the effect is not cancelled and the listing succeeds,
    fetchFiles stores the [files] of the answer (the empty list when the
    field is absent or falsy) under the active tab and leaves the other tabs
    as they were; waiting and loading are false and any earlier error is
    cleared. *)
Theorem fetchFiles_lists_active_tab :
  forall net API_BASE cancelled active u w r,
    let wp := snd (waitForGeneration net API_BASE w) in
    let url := API_BASE ++ "/files/" ++ tab_name active in
    let after := fetchFiles net API_BASE cancelled active u w in
    cancelled wp = false ->
    cancelled (snd (apiCall net url [] 3 wp)) = false ->
    fst (apiCall net url [] 3 wp) = Normal r ->
    success r = true ->
    fst (fst after) = Normal tt /\
    db_files (view (snd (fst after))) active
    = value_or (optional_prop (data r) "files") (JArr []) /\
    (forall tab, tab <> active ->
                 db_files (view (snd (fst after))) tab = db_files (view u) tab) /\
    db_error (view (snd (fst after))) = None /\
    db_loading (view (snd (fst after))) = false /\
    db_waiting (view (snd (fst after))) = false.
Proof.
  intros net API_BASE cancelled active u w r wp url after Hearly Hlate Hcall Hok.
  unfold after. rewrite fetchFiles_eq. fold wp url.
  rewrite apiCall_eq in Hlate, Hcall. cbn [fst snd] in Hlate, Hcall.
  injection Hcall as Hr. rewrite Hearly, Hlate, Hr, Hok.
  cbn [fst snd view db_files db_error db_loading db_waiting].
  unfold with_tab. repeat split.
  - destruct active; reflexivity.
  - intros tab Hother. destruct tab, active; try reflexivity; now elim Hother.
Qed.

Lemma fetchFiles_lists_active_tab_witness :
  let after := fetchFiles ready_backend "" never_cancelled Quizzes
                          (mkUi Dashboard_initial []) w0 in
  fst (fst after) = Normal tt /\
  db_files (view (snd (fst after))) Quizzes
  = value_or (optional_prop
                (Some (JObj [("files", JArr [JObj [("name", JStr "week1.pdf")]])]))
                "files") (JArr []) /\
  (forall tab, tab <> Quizzes ->
               db_files (view (snd (fst after))) tab = JArr []) /\
  db_error (view (snd (fst after))) = None /\
  db_loading (view (snd (fst after))) = false /\
  db_waiting (view (snd (fst after))) = false.
Proof.
  apply (fetchFiles_lists_active_tab
           ready_backend "" never_cancelled Quizzes (mkUi Dashboard_initial []) w0
           {| data := Some (JObj [("files", JArr [JObj [("name", JStr "week1.pdf")]])]);
              error := None; success := true |});
    vm_compute; reflexivity.
Defined.

(** X20: when the effect has been cancelled by the time the poller returns,
    fetchFiles stops there: no file listing is requested and nothing of the
    state changes but waiting, which stays true. *)
Theorem fetchFiles_cancelled_after_poll :
  forall net API_BASE cancelled active u w,
    let wp := snd (waitForGeneration net API_BASE w) in
    cancelled wp = true ->
    fetchFiles net API_BASE cancelled active u w
    = (Normal tt,
       {| view := {| db_files := db_files (view u);
                     db_loading := db_loading (view u);
                     db_error := db_error (view u);
                     db_waiting := true |};
          outputs := outputs u |},
       wp).
Proof.
  intros net API_BASE cancelled active u w wp Hearly.
  rewrite fetchFiles_eq. fold wp. rewrite Hearly. reflexivity.
Qed.

Lemma fetchFiles_cancelled_after_poll_witness :
  fetchFiles ready_backend "" always_cancelled Quizzes (mkUi Dashboard_initial []) w0
  = (Normal tt, mkUi Dashboard_initial [],
     snd (waitForGeneration ready_backend "" w0)).
Proof.
  apply (fetchFiles_cancelled_after_poll
           ready_backend "" always_cancelled Quizzes (mkUi Dashboard_initial []) w0).
  reflexivity.
Defined.

(** X21: with a backend that never reports completion, the Dashboard asks
    for the file list only after the poller has spent its whole budget: 60
    status checks and 60 waits of 2 s come first, so at least 60 requests and
    120 s precede the listing. *)
Theorem fetchFiles_after_full_poll :
  forall net API_BASE cancelled active u w,
    never_completes net ->
    let wp := rounds net API_BASE 60 w in
    let url := API_BASE ++ "/files/" ++ tab_name active in
    let w' := snd (fetchFiles net API_BASE cancelled active u w) in
    clock w + 120000 <= clock wp /\
    (calls w + 60 <= calls wp)%nat /\
    (cancelled wp = true -> w' = wp) /\
    (cancelled wp = false ->
     exists o rest, log w' = (log wp ++ EvFetch url o :: rest)%list).
Proof.
  intros net API_BASE cancelled active u w Hnever wp url w'.
  destruct (rounds_clock net API_BASE 60 w) as [Hclock Hcalls].
  fold wp in Hclock, Hcalls.
  assert (Hpoll : snd (waitForGeneration net API_BASE w) = wp).
  { unfold waitForGeneration.
    destruct (waitForGenerationN_eq net API_BASE 60 w) as (returned & _ & ->).
    rewrite (poll_loop_pending net API_BASE Hnever 60 w). reflexivity. }
  unfold w'. rewrite fetchFiles_eq. rewrite Hpoll. fold url.
  repeat split; try lia.
  - intros ->. reflexivity.
  - intros ->. cbn [snd].
    destruct (apiCall_log net url [] wp) as (o & rest & Hlog).
    rewrite apiCall_eq in Hlog. cbn [snd] in Hlog. eauto.
Qed.

Lemma fetchFiles_after_full_poll_witness :
  let wp := rounds pending_backend "" 60 w0 in
  let w' := snd (fetchFiles pending_backend "" never_cancelled Ppts
                            (mkUi Dashboard_initial []) w0) in
  clock w0 + 120000 <= clock wp /\
  (calls w0 + 60 <= calls wp)%nat /\
  (never_cancelled wp = true -> w' = wp) /\
  (never_cancelled wp = false ->
   exists o rest, log w' = (log wp ++ EvFetch ("" ++ "/files/" ++ tab_name Ppts) o :: rest)%list).
Proof.
  apply (fetchFiles_after_full_poll pending_backend "" never_cancelled Ppts
                                    (mkUi Dashboard_initial []) w0).
  intros n. reflexivity.
Defined.

(** X22: when the effect is not cancelled and the listing fails, fetchFiles
    leaves every tab as it was and sets the error to the error of the result
    if it is truthy, else to 'Failed to load <tab> files'; loading and
    waiting are false. *)
Theorem fetchFiles_reports_failure :
  forall net API_BASE cancelled active u w r,
    let wp := snd (waitForGeneration net API_BASE w) in
    let url := API_BASE ++ "/files/" ++ tab_name active in
    let after := fetchFiles net API_BASE cancelled active u w in
    cancelled wp = false ->
    cancelled (snd (apiCall net url [] 3 wp)) = false ->
    fst (apiCall net url [] 3 wp) = Normal r ->
    success r = false ->
    fst (fst after) = Normal tt /\
    db_files (view (snd (fst after))) = db_files (view u) /\
    db_error (view (snd (fst after)))
    = Some (value_or (error r) (JStr ("Failed to load " ++ tab_name active ++ " files"))) /\
    truthy (db_error (view (snd (fst after)))) = true /\
    db_loading (view (snd (fst after))) = false /\
    db_waiting (view (snd (fst after))) = false.
Proof.
  intros net API_BASE cancelled active u w r wp url after Hearly Hlate Hcall Hfail.
  unfold after. rewrite fetchFiles_eq. fold wp url.
  rewrite apiCall_eq in Hlate, Hcall. cbn [fst snd] in Hlate, Hcall.
  injection Hcall as Hr. rewrite Hearly, Hlate, Hr, Hfail.
  cbn [fst snd view db_files db_error db_loading db_waiting].
  repeat split. apply value_or_truthy. destruct active; reflexivity.
Qed.

Lemma fetchFiles_reports_failure_witness :
  let after := fetchFiles (always (FetchResponse bare_404)) "" never_cancelled
                          Flashcards (mkUi Dashboard_initial []) w0 in
  fst (fst after) = Normal tt /\
  db_files (view (snd (fst after))) = db_files Dashboard_initial /\
  db_error (view (snd (fst after)))
  = Some (value_or (Some (JStr "HTTP 404: Not Found"))
                   (JStr ("Failed to load " ++ tab_name Flashcards ++ " files"))) /\
  truthy (db_error (view (snd (fst after)))) = true /\
  db_loading (view (snd (fst after))) = false /\
  db_waiting (view (snd (fst after))) = false.
Proof.
  apply (fetchFiles_reports_failure
           (always (FetchResponse bare_404)) "" never_cancelled Flashcards
           (mkUi Dashboard_initial []) w0 (failure (JStr "HTTP 404: Not Found")));
    vm_compute; reflexivity.
Defined.

(** What [checkHealth] leaves, and what its status can be. *)
Lemma checkHealth_status :
  forall net API_BASE coerced_positive toLocaleTimeString u w,
    exists h r1 w1 r2 w2,
      apiCall net (API_BASE ++ "/debug/info") [] 3 w = (Normal r1, w1) /\
      apiCall net (API_BASE ++ "/generation/status") [] 3 w1 = (Normal r2, w2) /\
      checkHealth net API_BASE coerced_positive toLocaleTimeString u w
      = (Normal tt,
         {| view := {| health := Some h; checking := false |};
            outputs := outputs u |},
         w2) /\
      last_checked h = toLocaleTimeString (clock w2) /\
      (api_connected h = true ->
       success r1 = true /\ success r2 = true /\ health_error h = None) /\
      (api_connected h = false ->
       files_available h = false /\ backup_available h = false /\
       generation_completed h = JBool false /\ truthy (health_error h) = true) /\
      hasIssues h = negb (api_connected h) /\
      hasIssues h && hasWarnings h = false.
Proof.
  intros net API_BASE coerced_positive toLocaleTimeString u w.
  unfold checkHealth, act_finally, act_bind at 1, set at 1.
  unfold act_try, act_bind at 1, lift at 1.
  rewrite apiCall_eq.
  set (r1 := api_result (fst (fetchWithRetry net (API_BASE ++ "/debug/info") [] 3 30000 w))).
  set (w1 := snd (fetchWithRetry net (API_BASE ++ "/debug/info") [] 3 30000 w)).
  unfold act_bind at 1, lift at 1. rewrite apiCall_eq.
  set (r2 := api_result (fst (fetchWithRetry net (API_BASE ++ "/generation/status")
                                             [] 3 30000 w1))).
  set (w2 := snd (fetchWithRetry net (API_BASE ++ "/generation/status") [] 3 30000 w1)).
  assert (E1 : apiCall net (API_BASE ++ "/debug/info") [] 3 w = (Normal r1, w1))
    by apply apiCall_eq.
  assert (E2 : apiCall net (API_BASE ++ "/generation/status") [] 3 w1 = (Normal r2, w2))
    by apply apiCall_eq.
  assert (Hdefault : forall a b,
             truthy (Some (first_truthy a b "API connection failed")) = true).
  { intros a b. apply first_truthy_truthy. discriminate. }
  destruct (success r1) eqn:H1; destruct (success r2) eqn:H2; cbn [andb];
    try (eexists _, r1, w1, r2, w2;
         split; [first [exact E1 | reflexivity] |];
         split; [first [exact E2 | reflexivity] |];
         split; [reflexivity |];
         cbn [api_connected files_available backup_available generation_completed
              health_error last_checked disconnected];
         unfold hasIssues, hasWarnings, disconnected;
         cbn [api_connected files_available backup_available health_error];
         rewrite ?Hdefault;
         repeat split; intros; (reflexivity || discriminate || auto)).
  destruct (data r1) as [[| b1 | n1 | s1 | items1 | fields1] |];
    destruct (data r2) as [[| b2 | n2 | s2 | items2 | fields2] |];
    unfold act_bind, lift, get_prop, ret, throw, now_text, set, setHealth, setChecking;
    cbn [view outputs];
    eexists _, r1, w1, r2, w2;
    (split; [first [exact E1 | reflexivity] |]);
    (split; [first [exact E2 | reflexivity] |]); (split; [reflexivity |]);
    unfold hasIssues, hasWarnings, disconnected;
    cbn [api_connected files_available backup_available generation_completed
         health_error last_checked truthy negb orb andb String.eqb Ascii.eqb Bool.eqb];
    repeat split; intros; try (reflexivity || discriminate || assumption).
Qed.

(** X23: checkHealth always ends without throwing and leaves a health
    status, with checking back to false, after both of its apiCalls were
    made one after the other (the second also when the first fails: between
    two and six requests).  The status says api_connected only when both
    calls succeeded, and then carries no error; otherwise every other flag is
    false and the error is truthy.  So the panel has issues exactly when it
    is not connected, and never shows issues and warnings together. *)
Theorem checkHealth_settles :
  forall net API_BASE coerced_positive toLocaleTimeString u w,
    exists h r1 w1 r2 w2,
      apiCall net (API_BASE ++ "/debug/info") [] 3 w = (Normal r1, w1) /\
      apiCall net (API_BASE ++ "/generation/status") [] 3 w1 = (Normal r2, w2) /\
      checkHealth net API_BASE coerced_positive toLocaleTimeString u w
      = (Normal tt,
         {| view := {| health := Some h; checking := false |};
            outputs := outputs u |},
         w2) /\
      (calls w + 2 <= calls w2 <= calls w + 6)%nat /\
      (api_connected h = true ->
       success r1 = true /\ success r2 = true /\ health_error h = None) /\
      (api_connected h = false ->
       files_available h = false /\ backup_available h = false /\
       generation_completed h = JBool false /\ truthy (health_error h) = true) /\
      hasIssues h = negb (api_connected h) /\
      hasIssues h && hasWarnings h = false.
Proof.
  intros net API_BASE coerced_positive toLocaleTimeString u w.
  destruct (checkHealth_status net API_BASE coerced_positive toLocaleTimeString u w)
    as (h & r1 & w1 & r2 & w2 & E1 & E2 & Hrun & _ & Hon & Hoff & Hissues & Hexcl).
  exists h, r1, w1, r2, w2.
  pose proof (apiCall_calls net (API_BASE ++ "/debug/info") w) as Hc1.
  pose proof (apiCall_calls net (API_BASE ++ "/generation/status") w1) as Hc2.
  rewrite E1 in Hc1. rewrite E2 in Hc2. cbn [snd] in Hc1, Hc2.
  repeat split; try assumption; try lia; try (apply Hon; assumption);
    try (apply Hoff; assumption).
Qed.

(** ** The generator page *)

Section GeneratorProperties.

Variable net : nat -> fetch_outcome * N.
Variable API_BASE : string.
Variable trim : string -> string.
Variable toLowerCase : string -> string.
Variable JSON_parse : string -> promise json.
Variable ToString : json -> string.

Lemma settles_ret {S A} (a : A) : settles (@act_ret S A a).
Proof. intros u w. discriminate. Qed.

Lemma settles_bind {S A B} (m : Act S A) (k : A -> Act S B) :
  settles m -> (forall a, settles (k a)) -> settles (act_bind m k).
Proof.
  intros Hm Hk u w. unfold act_bind. specialize (Hm u w).
  destruct (m u w) as [[[a | t |] u'] w']; simpl in *;
    [apply Hk | discriminate | now elim Hm].
Qed.

Lemma settles_try {S A} (m : Act S A) (handler : thrown -> Act S A) :
  settles m -> (forall t, settles (handler t)) -> settles (act_try m handler).
Proof.
  intros Hm Hh u w. unfold act_try. specialize (Hm u w).
  destruct (m u w) as [[[a | t |] u'] w']; simpl in *;
    [discriminate | apply Hh | now elim Hm].
Qed.

Lemma settles_lift {S A} (e : Eff A) :
  (forall w, fst (e w) <> Stuck) -> settles (@lift S A e).
Proof.
  intros He u w. unfold lift. specialize (He w).
  destruct (e w) as [c w']. exact He.
Qed.

Lemma settles_set {S} (f : S -> S) : settles (set f).
Proof. intros u w. discriminate. Qed.

Lemma settles_put {S} (o : output) : settles (@put S o).
Proof. intros u w. discriminate. Qed.

Lemma settles_if {S A} (b : bool) (m1 m2 : Act S A) :
  settles m1 -> settles m2 -> settles (if b then m1 else m2).
Proof. destruct b; auto. Qed.

Lemma await_settles {A} (p : promise A) (w : World) : fst (await p w) <> Stuck.
Proof. destruct p; discriminate. Qed.

Lemma get_prop_settles (v : json) (key : string) (w : World) :
  fst (get_prop v key w) <> Stuck.
Proof. destruct v; discriminate. Qed.

Lemma fetch_settles url options (w : World) : fst (fetch net url options w) <> Stuck.
Proof.
  unfold fetch. destruct (net (calls w)) as [[r | t] latency]; discriminate.
Qed.

Lemma fetch_with_signal_settles url options deadline (w : World) :
  fst (fetch_with_signal net url options deadline w) <> Stuck.
Proof.
  unfold fetch_with_signal. destruct (net (calls w)) as [[r | t] latency];
    destruct (deadline <=? clock w + Z.of_N latency); discriminate.
Qed.

Lemma rejection_message_completes (response : Response) (fallback : string) (w : World) :
  fst (rejection_message JSON_parse ToString response fallback w) <> Stuck.
Proof.
  unfold rejection_message, bind, try_catch, await, get_prop, ret, throw.
  destruct (text_body response) as [txt | t]; [| discriminate].
  destruct (JSON_parse txt) as [[| b | n | s | items | fields] | t];
    discriminate.
Qed.

Lemma waitForGenerationCompletion_settles maxWaitTime (w : World) :
  fst (waitForGenerationCompletion net API_BASE maxWaitTime w) <> Stuck.
Proof.
  destruct (waitForGenerationCompletion_ends net API_BASE maxWaitTime w)
    as (result & w' & Hrun & [-> | ->] & _); rewrite Hrun; discriminate.
Qed.

Ltac settle :=
  repeat first
    [ apply settles_bind; [| intros ?]
    | apply settles_try; [| intros ?]
    | apply settles_if
    | apply settles_ret
    | apply settles_set
    | apply settles_put
    | apply settles_lift; intros ?;
      first [ apply await_settles | apply get_prop_settles | apply fetch_settles
            | apply fetch_with_signal_settles | apply rejection_message_completes
            | apply waitForGenerationCompletion_settles | discriminate ] ].

Lemma create_course_settles : settles (create_course net API_BASE).
Proof. unfold create_course. settle. Qed.

Lemma show_preview_settles request generateResult :
  settles (show_preview net API_BASE ToString request generateResult).
Proof. unfold show_preview. settle. Qed.

Lemma generation_flow_settles user file request :
  settles (generation_flow net API_BASE JSON_parse ToString user file request).
Proof.
  unfold generation_flow. settle.
Qed.

(** The [catch] block always completes, with one destructive toast last. *)
Lemma report_failure_eq (error : thrown) (u : Ui GeneratorView) (w : World) :
  exists title description,
    report_failure error u w
    = (Normal tt,
       {| view := view u;
          outputs := (outputs u ++ [ConsoleError "Generation error:" [LogThrown error]])
                       ++ [Toast title description true] |},
       w).
Proof.
  unfold report_failure, act_bind, put. cbn [view outputs].
  destruct error as [e | | s]; [destruct (String.eqb (name e) "AbortError") |..];
    eexists _, _; reflexivity.
Qed.

End GeneratorProperties.

Section GeneratorRuns.

Variable net : nat -> fetch_outcome * N.
Variable API_BASE : string.
Variable trim : string -> string.
Variable JSON_parse : string -> promise json.
Variable ToString : json -> string.

Lemma fetch_with_signal_in_time url options deadline (w : World) o latency :
  net (calls w) = (o, latency) ->
  clock w + Z.of_N latency < deadline ->
  fetch_with_signal net url options deadline w
  = (settled o, after_attempt url o (Z.of_N latency) w).
Proof.
  intros Hnet Hfast. unfold fetch_with_signal. rewrite Hnet.
  replace (deadline <=? clock w + Z.of_N latency) with false
    by (symmetry; apply Z.leb_gt; lia).
  reflexivity.
Qed.

Lemma fetch_with_signal_aborted url options deadline (w : World) :
  deadline <= clock w + Z.of_N (snd (net (calls w))) ->
  fetch_with_signal net url options deadline w
  = (Throws (ThrownError AbortError),
     after_attempt url (FetchThrows (ThrownError AbortError))
                   (Z.max 0 (deadline - clock w)) w).
Proof.
  intros Hslow. unfold fetch_with_signal.
  destruct (net (calls w)) as [o latency]. cbn [snd] in Hslow.
  replace (deadline <=? clock w + Z.of_N latency) with true
    by (symmetry; apply Z.leb_le; lia).
  reflexivity.
Qed.

(** Past its three guards, [generatePersonalizedContent] is its flow between
    the two writes to [isGenerating]. *)
Lemma generatePersonalizedContent_guarded user file (u : Ui GeneratorView) (w : World) :
  canGenerate trim (contentRequest (view u)) = true ->
  uploadedFile (view u) = Some file ->
  generatePersonalizedContent net API_BASE trim JSON_parse ToString (Some user) u w
  = act_finally
      (act_try (generation_flow net API_BASE JSON_parse ToString user file
                                (contentRequest (view u)))
               report_failure)
      (set (setIsGenerating false))
      {| view := setIsGenerating true (view u); outputs := outputs u |} w.
Proof.
  intros Hcan Hfile. unfold generatePersonalizedContent.
  rewrite Hcan, Hfile. reflexivity.
Qed.

(** A run of the flow that throws: what the page is left with. *)
Lemma generatePersonalizedContent_thrown user file (u u1 : Ui GeneratorView)
      (w w1 : World) (t : thrown) :
  canGenerate trim (contentRequest (view u)) = true ->
  uploadedFile (view u) = Some file ->
  generation_flow net API_BASE JSON_parse ToString user file (contentRequest (view u))
                  {| view := setIsGenerating true (view u); outputs := outputs u |} w
  = (Throws t, u1, w1) ->
  exists title description,
    generatePersonalizedContent net API_BASE trim JSON_parse ToString (Some user) u w
    = (Normal tt,
       {| view := setIsGenerating false (view u1);
          outputs := (outputs u1 ++ [ConsoleError "Generation error:" [LogThrown t]])
                       ++ [Toast title description true] |},
       w1) /\
    Toast title description true
    = match t with
      | ThrownError e =>
          if String.eqb (name e) "AbortError"
          then Toast "Generation Timeout"
                     "The generation process took too long. Please try again or contact support."
                     true
          else Toast "Generation Failed" (message e) true
      | _ => Toast "Generation Failed"
                   "Failed to generate content. Please check your internet connection and try again."
                   true
      end.
Proof.
  intros Hcan Hfile Hflow.
  rewrite (generatePersonalizedContent_guarded user file u w Hcan Hfile).
  unfold act_finally, act_try. rewrite Hflow.
  unfold report_failure, act_bind, put, set. cbn [view outputs].
  destruct t as [e | | s]; [destruct (String.eqb (name e) "AbortError") |..];
    eexists _, _; split; reflexivity.
Qed.

End GeneratorRuns.

(** X24: after any file-change event the selection is coherent: a file is
    held exactly when curriculumFileSelected is true; the file held is the
    one just chosen, its name is the one shown, and its lower-cased name ends
    with one of the allowed types.  A missing or refused file also drops a
    file that was selected before.  The other fields of the request and the
    world are untouched. *)
Theorem handleFileChange_selection :
  forall toLowerCase file allowedTypes label u w,
    exists u',
      handleFileChange toLowerCase file allowedTypes label u w = (Normal tt, u', w) /\
      (curriculumFileSelected (contentRequest (view u')) = true
       <-> uploadedFile (view u') <> None) /\
      (forall f, uploadedFile (view u') = Some f ->
                 file = Some f /\
                 curriculumFileName (contentRequest (view u')) = Some (file_name f) /\
                 existsb (fun type => ends_with (toLowerCase (file_name f)) type)
                         allowedTypes = true) /\
      (uploadedFile (view u') = None ->
       curriculumFileName (contentRequest (view u')) = None) /\
      topic (contentRequest (view u')) = topic (contentRequest (view u)) /\
      difficulty (contentRequest (view u')) = difficulty (contentRequest (view u)) /\
      duration (contentRequest (view u')) = duration (contentRequest (view u)) /\
      teachingStyle (contentRequest (view u')) = teachingStyle (contentRequest (view u)).
Proof.
  intros toLowerCase file allowedTypes label u w.
  unfold handleFileChange, act_bind, put, set. cbn [view outputs].
  destruct file as [f |];
    [destruct (existsb _ allowedTypes) eqn:Hvalid; cbn [negb] |];
    eexists; (split; [reflexivity |]);
    cbn [view contentRequest uploadedFile select_file setUploadedFile
         curriculumFileSelected curriculumFileName topic difficulty duration
         teachingStyle];
    repeat split; intros; try discriminate; try congruence;
    match goal with
    | H : Some _ = Some _ |- _ =>
        injection H as <-; first [reflexivity | exact Hvalid]
    end.
Qed.

Lemma handleFileChange_selection_witness :
  exists u',
    handleFileChange lower_pdf (Some syllabus) [".pdf"] "curriculum"
                     (mkUi Generator_initial []) w0
    = (Normal tt, u', w0) /\
    uploadedFile (view u') = Some syllabus /\
    curriculumFileName (contentRequest (view u')) = Some "Syllabus.PDF".
Proof.
  destruct (handleFileChange_selection lower_pdf (Some syllabus) [".pdf"] "curriculum"
                                       (mkUi Generator_initial []) w0)
    as (u' & Hrun & _ & Hheld & _).
  exists u'. split; [exact Hrun |].
  assert (Hfile : uploadedFile (view u') = Some syllabus).
  { vm_compute in Hrun. injection Hrun as <-. reflexivity. }
  split; [exact Hfile |]. apply (Hheld syllabus Hfile).
Defined.

(** X25: generatePersonalizedContent does nothing but warn when a mandatory
    field is missing or nobody is signed in: it issues no request, leaves the
    state (isGenerating included) as it was, and puts out one destructive
    toast. *)
Theorem generatePersonalizedContent_guards :
  forall net API_BASE trim JSON_parse ToString user u w,
    canGenerate trim (contentRequest (view u)) = false \/ user = None ->
    exists title description,
      generatePersonalizedContent net API_BASE trim JSON_parse ToString user u w
      = (Normal tt,
         {| view := view u;
            outputs := outputs u ++ [Toast title description true] |},
         w) /\
      (title = "Missing Information" \/ title = "Authentication Required").
Proof.
  intros net API_BASE trim JSON_parse ToString user u w Hguard.
  unfold generatePersonalizedContent, put.
  destruct (canGenerate trim (contentRequest (view u))); cbn [negb].
  - destruct Hguard as [Hguard | ->]; [discriminate |].
    eexists _, _. split; [reflexivity | right; reflexivity].
  - eexists _, _. split; [reflexivity | left; reflexivity].
Qed.

Lemma generatePersonalizedContent_guards_witness :
  exists title description,
    generatePersonalizedContent accepting_backend "" no_trim reject_all opaque_text
                                (Some teacher) (mkUi Generator_initial []) w0
    = (Normal tt,
       {| view := Generator_initial;
          outputs := [] ++ [Toast title description true] |},
       w0) /\
    (title = "Missing Information" \/ title = "Authentication Required").
Proof.
  apply (generatePersonalizedContent_guards
           accepting_backend "" no_trim reject_all opaque_text (Some teacher)
           (mkUi Generator_initial []) w0).
  left. reflexivity.
Defined.

(** X26: whatever the network, the parser and the backend do,
    generatePersonalizedContent ends without throwing, and when it got past
    its guards isGenerating is false afterwards: the page never stays in the
    generating state. *)
Theorem generatePersonalizedContent_settles :
  forall net API_BASE trim JSON_parse ToString user u w,
    exists u' w',
      generatePersonalizedContent net API_BASE trim JSON_parse ToString user u w
      = (Normal tt, u', w') /\
      (isGenerating (view u) = false -> isGenerating (view u') = false) /\
      (canGenerate trim (contentRequest (view u)) = true ->
       user <> None -> uploadedFile (view u) <> None ->
       isGenerating (view u') = false).
Proof.
  intros net API_BASE trim JSON_parse ToString user u w.
  unfold generatePersonalizedContent.
  destruct (canGenerate trim (contentRequest (view u))); cbn [negb];
    [| eexists _, _; split; [reflexivity |]; split; [auto | discriminate]].
  destruct user as [user |];
    [| eexists _, _; split; [reflexivity |]; split; [auto |];
       intros _ H; now elim H].
  destruct (uploadedFile (view u)) as [file |];
    [| eexists _, _; split; [reflexivity |]; split; [auto |];
       intros _ _ H; now elim H].
  unfold act_bind at 1, set at 1, act_finally, act_try. cbn [view outputs].
  pose proof (generation_flow_settles net API_BASE JSON_parse ToString user file
                (contentRequest (view u))
                {| view := setIsGenerating true (view u); outputs := outputs u |} w)
    as Hsettles.
  destruct (generation_flow net API_BASE JSON_parse ToString user file
                            (contentRequest (view u)) _ w)
    as [[[[] | t |] u1] w1]; cbn [fst] in Hsettles; [| | now elim Hsettles].
  - eexists _, _. split; [reflexivity |]. split; reflexivity.
  - destruct (report_failure_eq t u1 w1) as (title & description & ->).
    eexists _, _. split; [reflexivity |]. split; reflexivity.
Qed.

(** X27: the course entry is best effort: whatever the network answers to
    the create request (a rejection, an error status, a body that does not
    parse), the step completes normally after that one request and leaves the
    page state as it was. *)
Theorem create_course_best_effort :
  forall net API_BASE u w,
    exists u' w',
      create_course net API_BASE u w = (Normal tt, u', w') /\
      view u' = view u /\
      calls w' = S (calls w).
Proof.
  intros net API_BASE u w.
  unfold create_course, act_try, act_bind, lift, fetch, put, act_ret.
  destruct (net (calls w)) as [[r | t] latency]; cbn [settled].
  - destruct (ok r); [| eexists _, _; repeat split].
    unfold await. destruct (json_body r) as [v | t];
      eexists _, _; repeat split.
  - eexists _, _; repeat split.
Qed.

(** The loop of the generator's poller gives up only when its time is spent. *)
Lemma wait_loop_deadline net API_BASE (fuel : nat) :
  forall startTime maxWaitTime w w',
    wait_loop net API_BASE fuel startTime maxWaitTime w
    = (Throws (ThrownError (newError "Generation process timed out")), w') ->
    maxWaitTime <= clock w' - startTime.
Proof.
  induction fuel as [| fuel IH]; intros startTime maxWaitTime w w'.
  - simpl. unfold bind, Date_now.
    destruct (clock w - startTime <? maxWaitTime) eqn:Htest; [discriminate |].
    intros H. injection H as <-. apply Z.ltb_ge in Htest. exact Htest.
  - cbn [wait_loop]. unfold bind at 1. unfold Date_now at 1.
    destruct (clock w - startTime <? maxWaitTime) eqn:Htest.
    2:{ intros H. injection H as <-. apply Z.ltb_ge in Htest. exact Htest. }
    unfold bind at 1. rewrite status_check_eq.
    destruct (verdict_of (fst (net (calls w)))) as [| | t].
    + discriminate.
    + unfold bind, sleep. cbn [fst snd]. apply IH.
    + unfold bind, sleep, console_warn, emit. cbn [fst snd]. apply IH.
Qed.

(** X28: when the poller's five minutes run out, the generator reports a
    failure.  With the upload and the generation request accepted in time and
    a backend that never reports completion, generatePersonalizedContent
    stops after the wait, at least 300 s after the generation answer: it asks
    neither for the course entry nor for the preview, leaves the generated
    content as it was, and its last outputs are the logged error and the
    toast 'Generation Failed' / 'Generation process timed out'. *)
Theorem generatePersonalizedContent_poll_exhausted :
  forall net API_BASE trim JSON_parse ToString user file u w r1 l1 v1 r2 l2 v2,
    canGenerate trim (contentRequest (view u)) = true ->
    uploadedFile (view u) = Some file ->
    never_completes net ->
    net (calls w) = (FetchResponse r1, l1) ->
    ok r1 = true -> json_body r1 = Resolves v1 ->
    net (S (calls w)) = (FetchResponse r2, l2) ->
    ok r2 = true -> json_body r2 = Resolves v2 ->
    Z.of_N l1 + Z.of_N l2 < API_TIMEOUT ->
    let w2 := after_attempt (API_BASE ++ "/generate-content/") (FetchResponse r2)
                (Z.of_N l2)
                (after_attempt (API_BASE ++ "/upload-curriculum/") (FetchResponse r1)
                               (Z.of_N l1) w) in
    let w' := snd (waitForGenerationCompletion net API_BASE 300000 w2) in
    exists u' earlier,
      generatePersonalizedContent net API_BASE trim JSON_parse ToString (Some user) u w
      = (Normal tt, u', w') /\
      clock w2 + 300000 <= clock w' /\
      generatedContent (view u') = generatedContent (view u) /\
      isGenerating (view u') = false /\
      outputs u'
      = (earlier
           ++ [ConsoleError "Generation error:"
                            [LogThrown (ThrownError (newError "Generation process timed out"))];
               Toast "Generation Failed" "Generation process timed out" true])%list.
Proof.
  intros net API_BASE trim JSON_parse ToString user file u w r1 l1 v1 r2 l2 v2
         Hcan Hfile Hnever Hnet1 Hok1 Hjson1 Hnet2 Hok2 Hjson2 Hfast w2 w'.
  destruct (waitForGenerationCompletion_ends net API_BASE 300000 w2)
    as (result & w3 & Hwait & _ & Hthrows).
  specialize (Hthrows Hnever). subst result.
  assert (Hw' : w' = w3) by (unfold w'; rewrite Hwait; reflexivity).
  assert (Hclock : clock w2 + 300000 <= clock w3).
  { unfold waitForGenerationCompletion, bind, Date_now in Hwait.
    apply wait_loop_deadline in Hwait. lia. }
  assert (Hflow : exists outs,
             generation_flow net API_BASE JSON_parse ToString user file
                             (contentRequest (view u))
                             {| view := setIsGenerating true (view u);
                                outputs := outputs u |} w
             = (Throws (ThrownError (newError "Generation process timed out")),
                {| view := setIsGenerating true (view u); outputs := outs |}, w3)).
  { eexists. unfold generation_flow.
    unfold act_bind at 1, lift at 1, Date_now at 1.
    unfold act_bind at 1, put at 1. cbn [view outputs].
    unfold act_bind at 1, lift at 1.
    rewrite (fetch_with_signal_in_time net _ _ _ _ _ _ Hnet1)
      by (unfold API_TIMEOUT in *; lia).
    cbn [settled]. rewrite Hok1. cbn [negb].
    unfold act_bind at 1, act_ret at 1.
    unfold act_bind at 1, lift at 1, await at 1. rewrite Hjson1.
    unfold act_bind at 1, put at 1. cbn [view outputs].
    unfold act_bind at 1, put at 1. cbn [view outputs].
    unfold act_bind at 1, lift at 1.
    rewrite (fetch_with_signal_in_time net _ _ _ _ (FetchResponse r2) l2)
      by (cbn [after_attempt calls clock]; (assumption || unfold API_TIMEOUT in *; lia)).
    cbn [settled]. rewrite Hok2. cbn [negb].
    unfold act_bind at 1, act_ret at 1.
    unfold act_bind at 1, lift at 1, await at 1. rewrite Hjson2.
    unfold act_bind at 1, put at 1. cbn [view outputs].
    unfold act_bind at 1, lift at 1. fold w2. rewrite Hwait.
    reflexivity. }
  destruct Hflow as (outs & Hflow).
  destruct (generatePersonalizedContent_thrown
              net API_BASE trim JSON_parse ToString user file u _ w w3 _
              Hcan Hfile Hflow)
    as (title & description & Hrun & Htoast).
  rewrite Hw'. eexists _, _. split; [exact Hrun |].
  cbn [view outputs generatedContent isGenerating setIsGenerating].
  injection Htoast as -> ->.
  repeat split; [exact Hclock |]. rewrite <- app_assoc. reflexivity.
Qed.

Lemma generatePersonalizedContent_poll_exhausted_witness :
  let w2 := after_attempt "/generate-content/"
              (FetchResponse (json_response 200 "OK" (JObj [("total_files", JNum 12)])
                                            "{total_files: 12}"))
              250
              (after_attempt "/upload-curriculum/"
                 (FetchResponse (json_response 200 "OK" (JObj [("total_files", JNum 12)])
                                               "{total_files: 12}"))
                 250 w0) in
  let w' := snd (waitForGenerationCompletion accepting_backend "" 300000 w2) in
  exists u' earlier,
    generatePersonalizedContent accepting_backend "" no_trim reject_all opaque_text
                                (Some teacher) (mkUi ready_view []) w0
    = (Normal tt, u', w') /\
    clock w2 + 300000 <= clock w' /\
    generatedContent (view u') = JStr "" /\
    isGenerating (view u') = false /\
    outputs u'
    = (earlier
         ++ [ConsoleError "Generation error:"
                          [LogThrown (ThrownError (newError "Generation process timed out"))];
             Toast "Generation Failed" "Generation process timed out" true])%list.
Proof.
  apply (generatePersonalizedContent_poll_exhausted
           accepting_backend "" no_trim reject_all opaque_text teacher syllabus
           (mkUi ready_view []) w0
           (json_response 200 "OK" (JObj [("total_files", JNum 12)]) "{total_files: 12}")
           250%N (JObj [("total_files", JNum 12)])
           (json_response 200 "OK" (JObj [("total_files", JNum 12)]) "{total_files: 12}")
           250%N (JObj [("total_files", JNum 12)]));
    try reflexivity.
  intros n. reflexivity.
Defined.

(** X29: a refused upload ends the run after its single request with the
    toast 'Generation Failed', whose text is read from the answer in this
    order: the body is read as text first and then parsed; when it parses to
    an object with a truthy [detail], the text of that detail; when it parses
    to an object without one, 'File upload failed.'; when it does not parse,
    the body text itself if it is not empty, else 'File upload failed.'. *)
Theorem generatePersonalizedContent_upload_refused :
  forall net API_BASE trim JSON_parse ToString user file u w r latency txt,
    canGenerate trim (contentRequest (view u)) = true ->
    uploadedFile (view u) = Some file ->
    net (calls w) = (FetchResponse r, latency) ->
    Z.of_N latency < API_TIMEOUT ->
    ok r = false ->
    text_body r = Resolves txt ->
    exists u' description earlier,
      generatePersonalizedContent net API_BASE trim JSON_parse ToString (Some user) u w
      = (Normal tt, u',
         after_attempt (API_BASE ++ "/upload-curriculum/") (FetchResponse r)
                       (Z.of_N latency) w) /\
      isGenerating (view u') = false /\
      outputs u'
      = (earlier ++ [Toast "Generation Failed" description true])%list /\
      (forall fields detail,
          JSON_parse txt = Resolves (JObj fields) ->
          lookup "detail" fields = Some detail -> truthy (Some detail) = true ->
          description = text_of ToString detail) /\
      (forall fields,
          JSON_parse txt = Resolves (JObj fields) ->
          truthy (lookup "detail" fields) = false ->
          description = "File upload failed.") /\
      (forall t,
          JSON_parse txt = Rejects t ->
          description = if String.eqb txt "" then "File upload failed." else txt).
Proof.
  intros net API_BASE trim JSON_parse ToString user file u w r latency txt
         Hcan Hfile Hnet Hfast Hok Htext.
  assert (Hmessage : exists description,
             rejection_message JSON_parse ToString r "File upload failed."
                               (after_attempt (API_BASE ++ "/upload-curriculum/")
                                              (FetchResponse r) (Z.of_N latency) w)
             = (Normal description,
                after_attempt (API_BASE ++ "/upload-curriculum/")
                              (FetchResponse r) (Z.of_N latency) w) /\
             (forall fields detail,
                 JSON_parse txt = Resolves (JObj fields) ->
                 lookup "detail" fields = Some detail -> truthy (Some detail) = true ->
                 description = text_of ToString detail) /\
             (forall fields,
                 JSON_parse txt = Resolves (JObj fields) ->
                 truthy (lookup "detail" fields) = false ->
                 description = "File upload failed.") /\
             (forall t,
                 JSON_parse txt = Rejects t ->
                 description = if String.eqb txt "" then "File upload failed." else txt)).
  { unfold rejection_message, bind, try_catch, await, get_prop, ret, throw.
    rewrite Htext.
    destruct (JSON_parse txt) as [[| b | n | s | items | fields] | t];
      eexists; (split; [reflexivity |]);
      repeat split; intros; try discriminate; try reflexivity;
      match goal with
      | H : Resolves (JObj _) = Resolves (JObj _) |- _ => injection H as <-
      end;
      unfold value_or, or_else;
      repeat match goal with
             | H : lookup "detail" _ = _ |- _ => rewrite H
             | H : truthy _ = _ |- _ => rewrite H
             end;
      reflexivity. }
  destruct Hmessage as (description & Hmessage & Hcases).
  assert (Hflow : exists outs,
             generation_flow net API_BASE JSON_parse ToString user file
                             (contentRequest (view u))
                             {| view := setIsGenerating true (view u);
                                outputs := outputs u |} w
             = (Throws (ThrownError (newError description)),
                {| view := setIsGenerating true (view u); outputs := outs |},
                after_attempt (API_BASE ++ "/upload-curriculum/") (FetchResponse r)
                              (Z.of_N latency) w)).
  { eexists. unfold generation_flow.
    unfold act_bind at 1, lift at 1, Date_now at 1.
    unfold act_bind at 1, put at 1. cbn [view outputs].
    unfold act_bind at 1, lift at 1.
    rewrite (fetch_with_signal_in_time net _ _ _ _ _ _ Hnet)
      by (unfold API_TIMEOUT in *; lia).
    cbn [settled]. rewrite Hok. cbn [negb].
    unfold act_bind at 1. unfold act_bind at 1, lift at 1. rewrite Hmessage.
    reflexivity. }
  destruct Hflow as (outs & Hflow).
  destruct (generatePersonalizedContent_thrown
              net API_BASE trim JSON_parse ToString user file u _ w _ _
              Hcan Hfile Hflow)
    as (title & description' & Hrun & Htoast).
  cbn [name newError message] in Htoast. injection Htoast as -> ->.
  eexists _, description, _. split; [exact Hrun |].
  cbn [view outputs isGenerating setIsGenerating].
  split; [reflexivity |]. split; [reflexivity | exact Hcases].
Qed.

Lemma generatePersonalizedContent_upload_refused_witness :
  exists u' description earlier,
    generatePersonalizedContent refusing_backend "" no_trim reject_all opaque_text
                                (Some teacher) (mkUi ready_view []) w0
    = (Normal tt, u',
       after_attempt ("" ++ "/upload-curriculum/")
                     (fst (refusing_backend 0%nat)) (Z.of_N 0) w0) /\
    isGenerating (view u') = false /\
    outputs u' = (earlier ++ [Toast "Generation Failed" description true])%list /\
    description = "Only PDF files are allowed".
Proof.
  destruct (generatePersonalizedContent_upload_refused
              refusing_backend "" no_trim reject_all opaque_text teacher syllabus
              (mkUi ready_view []) w0
              {| status := 400; statusText := "Bad Request";
                 json_body := Resolves (JObj [("detail", JStr "Only PDF files are allowed")]);
                 text_body := Resolves "Only PDF files are allowed";
               has_body := true |}
              0%N "Only PDF files are allowed"
              eq_refl eq_refl eq_refl eq_refl eq_refl eq_refl)
    as (u' & description & earlier & Hrun & Hoff & Hout & _ & _ & Hraw).
  exists u', description, earlier.
  repeat split; try assumption.
  apply (Hraw _ eq_refl).
Defined.

(** X30: an upload that is still pending when the five-minute timer fires
    is aborted and ends the run: one request, API_TIMEOUT on the clock, and
    the toast 'Generation Timeout' instead of 'Generation Failed'. *)
Theorem generatePersonalizedContent_timeout :
  forall net API_BASE trim JSON_parse ToString user file u w,
    canGenerate trim (contentRequest (view u)) = true ->
    uploadedFile (view u) = Some file ->
    API_TIMEOUT <= Z.of_N (snd (net (calls w))) ->
    exists u' earlier,
      generatePersonalizedContent net API_BASE trim JSON_parse ToString (Some user) u w
      = (Normal tt, u',
         after_attempt (API_BASE ++ "/upload-curriculum/")
                       (FetchThrows (ThrownError AbortError)) API_TIMEOUT w) /\
      isGenerating (view u') = false /\
      outputs u'
      = (earlier
           ++ [Toast "Generation Timeout"
                     "The generation process took too long. Please try again or contact support."
                     true])%list.
Proof.
  intros net API_BASE trim JSON_parse ToString user file u w Hcan Hfile Hslow.
  assert (Hflow : exists outs,
             generation_flow net API_BASE JSON_parse ToString user file
                             (contentRequest (view u))
                             {| view := setIsGenerating true (view u);
                                outputs := outputs u |} w
             = (Throws (ThrownError AbortError),
                {| view := setIsGenerating true (view u); outputs := outs |},
                after_attempt (API_BASE ++ "/upload-curriculum/")
                              (FetchThrows (ThrownError AbortError)) API_TIMEOUT w)).
  { eexists. unfold generation_flow.
    unfold act_bind at 1, lift at 1, Date_now at 1.
    unfold act_bind at 1, put at 1. cbn [view outputs].
    unfold act_bind at 1, lift at 1.
    rewrite fetch_with_signal_aborted by lia.
    replace (Z.max 0 (clock w + API_TIMEOUT - clock w)) with API_TIMEOUT
      by (unfold API_TIMEOUT; lia).
    reflexivity. }
  destruct Hflow as (outs & Hflow).
  destruct (generatePersonalizedContent_thrown
              net API_BASE trim JSON_parse ToString user file u _ w _ _
              Hcan Hfile Hflow)
    as (title & description & Hrun & Htoast).
  cbn [name AbortError String.eqb Ascii.eqb Bool.eqb] in Htoast.
  injection Htoast as -> ->.
  eexists _, _. split; [exact Hrun |].
  cbn [view outputs isGenerating setIsGenerating]. split; reflexivity.
Qed.

Lemma generatePersonalizedContent_timeout_witness :
  exists u' earlier,
    generatePersonalizedContent glacial_backend "" no_trim reject_all opaque_text
                                (Some teacher) (mkUi ready_view []) w0
    = (Normal tt, u',
       after_attempt ("" ++ "/upload-curriculum/")
                     (FetchThrows (ThrownError AbortError)) API_TIMEOUT w0) /\
    isGenerating (view u') = false /\
    outputs u'
    = (earlier
         ++ [Toast "Generation Timeout"
                   "The generation process took too long. Please try again or contact support."
                   true])%list.
Proof.
  apply (generatePersonalizedContent_timeout
           glacial_backend "" no_trim reject_all opaque_text teacher syllabus
           (mkUi ready_view []) w0); [reflexivity | reflexivity | vm_compute; discriminate].
Defined.
